(** * Kaggle MCP server: a shallow embedding of [kaggle_mcp/server.py]

    The server exposes the Kaggle client ([kaggle.api]) as tools.  Every tool
    ("adapter") validates a few preconditions, invokes one operation of the
    client, and shapes the outcome into a dict with a [status] and (mostly) a
    [message].  The embedding keeps the source's structure: one definition
    per tool, written in a small state-and-exception monad whose state holds
    the file system and a log of the delegate invocations. *)

From stdpp Require Import gmap strings list pretty.
From Stdlib Require Import ZArith Lia Ascii.

Set Warnings "-register-all".
Local Open Scope Z_scope.
Local Open Scope string_scope.

(** ** Python values *)

(** A raised exception: its class and its [str(e)]. Only instances of
    [Exception] are modelled (what [except Exception] catches). *)
Record exn := Exn { exn_class : string; exn_desc : string }.

Inductive result (A : Type) : Type :=
| Ok (a : A)
| Raise (e : exn).
Arguments Ok {A} a.
Arguments Raise {A} e.

(** The values that flow between the host, the adapters and the client.
    [PDict] is a dict with string keys, in insertion order.  [PObj] is an
    instance of a class: [obj_to_dict] is what calling its [to_dict] method
    yields ([None] when the object has no such attribute), [obj_vars] is its
    [__dict__] and [obj_props] are the attributes its class serves through
    properties. *)
Inductive pyval : Type :=
| PNone
| PBool (b : bool)
| PInt (n : Z)
| PStr (s : string)
| PList (l : list pyval)
| PDict (d : list (string * pyval))
| PObj (cls : string) (obj_to_dict : option (result pyval))
       (obj_vars : list (string * pyval)) (obj_props : list (string * pyval)).

Definition pydict := list (string * pyval).

Definition type_name (v : pyval) : string :=
  match v with
  | PNone => "NoneType"
  | PBool _ => "bool"
  | PInt _ => "int"
  | PStr _ => "str"
  | PList _ => "list"
  | PDict _ => "dict"
  | PObj cls _ _ _ => cls
  end.

(** [bool(v)] *)
Definition truthy (v : pyval) : bool :=
  match v with
  | PNone => false
  | PBool b => b
  | PInt n => negb (Z.eqb n 0)
  | PStr s => negb (String.eqb s "")
  | PList l => match l with [] => false | _ => true end
  | PDict d => match d with [] => false | _ => true end
  | PObj _ _ _ _ => true
  end.

(** [v == ""] *)
Definition is_empty_str (v : pyval) : bool :=
  match v with
  | PStr s => String.eqb s ""
  | _ => false
  end.

Definition of_opt_str (o : option string) : pyval :=
  match o with
  | Some s => PStr s
  | None => PNone
  end.

(** *** dict operations *)

Fixpoint dict_get (k : string) (d : pydict) : option pyval :=
  match d with
  | [] => None
  | (k', v) :: d' => if String.eqb k k' then Some v else dict_get k d'
  end.

(** [d[k] = v]: an existing key keeps its position. *)
Fixpoint dict_set (k : string) (v : pyval) (d : pydict) : pydict :=
  match d with
  | [] => [(k, v)]
  | (k', v') :: d' =>
      if String.eqb k k' then (k, v) :: d' else (k', v') :: dict_set k v d'
  end.

(** A dict display [{k1: v1, ..., **d, ...}]: the items are stored from left
    to right, a later one replacing an earlier one with the same key. *)
Definition dict_of (items : list (string * pyval)) : pydict :=
  fold_left (fun d kv => dict_set kv.1 kv.2 d) items [].

Definition mk_dict (items : list (string * pyval)) : pyval := PDict (dict_of items).

(** *** Strings *)

Definition slash : ascii := "/"%char.
Definition newline : ascii := "010"%char.

(** [c in s] for a one-character [c] *)
Fixpoint str_contains (c : ascii) (s : string) : bool :=
  match s with
  | EmptyString => false
  | String a s' => if Ascii.eqb a c then true else str_contains c s'
  end.

(** [s.split(c)] *)
Fixpoint str_split (c : ascii) (s : string) : list string :=
  match s with
  | EmptyString => [""]
  | String a s' =>
      if Ascii.eqb a c then "" :: str_split c s'
      else match str_split c s' with
           | [] => [String a ""]
           | w :: ws => String a w :: ws
           end
  end.

Definition starts_with_slash (s : string) : bool :=
  match s with
  | String a _ => Ascii.eqb a slash
  | EmptyString => false
  end.

Fixpoint ends_with_slash (s : string) : bool :=
  match s with
  | EmptyString => false
  | String a EmptyString => Ascii.eqb a slash
  | String _ s' => ends_with_slash s'
  end.

(** [k.startswith(p)] *)
Fixpoint str_startswith (p s : string) : bool :=
  match p, s with
  | EmptyString, _ => true
  | String a p', String b s' => if Ascii.eqb a b then str_startswith p' s' else false
  | String _ _, EmptyString => false
  end.

(** The source's f-strings print lengths in decimal. *)
Definition str_of_nat (n : nat) : string := pretty n.

(** *** Attribute access, length, iteration: the operations that may raise *)

Definition attr_error (v : pyval) (name : string) : exn :=
  Exn "AttributeError"
      ("'" +:+ type_name v +:+ "' object has no attribute '" +:+ name +:+ "'").

Definition type_error (msg : string) : exn := Exn "TypeError" msg.

(** [hasattr(v, "to_dict")] *)
Definition has_to_dict (v : pyval) : bool :=
  match v with
  | PObj _ (Some _) _ _ => true
  | _ => false
  end.

(** [v.to_dict()] *)
Definition call_to_dict (v : pyval) : result pyval :=
  match v with
  | PObj _ (Some r) _ _ => r
  | _ => Raise (attr_error v "to_dict")
  end.

(** [v.__dict__] *)
Definition py_vars (v : pyval) : result pyval :=
  match v with
  | PObj _ _ vars _ => Ok (PDict vars)
  | _ => Raise (attr_error v "__dict__")
  end.

(** [v.name] for a data attribute: properties of the class come before the
    instance's own [__dict__]. *)
Definition py_getattr (v : pyval) (name : string) : result pyval :=
  match v with
  | PObj _ _ vars props =>
      match dict_get name props with
      | Some x => Ok x
      | None =>
          match dict_get name vars with
          | Some x => Ok x
          | None => Raise (attr_error v name)
          end
      end
  | _ => Raise (attr_error v name)
  end.

(** [getattr(v, name, default)] *)
Definition py_getattr_default (v : pyval) (name : string) (dflt : pyval) : pyval :=
  match py_getattr v name with
  | Ok x => x
  | Raise _ => dflt
  end.

(** [len(v)] *)
Definition py_len (v : pyval) : result nat :=
  match v with
  | PStr s => Ok (String.length s)
  | PList l => Ok (length l)
  | PDict d => Ok (length d)
  | _ => Raise (type_error ("object of type '" +:+ type_name v +:+ "' has no len()"))
  end.

Fixpoint str_chars (s : string) : list pyval :=
  match s with
  | EmptyString => []
  | String a s' => PStr (String a "") :: str_chars s'
  end.

(** The elements a [for x in v] visits. *)
Definition py_iter (v : pyval) : result (list pyval) :=
  match v with
  | PList l => Ok l
  | PStr s => Ok (str_chars s)
  | PDict d => Ok (map (fun kv => PStr kv.1) d)
  | _ => Raise (type_error ("'" +:+ type_name v +:+ "' object is not iterable"))
  end.

(** [v.get(k)] and [v.get(k, default)]: only dicts have the method. *)
Definition py_get (v : pyval) (k : string) (dflt : pyval) : result pyval :=
  match v with
  | PDict d => Ok (default dflt (dict_get k d))
  | _ => Raise (attr_error v "get")
  end.

(** [v[k] = x] *)
Definition py_setitem (v : pyval) (k : string) (x : pyval) : result pyval :=
  match v with
  | PDict d => Ok (PDict (dict_set k x d))
  | PList _ => Raise (type_error "list indices must be integers or slices, not str")
  | _ => Raise (type_error ("'" +:+ type_name v +:+ "' object does not support item assignment"))
  end.

(** [v[k]] *)
Definition py_getitem (v : pyval) (k : string) : result pyval :=
  match v with
  | PDict d =>
      match dict_get k d with
      | Some x => Ok x
      | None => Raise (Exn "KeyError" ("'" +:+ k +:+ "'"))
      end
  | PList _ => Raise (type_error "list indices must be integers or slices, not str")
  | PStr _ => Raise (type_error "string indices must be integers, not 'str'")
  | _ => Raise (type_error ("'" +:+ type_name v +:+ "' object is not subscriptable"))
  end.

(** The items a [**v] contributes to a dict display, and [v.items()]. *)
Definition py_items (v : pyval) : result pydict :=
  match v with
  | PDict d => Ok d
  | _ => Raise (attr_error v "items")
  end.

Definition py_spread (v : pyval) : result pydict :=
  match v with
  | PDict d => Ok d
  | _ => Raise (type_error ("'" +:+ type_name v +:+ "' object is not a mapping"))
  end.

(** ** JSON text as the [json] module writes it

    What [json.dump] writes, and what [json.load] reads back from an
    object of strings.  A string is the sequence of its code points, all
    below 256. *)

Definition dquote : ascii := "034"%char.
Definition backslash : ascii := "092"%char.

Definition hex_digit (n : N) : ascii :=
  match n with
  | 0 => "0" | 1 => "1" | 2 => "2" | 3 => "3" | 4 => "4" | 5 => "5" | 6 => "6" | 7 => "7"
  | 8 => "8" | 9 => "9" | 10 => "a" | 11 => "b" | 12 => "c" | 13 => "d" | 14 => "e"
  | _ => "f"
  end%N%char.

(** The six-character escape of a code point below 256. *)
Definition escape_u (a : ascii) : string :=
  let n := N_of_ascii a in
  String backslash
    (String "u" (String "0" (String "0"
       (String (hex_digit (n / 16)) (String (hex_digit (n mod 16)) ""))))).

(** One character of a string literal: the quote, the backslash and the
    control characters are always escaped, the code points above [~] only
    under [ensure_ascii]. *)
Definition escape_char (ensure_ascii : bool) (a : ascii) : string :=
  let n := N_of_ascii a in
  if (n =? 34)%N then String backslash (String dquote "")
  else if (n =? 92)%N then String backslash (String backslash "")
  else if (n =? 10)%N then String backslash "n"
  else if (n =? 13)%N then String backslash "r"
  else if (n =? 9)%N then String backslash "t"
  else if (n =? 8)%N then String backslash "b"
  else if (n =? 12)%N then String backslash "f"
  else if (n <? 32)%N then escape_u a
  else if ensure_ascii && (126 <? n)%N then escape_u a
  else String a "".

Fixpoint escape_chars (ensure_ascii : bool) (s : string) : string :=
  match s with
  | EmptyString => ""
  | String a s' => escape_char ensure_ascii a +:+ escape_chars ensure_ascii s'
  end.

Definition json_quote (ensure_ascii : bool) (s : string) : string :=
  String dquote (escape_chars ensure_ascii s +:+ String dquote "").

Fixpoint spaces (n : nat) : string :=
  match n with
  | O => ""
  | S n' => String " " (spaces n')
  end.

(** The line break and indentation before an item at nesting [level]. *)
Definition json_newline (indent : option nat) (level : nat) : string :=
  match indent with
  | None => ""
  | Some n => String newline (spaces (n * level))
  end.

(** [", "] by default, [","] and a line break once [indent] is given. *)
Definition json_item_sep (indent : option nat) (level : nat) : string :=
  match indent with
  | None => ", "
  | Some _ => "," +:+ json_newline indent level
  end.

Fixpoint join_with (sep : string) (parts : list string) : string :=
  match parts with
  | [] => ""
  | [p] => p
  | p :: ps => p +:+ sep +:+ join_with sep ps
  end.

(** [json.dumps(v, indent=indent, ensure_ascii=ensure_ascii)], the value
    standing at nesting [level]; an object that is not JSON data raises. *)
Fixpoint json_dumps (indent : option nat) (ensure_ascii : bool) (level : nat) (v : pyval)
    : result string :=
  match v with
  | PNone => Ok "null"
  | PBool true => Ok "true"
  | PBool false => Ok "false"
  | PInt n => Ok (pretty n)
  | PStr s => Ok (json_quote ensure_ascii s)
  | PList [] => Ok "[]"
  | PList l =>
      match
        (fix items (l : list pyval) : result (list string) :=
           match l with
           | [] => Ok []
           | x :: l' =>
               match json_dumps indent ensure_ascii (S level) x with
               | Raise e => Raise e
               | Ok t =>
                   match items l' with
                   | Raise e => Raise e
                   | Ok ts => Ok (t :: ts)
                   end
               end
           end) l
      with
      | Raise e => Raise e
      | Ok ts =>
          Ok ("[" +:+ json_newline indent (S level)
              +:+ join_with (json_item_sep indent (S level)) ts
              +:+ json_newline indent level +:+ "]")
      end
  | PDict [] => Ok "{}"
  | PDict d =>
      match
        (fix items (d : list (string * pyval)) : result (list string) :=
           match d with
           | [] => Ok []
           | (k, x) :: d' =>
               match json_dumps indent ensure_ascii (S level) x with
               | Raise e => Raise e
               | Ok t =>
                   match items d' with
                   | Raise e => Raise e
                   | Ok ts => Ok ((json_quote ensure_ascii k +:+ ": " +:+ t) :: ts)
                   end
               end
           end) d
      with
      | Raise e => Raise e
      | Ok ts =>
          Ok ("{" +:+ json_newline indent (S level)
              +:+ join_with (json_item_sep indent (S level)) ts
              +:+ json_newline indent level +:+ "}")
      end
  | PObj cls _ _ _ =>
      Raise (type_error ("Object of type " +:+ cls +:+ " is not JSON serializable"))
  end.

(** *** Reading a flat object back *)

Definition hex_value (a : ascii) : option N :=
  let n := N_of_ascii a in
  if (48 <=? n)%N && (n <=? 57)%N then Some (n - 48)%N
  else if (97 <=? n)%N && (n <=? 102)%N then Some (n - 87)%N
  else if (65 <=? n)%N && (n <=? 70)%N then Some (n - 55)%N
  else None.

(** The code point of [\uXXXX], when it is below 256. *)
Definition unescape_u (a b c d : ascii) : option ascii :=
  match hex_value a, hex_value b, hex_value c, hex_value d with
  | Some 0%N, Some 0%N, Some h, Some l => Some (ascii_of_N (16 * h + l))
  | _, _, _, _ => None
  end.

Definition cons_char (a : ascii) (r : option (string * string)) : option (string * string) :=
  match r with
  | Some (s, rest) => Some (String a s, rest)
  | None => None
  end.

(** A string literal after its opening quote: the decoded string and what
    follows the closing quote. *)
Fixpoint parse_string_body (text : string) : option (string * string) :=
  match text with
  | EmptyString => None
  | String a text' =>
      if Ascii.eqb a dquote then Some ("", text')
      else if Ascii.eqb a backslash then
        match text' with
        | String e rest =>
            if Ascii.eqb e dquote then cons_char dquote (parse_string_body rest)
            else if Ascii.eqb e backslash then cons_char backslash (parse_string_body rest)
            else if Ascii.eqb e "/"%char then cons_char "/"%char (parse_string_body rest)
            else if Ascii.eqb e "n"%char then cons_char newline (parse_string_body rest)
            else if Ascii.eqb e "r"%char then cons_char "013"%char (parse_string_body rest)
            else if Ascii.eqb e "t"%char then cons_char "009"%char (parse_string_body rest)
            else if Ascii.eqb e "b"%char then cons_char "008"%char (parse_string_body rest)
            else if Ascii.eqb e "f"%char then cons_char "012"%char (parse_string_body rest)
            else if Ascii.eqb e "u"%char then
              match rest with
              | String h1 (String h2 (String h3 (String h4 rest'))) =>
                  match unescape_u h1 h2 h3 h4 with
                  | Some c => cons_char c (parse_string_body rest')
                  | None => None
                  end
              | _ => None
              end
            else None
        | EmptyString => None
        end
      else if (N_of_ascii a <? 32)%N then None
      else cons_char a (parse_string_body text')
  end.

Definition is_json_space (a : ascii) : bool :=
  let n := N_of_ascii a in
  (n =? 32)%N || (n =? 10)%N || (n =? 13)%N || (n =? 9)%N.

Fixpoint skip_spaces (text : string) : string :=
  match text with
  | String a text' => if is_json_space a then skip_spaces text' else text
  | EmptyString => ""
  end.

(** [expect c text]: [text] without leading white space and the
    character [c]. *)
Definition expect (c : ascii) (text : string) : option string :=
  match skip_spaces text with
  | String a rest => if Ascii.eqb a c then Some rest else None
  | EmptyString => None
  end.

(** The members of an object whose values are strings, after its opening
    brace and up to the closing one. *)
Fixpoint parse_members (fuel : nat) (text : string) : option (list (string * string) * string) :=
  match fuel with
  | O => None
  | S fuel' =>
      rest ← expect dquote text;
      '(key, rest) ← parse_string_body rest;
      rest ← expect ":"%char rest;
      rest ← expect dquote rest;
      '(value, rest) ← parse_string_body rest;
      match skip_spaces rest with
      | String a rest' =>
          if Ascii.eqb a "}"%char then Some ([(key, value)], rest')
          else if Ascii.eqb a ","%char then
            '(more, rest'') ← parse_members fuel' rest';
            Some ((key, value) :: more, rest'')
          else None
      | EmptyString => None
      end
  end.

(** [json.loads(text)] for the texts that are an object of strings. *)
Definition json_loads_flat (text : string) : option (list (string * string)) :=
  rest ← expect "{"%char text;
  match expect "}"%char rest with
  | Some rest' => if String.eqb (skip_spaces rest') "" then Some [] else None
  | None =>
      '(members, rest') ← parse_members (String.length text) rest;
      if String.eqb (skip_spaces rest') "" then Some members else None
  end.

(** The text [json.dump] writes for the credentials. *)
Definition credentials_text (u k : string) : string :=
  "{" +:+ json_quote true "username" +:+ ": " +:+ json_quote true u +:+ ", "
  +:+ json_quote true "key" +:+ ": " +:+ json_quote true k +:+ "}".


(** ** Paths and the file system *)

(** [os.path.join(a, b)] *)
Definition path_join (a b : string) : string :=
  if starts_with_slash b then b
  else if String.eqb a "" || ends_with_slash a then a +:+ b
  else a +:+ "/" +:+ b.

(** The file system is a finite map from locations to directories and
    regular files.  Paths are resolved textually, as [os.path.normpath]
    does; symbolic links and access rights are not modelled, so a file
    operation fails only for the shape of the tree: a missing parent, a file
    where a directory is needed, a directory where a file is.

    A location is the list of its components below the root. *)
Abbreviation location := (list string).

Fixpoint norm_parts (acc : list string) (parts : list string) : location :=
  match parts with
  | [] => rev acc
  | p :: ps =>
      if String.eqb p "" || String.eqb p "." then norm_parts acc ps
      else if String.eqb p ".." then norm_parts (tail acc) ps
      else norm_parts (p :: acc) ps
  end.

(** Where the path [p] leads when the working directory is [cwd]. *)
Definition resolve (cwd p : string) : location :=
  norm_parts []
    (if starts_with_slash p then str_split slash p
     else (str_split slash cwd ++ str_split slash p)%list).

Fixpoint join_parts (l : location) : string :=
  match l with
  | [] => ""
  | c :: l' => "/" +:+ c +:+ join_parts l'
  end.

(** [os.path.abspath(p)] *)
Definition abspath (cwd p : string) : string :=
  match resolve cwd p with
  | [] => "/"
  | l => join_parts l
  end.

(** What a regular file holds: a text, or the unfinished output of a
    [json.dump] that raised. *)
Inductive content :=
| Text (s : string)
| Truncated.

Inductive node :=
| NDir
| NFile (c : content) (mode : Z).

Definition fs_node (fs : gmap location node) (l : location) : option node :=
  match l with
  | [] => Some NDir
  | _ => fs !! l
  end.

Definition os_error (cls : string) (errno : string) (what : string) (p : string) : exn :=
  Exn cls ("[Errno " +:+ errno +:+ "] " +:+ what +:+ ": '" +:+ p +:+ "'").

(** Walks down from [pre], creating the directories that are missing. *)
Fixpoint mkdirs_from (shown : string) (pre : location) (rest : list string)
    (fs : gmap location node) : result (gmap location node) :=
  match rest with
  | [] => Ok fs
  | c :: rest' =>
      let here := (pre ++ [c])%list in
      match fs !! here with
      | Some NDir => mkdirs_from shown here rest' fs
      | Some (NFile _ _) =>
          match rest' with
          | [] => Raise (os_error "FileExistsError" "17" "File exists" shown)
          | _ => Raise (os_error "NotADirectoryError" "20" "Not a directory" shown)
          end
      | None => mkdirs_from shown here rest' (<[here := NDir]> fs)
      end
  end.

(** ** The environment and the adapters' monad *)

(** One invocation of the Kaggle client: the method, the positional and the
    keyword arguments. *)
Record api_call := ApiCall {
  api_op : string;
  api_args : list pyval;
  api_kwargs : list (string * pyval)
}.

(** How an adapter invokes the client: through
    [await loop.run_in_executor(None, lambda: ...)] or by a plain call in the
    adapter's own body. *)
Inductive dispatch := Executor | Inline.

(** What the adapters do not control: the process environment and the
    behaviour of the client, which may read and change the file system.
    The process has a working directory, which [os.getcwd()] returns, and a
    home directory; a new file gets the mode [0o666] masked by [w_umask]. *)
Record world := World {
  w_cwd : string;
  w_home : string;
  w_umask : Z;
  w_environ : gmap string string;
  w_api : api_call → gmap location node → result pyval * gmap location node
}.

(** The state threaded through an adapter: the file system, the log of the
    client invocations with their outcomes, and the exceptions its handlers
    caught. *)
Record state := State {
  st_fs : gmap location node;
  st_calls : list (dispatch * api_call * result pyval);
  st_caught : list exn
}.

Definition M (A : Type) : Type := world → state → result A * state.

#[global] Instance M_ret : MRet M := λ A a _ st, (Ok a, st).
#[global] Instance M_bind : MBind M := λ A B f m w st,
  match m w st with
  | (Ok a, st') => f a w st'
  | (Raise e, st') => (Raise e, st')
  end.

Definition raise {A} (e : exn) : M A := λ _ st, (Raise e, st).

Definition lift {A} (r : result A) : M A := λ _ st, (r, st).

(** [try: body except Exception as e: return handler e] *)
Definition try_except {A} (body : M A) (handler : exn → A) : M A := λ w st,
  match body w st with
  | (Ok a, st') => (Ok a, st')
  | (Raise e, st') =>
      (Ok (handler e),
       {| st_fs := st_fs st'; st_calls := st_calls st';
          st_caught := (st_caught st' ++ [e])%list |})
  end.

Definition invoke (how : dispatch) (c : api_call) : M pyval := λ w st,
  let '(r, fs') := w_api w c (st_fs st) in
  (r, {| st_fs := fs'; st_calls := (st_calls st ++ [(how, c, r)])%list;
         st_caught := st_caught st |}).

(** [await loop.run_in_executor(None, lambda: api.op(...))] *)
Definition run_in_executor (c : api_call) : M pyval := invoke Executor c.

(** [api.op(...)] written in the adapter body *)
Definition call_inline (c : api_call) : M pyval := invoke Inline c.

(** [os.getcwd()] *)
Definition getcwd : M string := λ w st, (Ok (w_cwd w), st).

(** [os.path.abspath(p)] *)
Definition os_abspath (p : string) : M string := λ w st, (Ok (abspath (w_cwd w) p), st).

(** Whether [p] names a directory, respectively anything at all, in [fs]. *)
Definition dir_at (w : world) (fs : gmap location node) (p : string) : bool :=
  if String.eqb p "" then false
  else match fs_node fs (resolve (w_cwd w) p) with
       | Some NDir => true
       | _ => false
       end.

Definition exists_at (w : world) (fs : gmap location node) (p : string) : bool :=
  if String.eqb p "" then false
  else match fs_node fs (resolve (w_cwd w) p) with
       | Some _ => true
       | None => false
       end.

(** [os.path.isdir(p)] *)
Definition isdir (p : string) : M bool := λ w st, (Ok (dir_at w (st_fs st) p), st).

(** [os.path.exists(p)] *)
Definition path_exists (p : string) : M bool := λ w st, (Ok (exists_at w (st_fs st) p), st).

Definition set_fs (fs : gmap location node) (st : state) : state :=
  {| st_fs := fs; st_calls := st_calls st; st_caught := st_caught st |}.

(** [os.makedirs(p, exist_ok=True)] *)
Definition makedirs (p : string) : M unit := λ w st,
  if String.eqb p "" then
    (Raise (os_error "FileNotFoundError" "2" "No such file or directory" p), st)
  else
    match mkdirs_from p [] (resolve (w_cwd w) p) (st_fs st) with
    | Ok fs' => (Ok (), set_fs fs' st)
    | Raise e => (Raise e, st)
    end.

(** [open(p, "w")]: the location to write at and the mode the file will
    have (an existing file keeps its mode, a new one gets 0o666 masked). *)
Definition open_w (w : world) (fs : gmap location node) (p : string) : result (location * Z) :=
  if String.eqb p "" then
    Raise (os_error "FileNotFoundError" "2" "No such file or directory" p)
  else
    let l := resolve (w_cwd w) p in
    match fs_node fs l with
    | Some NDir => Raise (os_error "IsADirectoryError" "21" "Is a directory" p)
    | Some (NFile _ m) => Ok (l, m)
    | None =>
        match fs_node fs (removelast l) with
        | Some NDir => Ok (l, Z.land 438 (Z.lnot (w_umask w)))
        | Some (NFile _ _) => Raise (os_error "NotADirectoryError" "20" "Not a directory" p)
        | None => Raise (os_error "FileNotFoundError" "2" "No such file or directory" p)
        end
    end.

(** [with open(p, "w", ...) as f: json.dump(v, f, indent=..., ensure_ascii=...)] *)
Definition write_json (p : string) (v : pyval) (indent : option nat) (ensure_ascii : bool)
    : M unit := λ w st,
  match open_w w (st_fs st) p with
  | Raise e => (Raise e, st)
  | Ok (l, m) =>
      match json_dumps indent ensure_ascii 0 v with
      | Ok text => (Ok (), set_fs (<[l := NFile (Text text) m]> (st_fs st)) st)
      | Raise e => (Raise e, set_fs (<[l := NFile Truncated m]> (st_fs st)) st)
      end
  end.

(** [os.chmod(p, mode)] *)
Definition chmod (p : string) (mode : Z) : M unit := λ w st,
  let l := resolve (w_cwd w) p in
  match fs_node (st_fs st) l with
  | Some (NFile c _) => (Ok (), set_fs (<[l := NFile c mode]> (st_fs st)) st)
  | Some NDir => (Ok (), st)
  | None => (Raise (os_error "FileNotFoundError" "2" "No such file or directory" p), st)
  end.

(** [os.environ.get(name)] *)
Definition environ_get (name : string) : M (option string) := λ w st,
  (Ok (w_environ w !! name), st).

(** [os.path.expanduser("~/...")] with the home directory of the process *)
Definition expanduser_home (rest : string) : M string := λ w st,
  (Ok (w_home w +:+ rest), st).

(** ** Helpers shared by the adapters *)

Fixpoint map_result {A B} (f : A → result B) (l : list A) : result (list B) :=
  match l with
  | [] => Ok []
  | x :: l' =>
      match f x with
      | Raise e => Raise e
      | Ok y =>
          match map_result f l' with
          | Raise e => Raise e
          | Ok ys => Ok (y :: ys)
          end
      end
  end.

(** [r.to_dict() if hasattr(r, "to_dict") else r.__dict__] *)
Definition to_dict_or_vars (r : pyval) : result pyval :=
  if has_to_dict r then call_to_dict r else py_vars r.

(** [isinstance(r, dict)] *)
Definition is_dict (r : pyval) : bool :=
  match r with
  | PDict _ => true
  | _ => false
  end.

(** [r.to_dict() if hasattr(r, "to_dict") else dict(r) if isinstance(r, dict)
     else r.__dict__] *)
Definition to_dict_or_dict_or_vars (r : pyval) : result pyval :=
  if has_to_dict r then call_to_dict r
  else if is_dict r then Ok r
  else py_vars r.

(** [path or os.getcwd()] *)
Definition or_getcwd (path : option string) : M string :=
  match path with
  | Some p => if String.eqb p "" then getcwd else mret p
  | None => getcwd
  end.

(** [not folder or not os.path.isdir(folder)] *)
Definition folder_missing (folder : string) : M bool :=
  if String.eqb folder "" then mret true
  else d ← isdir folder; mret (negb d).

(** [not ident or '/' not in ident] *)
Definition lacks_slash (ident : string) : bool :=
  String.eqb ident "" || negb (str_contains slash ident).

(** [os.path.join(a, b)] where [b] comes from the client *)
Definition py_path_join (a : string) (b : pyval) : result string :=
  match b with
  | PStr s => Ok (path_join a s)
  | _ => Raise (type_error ("join() argument must be str, bytes, or os.PathLike object, not '"
                            +:+ type_name b +:+ "'"))
  end.

Definition of_opt_int (o : option Z) : pyval :=
  match o with
  | Some n => PInt n
  | None => PNone
  end.

(** [return v] *)
Definition return_ (v : pyval) : M pyval := mret v.

(** ** Credential bootstrap *)

Definition init_kaggle : M unit :=
  username ← environ_get "KAGGLE_USERNAME";
  key ← environ_get "KAGGLE_API_KEY";
  if negb (truthy (of_opt_str username)) || negb (truthy (of_opt_str key)) then
    raise (Exn "ValueError" "Missing KAGGLE_USERNAME or KAGGLE_KEY environment variables")
  else
    let creds := mk_dict [("username", of_opt_str username); ("key", of_opt_str key)] in
    kaggle_dir ← expanduser_home "/.kaggle";
    let kaggle_path := path_join kaggle_dir "kaggle.json" in
    makedirs kaggle_dir;;
    write_json kaggle_path creds None true;;
    chmod kaggle_path 384.

(** ** Competitions *)

Definition competitions_list (page : Z) (search : option string) : M pyval :=
  try_except
    (comps ← run_in_executor
       (ApiCall "competitions_list" [] [("page", PInt page); ("search", of_opt_str search)]);
     n ← lift (py_len comps);
     items ← lift (py_iter comps);
     refs ← lift (map_result (λ c, py_getattr c "ref") items);
     return_ (mk_dict [("status", PStr "success");
                    ("message", PStr ("Retrieved " +:+ str_of_nat n +:+ " competitions."));
                    ("competitions", PList refs)]))
    (λ e, mk_dict [("status", PStr "error"); ("message", PStr (exn_desc e))]).

Definition competition_list_files (competition : string) (page_token : option string)
    (page_size : Z) : M pyval :=
  try_except
    (result ← run_in_executor
       (ApiCall "competition_list_files" [PStr competition]
          [("page_token", of_opt_str page_token); ("page_size", PInt page_size)]);
     files ← lift (py_getattr result "files");
     n ← lift (py_len files);
     files' ← lift (py_getattr result "files");
     items ← lift (py_iter files');
     return_ (mk_dict [("status", PStr "success");
                    ("message", PStr ("Retrieved " +:+ str_of_nat n +:+ " files for '"
                                      +:+ competition +:+ "'."));
                    ("files", PList items)]))
    (λ e, mk_dict [("status", PStr "error"); ("message", PStr (exn_desc e))]).

Definition competition_download_file (competition file_name : string) (path : option string)
    (force quiet : bool) : M pyval :=
  try_except
    (save_path ← or_getcwd path;
     run_in_executor
       (ApiCall "competition_download_file" [PStr competition; PStr file_name]
          [("path", PStr save_path); ("force", PBool force); ("quiet", PBool quiet)]);;
     saved ← os_abspath save_path;
     return_ (mk_dict [("status", PStr "success");
                    ("message", PStr ("File '" +:+ file_name +:+ "' from '" +:+ competition
                                      +:+ "' downloaded successfully."));
                    ("competition", PStr competition);
                    ("file_name", PStr file_name);
                    ("saved_path", PStr saved)]))
    (λ e, mk_dict [("status", PStr "error"); ("message", PStr (exn_desc e))]).

Definition competition_download_files (competition : string) (path : option string)
    (force quiet : bool) : M pyval :=
  try_except
    (save_path ← or_getcwd path;
     run_in_executor
       (ApiCall "competition_download_files" [PStr competition]
          [("path", PStr save_path); ("force", PBool force); ("quiet", PBool quiet)]);;
     saved ← os_abspath save_path;
     return_ (mk_dict [("status", PStr "success");
                    ("message", PStr ("Downloaded all files for competition '" +:+ competition
                                      +:+ "'."));
                    ("competition", PStr competition);
                    ("saved_path", PStr saved)]))
    (λ e, mk_dict [("status", PStr "error"); ("message", PStr (exn_desc e))]).

Definition competition_submit (file_name message competition : string) (quiet : bool)
    : M pyval :=
  try_except
    (response ← run_in_executor
       (ApiCall "competition_submit" [PStr file_name; PStr message; PStr competition]
          [("quiet", PBool quiet)]);
     response_dict ← lift (to_dict_or_vars response);
     msg ← lift (py_get response_dict "message" PNone);
     ref ← lift (py_get response_dict "ref" PNone);
     return_ (mk_dict [("status", PStr "success");
                    ("message", msg);
                    ("competition", PStr competition);
                    ("submission_ref", ref)]))
    (λ e, mk_dict [("status", PStr "error"); ("message", PStr (exn_desc e))]).

Definition competition_submissions (competition : string) (group sort : option string)
    (page_token page_size : Z) : M pyval :=
  try_except
    (submissions ← run_in_executor
       (ApiCall "competition_submissions"
          [PStr competition; of_opt_str group; of_opt_str sort; PInt page_token;
           PInt page_size] []);
     n ← lift (py_len submissions);
     items ← lift (py_iter submissions);
     data ← lift (map_result to_dict_or_vars items);
     return_ (mk_dict [("status", PStr "success");
                    ("message", PStr ("Retrieved " +:+ str_of_nat n +:+ " submissions."));
                    ("competition", PStr competition);
                    ("data", PList data)]))
    (λ e, mk_dict [("status", PStr "error"); ("message", PStr (exn_desc e))]).

Definition competition_leaderboard_view (competition : string) : M pyval :=
  try_except
    (leaderboard ← run_in_executor
       (ApiCall "competition_leaderboard_view" [PStr competition] []);
     n ← lift (py_len leaderboard);
     items ← lift (py_iter leaderboard);
     data ← lift (map_result to_dict_or_vars items);
     return_ (mk_dict [("status", PStr "success");
                    ("message", PStr ("Retrieved " +:+ str_of_nat n +:+ " leaderboard entries."));
                    ("competition", PStr competition);
                    ("data", PList data)]))
    (λ e, mk_dict [("status", PStr "error"); ("message", PStr (exn_desc e))]).

Definition competition_leaderboard_download (competition path : string) (quiet : bool)
    : M pyval :=
  try_except
    (run_in_executor
       (ApiCall "competition_leaderboard_download" [PStr competition; PStr path]
          [("quiet", PBool quiet)]);;
     shown ← or_getcwd (Some path);
     return_ (mk_dict [("status", PStr "success");
                    ("message", PStr ("Downloaded leaderboard for competition: " +:+ competition
                                      +:+ " to path: " +:+ shown));
                    ("competition", PStr competition)]))
    (λ e, mk_dict [("status", PStr "error"); ("message", PStr (exn_desc e))]).

(** ** Datasets *)

Definition datasets_list (sort_by size file_type license_name tag_ids search user mine page
    max_size min_size : pyval) : M pyval :=
  try_except
    (datasets ← run_in_executor
       (ApiCall "dataset_list" []
          [("sort_by", sort_by); ("size", size); ("file_type", file_type);
           ("license_name", license_name); ("tag_ids", tag_ids); ("search", search);
           ("user", user); ("mine", mine); ("page", page); ("max_size", max_size);
           ("min_size", min_size)]);
     n ← lift (py_len datasets);
     return_ (mk_dict [("status", PStr "success");
                    ("message", PStr ("Retrieved " +:+ str_of_nat n +:+ " datasets."));
                    ("datasets", datasets)]))
    (λ e, mk_dict [("status", PStr "error"); ("message", PStr (exn_desc e))]).

Definition dataset_metadata (dataset : string) (path : option string) : M pyval :=
  try_except
    (run_in_executor (ApiCall "dataset_metadata" [PStr dataset] [("path", of_opt_str path)]);;
     shown ← or_getcwd path;
     return_ (mk_dict [("status", PStr "success");
                    ("message", PStr ("Downloaded metadata for dataset: " +:+ dataset
                                      +:+ " to path: " +:+ shown))]))
    (λ e, mk_dict [("status", PStr "error"); ("message", PStr (exn_desc e))]).

Definition dataset_list_files (dataset : string) (page_token : option string) (page_size : Z)
    : M pyval :=
  try_except
    (response ← run_in_executor
       (ApiCall "dataset_list_files" [PStr dataset]
          [("page_token", of_opt_str page_token); ("page_size", PInt page_size)]);
     files ← lift (py_getattr response "files");
     n ← lift (py_len files);
     files' ← lift (py_getattr response "files");
     items ← lift (py_iter files');
     return_ (mk_dict [("status", PStr "success");
                    ("message", PStr ("Retrieved " +:+ str_of_nat n +:+ " files for dataset: "
                                      +:+ dataset));
                    ("files", PList items)]))
    (λ e, mk_dict [("status", PStr "error"); ("message", PStr (exn_desc e))]).

Definition dataset_status (dataset : string) : M pyval :=
  try_except
    (response ← run_in_executor (ApiCall "dataset_status" [PStr dataset] []);
     return_ (mk_dict [("status", PStr "success");
                    ("message", PStr ("Retrieved status for dataset: " +:+ dataset));
                    ("dataset_status", response)]))
    (λ e, mk_dict [("status", PStr "error"); ("message", PStr (exn_desc e))]).

Definition dataset_download_file (dataset file_name : string) (path : option string)
    (force quiet licenses : pyval) : M pyval :=
  try_except
    (run_in_executor
       (ApiCall "dataset_download_file" [PStr dataset; PStr file_name]
          [("path", of_opt_str path); ("force", force); ("quiet", quiet);
           ("licenses", licenses)]);;
     shown ← or_getcwd path;
     return_ (mk_dict [("status", PStr "success");
                    ("message", PStr ("Downloaded " +:+ file_name +:+ " from dataset: "
                                      +:+ dataset +:+ " to path: " +:+ shown))]))
    (λ e, mk_dict [("status", PStr "error"); ("message", PStr (exn_desc e))]).

Definition dataset_download_files (dataset : string) (path : option string)
    (force quiet : bool) (licenses : pyval) : M pyval :=
  try_except
    (call_inline
       (ApiCall "dataset_download_files" [PStr dataset]
          [("path", of_opt_str path); ("force", PBool force); ("quiet", PBool quiet);
           ("licenses", licenses)]);;
     shown ← or_getcwd path;
     return_ (mk_dict [("status", PStr "success");
                    ("message", PStr ("Downloaded dataset: " +:+ dataset +:+ " to path: "
                                      +:+ shown))]))
    (λ e, mk_dict [("status", PStr "error"); ("message", PStr (exn_desc e))]).

Definition dataset_create (folder : string) (public quiet convert_to_csv : bool)
    (dir_mode : string) : M pyval :=
  missing ← folder_missing folder;
  if (missing : bool) then
    return_ (mk_dict [("status", PStr "error");
                   ("message", PStr ("Folder does not exist: " +:+ folder))])
  else
    try_except
      (response ← call_inline
         (ApiCall "dataset_create_new" [PStr folder]
            [("public", PBool public); ("quiet", PBool quiet);
             ("convert_to_csv", PBool convert_to_csv); ("dir_mode", PStr dir_mode)]);
       response_dict ← lift (to_dict_or_vars response);
       err ← lift (py_get response_dict "error" (PStr ""));
       if is_empty_str err then
         response_dict ← lift (py_setitem response_dict "message"
                                 (PStr ("Dataset created successfully from folder: " +:+ folder)));
         msg ← lift (py_getitem response_dict "message");
         return_ (mk_dict [("status", PStr "success"); ("message", msg);
                        ("data", response_dict)])
       else
         msg ← lift (py_get response_dict "error" (PStr "Unknown error occurred."));
         return_ (mk_dict [("status", PStr "error"); ("message", msg);
                        ("data", response_dict)]))
      (λ e, mk_dict [("status", PStr "error"); ("message", PStr (exn_desc e))]).

Definition dataset_initialize (folder : string) : M pyval :=
  missing ← folder_missing folder;
  if (missing : bool) then
    return_ (mk_dict [("status", PStr "error");
                   ("message", PStr ("Folder does not exist: " +:+ folder))])
  else
    try_except
      (call_inline (ApiCall "dataset_initialize" [PStr folder] []);;
       return_ (mk_dict [("status", PStr "success");
                      ("message", PStr ("Initialized dataset in folder: " +:+ folder))]))
      (λ e, mk_dict [("status", PStr "error"); ("message", PStr (exn_desc e))]).

Definition dataset_create_version (folder version_notes : string)
    (quiet convert_to_csv delete_old_versions : bool) (dir_mode : string) : M pyval :=
  missing ← folder_missing folder;
  if (missing : bool) then
    return_ (mk_dict [("status", PStr "error");
                   ("message", PStr ("Folder does not exist: " +:+ folder))])
  else
    try_except
      (response ← call_inline
         (ApiCall "dataset_create_version" [PStr folder; PStr version_notes]
            [("quiet", PBool quiet); ("convert_to_csv", PBool convert_to_csv);
             ("delete_old_versions", PBool delete_old_versions);
             ("dir_mode", PStr dir_mode)]);
       response_dict ← lift (to_dict_or_vars response);
       err ← lift (py_get response_dict "error" (PStr ""));
       if is_empty_str err then
         response_dict ← lift (py_setitem response_dict "message"
                                 (PStr ("New version created successfully for dataset in folder: "
                                        +:+ folder)));
         msg ← lift (py_getitem response_dict "message");
         return_ (mk_dict [("status", PStr "success"); ("message", msg);
                        ("data", response_dict)])
       else
         msg ← lift (py_get response_dict "error" (PStr "Unknown error occurred."));
         return_ (mk_dict [("status", PStr "error"); ("message", msg);
                        ("data", response_dict)]))
      (λ e, mk_dict [("status", PStr "error"); ("message", PStr (exn_desc e))]).

(** ** Kernels *)

(** The fragment of [re] patterns the source uses: anchors, a literal
    character, and [[^c]+]. *)
Inductive re_atom :=
| RBegin
| REnd
| RChar (c : ascii)
| RPlusNot (c : ascii).

(** [re.match(pattern, s) is not None]: the pattern is matched at the start
    of [s] and need not consume all of it; [$] holds at the end of the
    string and just before a final newline; [[^c]+] is greedy and gives
    characters back when the rest fails. *)
Fixpoint re_match (atoms : list re_atom) (at_start : bool) (s : string) : bool :=
  match atoms with
  | [] => true
  | a :: rest =>
      match a with
      | RBegin => at_start && re_match rest at_start s
      | REnd =>
          (String.eqb s "" || String.eqb s (String newline "")) && re_match rest at_start s
      | RChar c =>
          match s with
          | String x s' => Ascii.eqb x c && re_match rest false s'
          | EmptyString => false
          end
      | RPlusNot c =>
          (fix plus (s : string) : bool :=
             match s with
             | String x s' =>
                 if Ascii.eqb x c then false else plus s' || re_match rest false s'
             | EmptyString => false
             end) s
      end
  end.

(** [r'^[^/]+/[^/]+$'] *)
Definition kernel_ref_pattern : list re_atom :=
  [RBegin; RPlusNot slash; RChar slash; RPlusNot slash; REnd].

Definition kernels_list (page_size page : Z)
    (search competition dataset user : option string) (mine : bool)
    (sort_by language kernel_type output_type : option string) : M pyval :=
  try_except
    (kernels ← run_in_executor
       (ApiCall "kernels_list" []
          [("page_size", PInt page_size); ("page", PInt page); ("search", of_opt_str search);
           ("competition", of_opt_str competition); ("dataset", of_opt_str dataset);
           ("user", of_opt_str user); ("mine", PBool mine); ("sort_by", of_opt_str sort_by);
           ("language", of_opt_str language); ("kernel_type", of_opt_str kernel_type);
           ("output_type", of_opt_str output_type)]);
     items ← lift (py_iter kernels);
     kernels_data ← lift (map_result to_dict_or_vars items);
     return_ (mk_dict [("status", PStr "success");
                    ("message", PStr ("Retrieved " +:+ str_of_nat (length kernels_data)
                                      +:+ " kernels."));
                    ("data", PList kernels_data)]))
    (λ e, mk_dict [("status", PStr "error");
                   ("message", PStr ("Failed to list kernels: " +:+ exn_desc e));
                   ("data", PList [])]).

Definition kernel_list_files (kernel : string) (page_token : option string) (page_size : Z)
    : M pyval :=
  if String.eqb kernel "" || negb (re_match kernel_ref_pattern true kernel) then
    return_ (mk_dict [("status", PStr "error");
                   ("message", PStr ("Invalid kernel format: " +:+ kernel));
                   ("data", PList [])])
  else
    try_except
      (files_response ← run_in_executor
         (ApiCall "kernels_list_files" [PStr kernel]
            [("page_token", of_opt_str page_token); ("page_size", PInt page_size)]);
       items ← lift (py_iter (py_getattr_default files_response "files" (PList [])));
       files_data ← lift (map_result to_dict_or_vars items);
       return_ (mk_dict [("status", PStr "success");
                      ("message", PStr ("Retrieved " +:+ str_of_nat (length files_data)
                                        +:+ " files from kernel: " +:+ kernel));
                      ("data", files_response)]))
      (λ e, mk_dict [("status", PStr "error");
                     ("message", PStr ("Failed to list files for kernel " +:+ kernel +:+ ": "
                                       +:+ exn_desc e));
                     ("data", PList [])]).

Definition kernel_initialize (folder : string) : M pyval :=
  missing ← folder_missing folder;
  if (missing : bool) then
    return_ (mk_dict [("status", PStr "error");
                   ("message", PStr ("Folder does not exist: " +:+ folder));
                   ("data", PDict [])])
  else
    try_except
      (run_in_executor (ApiCall "kernels_initialize" [PStr folder] []);;
       return_ (mk_dict [("status", PStr "success");
                      ("message", PStr ("Initialized kernel metadata in folder: " +:+ folder));
                      ("data", PDict [])]))
      (λ e, mk_dict [("status", PStr "error");
                     ("message", PStr ("Failed to initialize kernel metadata: " +:+ exn_desc e));
                     ("data", PDict [])]).

(** [{k: v for k, v in d.items() if k.startswith("invalid") and v}] *)
Definition invalid_fields (d : pydict) : pydict :=
  List.filter (λ kv, str_startswith "invalid" kv.1 && truthy kv.2) d.

Definition kernel_push (folder : string) (timeout : option Z) : M pyval :=
  missing ← folder_missing folder;
  if (missing : bool) then
    return_ (mk_dict [("status", PStr "error");
                   ("message", PStr ("Folder path does not exist: " +:+ folder))])
  else
    let metadata_path := path_join folder "kernel-metadata.json" in
    found ← path_exists metadata_path;
    if negb found then
      return_ (mk_dict [("status", PStr "error");
                     ("message", PStr ("kernel-metadata.json not found in " +:+ folder))])
    else
      try_except
        (response ← run_in_executor
           (ApiCall "kernels_push" [PStr folder] [("timeout", of_opt_int timeout)]);
         response_dict ← lift (to_dict_or_dict_or_vars response);
         err ← lift (py_get response_dict "error" PNone);
         if truthy err then
           msg ← lift (py_getitem response_dict "error");
           fields ← lift (py_spread response_dict);
           return_ (mk_dict ([("status", PStr "error"); ("message", msg)] ++ fields)%list)
         else
           items ← lift (py_items response_dict);
           if truthy (PDict (invalid_fields items)) then
             fields ← lift (py_spread response_dict);
             return_ (mk_dict ([("status", PStr "error");
                             ("message", PStr "Validation errors occurred")] ++ fields)%list)
           else
             fields ← lift (py_spread response_dict);
             return_ (mk_dict ([("status", PStr "success")] ++ fields)%list))
        (λ e, mk_dict [("status", PStr "error");
                       ("message", PStr ("Failed to push kernel: " +:+ exn_desc e))]).

Definition kernel_pull (kernel path : string) (metadata quiet : bool) : M pyval :=
  if lacks_slash kernel then
    return_ (mk_dict [("status", PStr "error");
                   ("message", PStr "Kernel must be specified in the form 'username/kernel-slug'.");
                   ("kernel", PStr kernel)])
  else
    try_except
      (is_d ← isdir path;
       (if negb is_d then makedirs path else mret ());;
       pulled_file ← run_in_executor
         (ApiCall "kernels_pull" [PStr kernel; PStr path]
            [("metadata", PBool metadata); ("quiet", PBool quiet)]);
       joined ← lift (py_path_join path pulled_file);
       abs_path ← os_abspath joined;
       found ← path_exists abs_path;
       if negb found then
         return_ (mk_dict [("status", PStr "error");
                        ("message", PStr ("Kernel pulled but expected file not found at "
                                          +:+ abs_path +:+ "."));
                        ("kernel", PStr kernel)])
       else
         return_ (mk_dict [("status", PStr "success");
                        ("message", PStr ("Kernel '" +:+ kernel +:+ "' downloaded successfully."));
                        ("kernel", PStr kernel);
                        ("saved_path", PStr abs_path)]))
      (λ e, mk_dict [("status", PStr "error");
                     ("message", PStr ("Unexpected error while downloading kernel '" +:+ kernel
                                       +:+ "': " +:+ exn_desc e));
                     ("kernel", PStr kernel)]).

Definition kernel_output (kernel path : string) (force quiet : bool) : M pyval :=
  if lacks_slash kernel then
    return_ (mk_dict [("status", PStr "error");
                   ("message", PStr "Kernel must be specified in the form 'username/kernel-slug'.");
                   ("kernel", PStr kernel)])
  else
    try_except
      (is_d ← isdir path;
       (if negb is_d then makedirs path else mret ());;
       run_in_executor
         (ApiCall "kernels_output" [PStr kernel; PStr path]
            [("force", PBool force); ("quiet", PBool quiet)]);;
       abs_path ← os_abspath path;
       return_ (mk_dict [("status", PStr "success");
                      ("message", PStr ("Downloaded output for kernel '" +:+ kernel
                                        +:+ "' to path: " +:+ abs_path));
                      ("kernel", PStr kernel);
                      ("saved_path", PStr abs_path)]))
      (λ e, mk_dict [("status", PStr "error");
                     ("message", PStr ("Failed to download output for kernel '" +:+ kernel
                                       +:+ "': " +:+ exn_desc e));
                     ("kernel", PStr kernel)]).

(** [r.to_dict() if hasattr(r, "to_dict") else dict(r) if isinstance(r, dict)
     else getattr(r, "__dict__", {})] *)
Definition to_dict_or_dict_or_vars_default (r : pyval) : result pyval :=
  if has_to_dict r then call_to_dict r
  else if is_dict r then Ok r
  else match py_vars r with
       | Ok d => Ok d
       | Raise _ => Ok (PDict [])
       end.

Definition kernel_status (kernel : string) : M pyval :=
  if lacks_slash kernel then
    return_ (mk_dict [("status", PStr "error");
                   ("message", PStr "Kernel must be specified in the form 'username/kernel-slug'.");
                   ("kernel", PStr kernel);
                   ("data", PDict [])])
  else
    try_except
      (status_response ← run_in_executor (ApiCall "kernels_status" [PStr kernel] []);
       status_data ← lift (to_dict_or_dict_or_vars_default status_response);
       return_ (mk_dict [("status", PStr "success");
                      ("message", PStr ("Retrieved status for kernel '" +:+ kernel +:+ "'."));
                      ("kernel", PStr kernel);
                      ("data", status_data)]))
      (λ e, mk_dict [("status", PStr "error");
                     ("message", PStr ("Failed to retrieve kernel status for '" +:+ kernel
                                       +:+ "': " +:+ exn_desc e));
                     ("kernel", PStr kernel);
                     ("data", PDict [])]).

(** ** Models *)

Definition models_list (sort_by search owner : option string) (page_size : Z)
    (page_token : option string) : M pyval :=
  try_except
    (models_response ← run_in_executor
       (ApiCall "model_list" []
          [("sort_by", of_opt_str sort_by); ("search", of_opt_str search);
           ("owner", of_opt_str owner); ("page_size", PInt page_size);
           ("page_token", of_opt_str page_token)]);
     items ← lift (py_iter models_response);
     models_data ← lift (map_result to_dict_or_vars items);
     return_ (mk_dict [("status", PStr "success");
                    ("message", PStr ("Retrieved " +:+ str_of_nat (length models_data)
                                      +:+ " models."));
                    ("data", PList models_data)]))
    (λ e, mk_dict [("status", PStr "error");
                   ("message", PStr ("Failed to list models: " +:+ exn_desc e));
                   ("data", PList [])]).

(** [if path is None: path = os.getcwd()] *)
Definition default_getcwd (path : option string) : M string :=
  match path with
  | None => getcwd
  | Some p => mret p
  end.

Definition model_get (model : string) (path : option string) : M pyval :=
  if lacks_slash model then
    return_ (mk_dict [("status", PStr "error");
                   ("message", PStr "Model must be specified in the form 'owner/model-slug'.");
                   ("model", PStr model);
                   ("data", PDict []);
                   ("file_path", PStr "")])
  else
    path ← default_getcwd path;
    try_except
      (makedirs path;;
       response ← run_in_executor (ApiCall "model_get" [PStr model] []);
       response_dict ← lift (to_dict_or_vars response);
       let file_path := path_join path "model-metadata.json" in
       write_json file_path response_dict (Some 4%nat) false;;
       saved ← os_abspath file_path;
       return_ (mk_dict [("status", PStr "success");
                      ("message", PStr ("Model '" +:+ model
                                        +:+ "' metadata retrieved and saved successfully."));
                      ("model", PStr model);
                      ("data", response_dict);
                      ("file_path", PStr saved)]))
      (λ e, mk_dict [("status", PStr "error");
                     ("message", PStr ("Failed to retrieve model '" +:+ model +:+ "': "
                                       +:+ exn_desc e));
                     ("model", PStr model);
                     ("data", PDict []);
                     ("file_path", PStr "")]).

Definition model_initialize (folder : string) : M pyval :=
  try_except
    (makedirs folder;;
     run_in_executor (ApiCall "model_initialize" [PStr folder] []);;
     return_ (mk_dict [("status", PStr "success");
                    ("message", PStr ("Initialized model metadata in folder: " +:+ folder));
                    ("data", PDict [])]))
    (λ e, mk_dict [("status", PStr "error");
                   ("message", PStr ("Failed to initialize model metadata: " +:+ exn_desc e));
                   ("data", PDict [])]).

Definition model_create (folder : string) : M pyval :=
  missing ← folder_missing folder;
  if (missing : bool) then
    return_ (mk_dict [("status", PStr "error");
                   ("message", PStr ("Folder does not exist: " +:+ folder));
                   ("data", PDict [])])
  else
    let metadata_path := path_join folder "model-metadata.json" in
    found ← path_exists metadata_path;
    if negb found then
      return_ (mk_dict [("status", PStr "error");
                     ("message", PStr ("model-metadata.json not found in " +:+ folder));
                     ("data", PDict [])])
    else
      try_except
        (response ← run_in_executor (ApiCall "model_create_new" [PStr folder] []);
         response_dict ← lift (to_dict_or_dict_or_vars response);
         err ← lift (py_get response_dict "error" PNone);
         if truthy err then
           msg ← lift (py_getitem response_dict "error");
           return_ (mk_dict [("status", PStr "error"); ("message", msg);
                          ("data", response_dict)])
         else
           response_dict ← lift (py_setitem response_dict "message"
                                   (PStr "Model created successfully."));
           msg ← lift (py_getitem response_dict "message");
           return_ (mk_dict [("status", PStr "success"); ("message", msg);
                          ("data", response_dict)]))
        (λ e, mk_dict [("status", PStr "error");
                       ("message", PStr ("Failed to create model: " +:+ exn_desc e));
                       ("data", PDict [])]).

Definition model_update (folder : string) : M pyval :=
  missing ← folder_missing folder;
  if (missing : bool) then
    return_ (mk_dict [("status", PStr "error");
                   ("message", PStr ("Folder does not exist: " +:+ folder));
                   ("data", PDict [])])
  else
    let metadata_path := path_join folder "model-metadata.json" in
    found ← path_exists metadata_path;
    if negb found then
      return_ (mk_dict [("status", PStr "error");
                     ("message", PStr ("model-metadata.json not found in " +:+ folder));
                     ("data", PDict [])])
    else
      try_except
        (response ← run_in_executor (ApiCall "model_update" [PStr folder] []);
         response_dict ← lift (to_dict_or_dict_or_vars response);
         err ← lift (py_get response_dict "error" PNone);
         if truthy err then
           msg ← lift (py_getitem response_dict "error");
           return_ (mk_dict [("status", PStr "error"); ("message", msg);
                          ("data", response_dict)])
         else
           response_dict ← lift (py_setitem response_dict "message"
                                   (PStr "Model updated successfully."));
           msg ← lift (py_getitem response_dict "message");
           return_ (mk_dict [("status", PStr "success"); ("message", msg);
                          ("data", response_dict)]))
        (λ e, mk_dict [("status", PStr "error");
                       ("message", PStr ("Failed to update model: " +:+ exn_desc e));
                       ("data", PDict [])]).

Definition model_delete (model : string) (confirmation : bool) : M pyval :=
  if lacks_slash model then
    return_ (mk_dict [("status", PStr "error");
                   ("message", PStr "Model must be specified as 'owner/model-name'.");
                   ("model", PStr model);
                   ("data", PDict [])])
  else if negb confirmation then
    return_ (mk_dict [("status", PStr "error");
                   ("message", PStr "Deletion not confirmed. Set confirmation=True to delete.");
                   ("model", PStr model);
                   ("data", PDict [])])
  else
    try_except
      (response ← run_in_executor
         (ApiCall "model_delete" [PStr model] [("yes", PBool confirmation)]);
       response_dict ← lift (to_dict_or_dict_or_vars response);
       err ← lift (py_get response_dict "error" PNone);
       if truthy err then
         msg ← lift (py_getitem response_dict "error");
         return_ (mk_dict [("status", PStr "error"); ("message", msg);
                        ("model", PStr model); ("data", response_dict)])
       else
         return_ (mk_dict [("status", PStr "success");
                        ("message", PStr ("Model '" +:+ model +:+ "' deleted successfully."));
                        ("model", PStr model); ("data", response_dict)]))
      (λ e, mk_dict [("status", PStr "error");
                     ("message", PStr ("Failed to delete model '" +:+ model +:+ "': "
                                       +:+ exn_desc e));
                     ("model", PStr model);
                     ("data", PDict [])]).

Definition model_instance_get (model_instance : string) (path : option string) : M pyval :=
  if lacks_slash model_instance then
    return_ (mk_dict [("status", PStr "error");
                   ("message", PStr "Model instance must be specified in the form 'owner/model/framework/instance-slug'.");
                   ("model_instance", PStr model_instance);
                   ("data", PDict []);
                   ("file_path", PStr "")])
  else
    path ← default_getcwd path;
    try_except
      (makedirs path;;
       response ← run_in_executor (ApiCall "model_instance_get" [PStr model_instance] []);
       response_dict ← lift (to_dict_or_vars response);
       let file_path := path_join path "model-instance-metadata.json" in
       write_json file_path response_dict (Some 4%nat) false;;
       saved ← os_abspath file_path;
       return_ (mk_dict [("status", PStr "success");
                      ("message", PStr ("Model instance '" +:+ model_instance
                                        +:+ "' retrieved and saved successfully."));
                      ("model_instance", PStr model_instance);
                      ("data", response_dict);
                      ("file_path", PStr saved)]))
      (λ e, mk_dict [("status", PStr "error");
                     ("message", PStr ("Failed to retrieve model instance '" +:+ model_instance
                                       +:+ "': " +:+ exn_desc e));
                     ("model_instance", PStr model_instance);
                     ("data", PDict []);
                     ("file_path", PStr "")]).

Definition model_instance_initialize (folder : string) : M pyval :=
  try_except
    (makedirs folder;;
     run_in_executor (ApiCall "model_instance_initialize" [PStr folder] []);;
     return_ (mk_dict [("status", PStr "success");
                    ("message", PStr ("Initialized model instance metadata in folder: "
                                      +:+ folder));
                    ("data", PDict [])]))
    (λ e, mk_dict [("status", PStr "error");
                   ("message", PStr ("Failed to initialize model instance metadata: "
                                     +:+ exn_desc e));
                   ("data", PDict [])]).

Definition model_instance_create (folder : string) (quiet : bool) (dir_mode : string)
    : M pyval :=
  missing ← folder_missing folder;
  if (missing : bool) then
    return_ (mk_dict [("status", PStr "error");
                   ("message", PStr ("Folder does not exist: " +:+ folder));
                   ("data", PDict [])])
  else
    let metadata_path := path_join folder "model-instance-metadata.json" in
    found ← path_exists metadata_path;
    if negb found then
      return_ (mk_dict [("status", PStr "error");
                     ("message", PStr ("model-instance-metadata.json not found in " +:+ folder));
                     ("data", PDict [])])
    else
      try_except
        (response ← run_in_executor
           (ApiCall "model_instance_create" [PStr folder]
              [("quiet", PBool quiet); ("dir_mode", PStr dir_mode)]);
         response_dict ← lift (to_dict_or_dict_or_vars response);
         err ← lift (py_get response_dict "error" PNone);
         if truthy err then
           msg ← lift (py_getitem response_dict "error");
           return_ (mk_dict [("status", PStr "error"); ("message", msg);
                          ("data", response_dict)])
         else
           response_dict ← lift (py_setitem response_dict "message"
                                   (PStr "Model instance created successfully."));
           msg ← lift (py_getitem response_dict "message");
           return_ (mk_dict [("status", PStr "success"); ("message", msg);
                          ("data", response_dict)]))
        (λ e, mk_dict [("status", PStr "error");
                       ("message", PStr ("Failed to create model instance: " +:+ exn_desc e));
                       ("data", PDict [])]).

Definition model_instance_update (folder : string) : M pyval :=
  missing ← folder_missing folder;
  if (missing : bool) then
    return_ (mk_dict [("status", PStr "error");
                   ("message", PStr ("Folder does not exist: " +:+ folder));
                   ("data", PDict [])])
  else
    let metadata_path := path_join folder "model-instance-metadata.json" in
    found ← path_exists metadata_path;
    if negb found then
      return_ (mk_dict [("status", PStr "error");
                     ("message", PStr ("model-instance-metadata.json not found in " +:+ folder));
                     ("data", PDict [])])
    else
      try_except
        (response ← run_in_executor (ApiCall "model_instance_update" [PStr folder] []);
         response_dict ← lift (to_dict_or_dict_or_vars response);
         err ← lift (py_get response_dict "error" PNone);
         if truthy err then
           msg ← lift (py_getitem response_dict "error");
           return_ (mk_dict [("status", PStr "error"); ("message", msg);
                          ("data", response_dict)])
         else
           response_dict ← lift (py_setitem response_dict "message"
                                   (PStr "Model instance updated successfully."));
           msg ← lift (py_getitem response_dict "message");
           return_ (mk_dict [("status", PStr "success"); ("message", msg);
                          ("data", response_dict)]))
        (λ e, mk_dict [("status", PStr "error");
                       ("message", PStr ("Failed to update model instance: " +:+ exn_desc e));
                       ("data", PDict [])]).

Definition model_instance_delete (model_instance : string) (confirmation : bool) : M pyval :=
  if lacks_slash model_instance then
    return_ (mk_dict [("status", PStr "error");
                   ("message", PStr "Model instance must be specified as 'owner/model/framework/instance-slug'.");
                   ("model_instance", PStr model_instance);
                   ("data", PDict [])])
  else if negb confirmation then
    return_ (mk_dict [("status", PStr "error");
                   ("message", PStr "Deletion not confirmed. Set confirmation=True to delete.");
                   ("model_instance", PStr model_instance);
                   ("data", PDict [])])
  else
    try_except
      (response ← run_in_executor
         (ApiCall "model_instance_delete" [PStr model_instance]
            [("yes", PBool confirmation)]);
       response_dict ← lift (to_dict_or_dict_or_vars response);
       err ← lift (py_get response_dict "error" PNone);
       if truthy err then
         msg ← lift (py_getitem response_dict "error");
         return_ (mk_dict [("status", PStr "error"); ("message", msg);
                        ("model_instance", PStr model_instance); ("data", response_dict)])
       else
         return_ (mk_dict [("status", PStr "success");
                        ("message", PStr ("Model instance '" +:+ model_instance
                                          +:+ "' deleted successfully."));
                        ("model_instance", PStr model_instance); ("data", response_dict)]))
      (λ e, mk_dict [("status", PStr "error");
                     ("message", PStr ("Failed to delete model instance '" +:+ model_instance
                                       +:+ "': " +:+ exn_desc e));
                     ("model_instance", PStr model_instance);
                     ("data", PDict [])]).

Definition model_instance_version_create (model_instance folder version_notes : string)
    (quiet : bool) (dir_mode : string) : M pyval :=
  if lacks_slash model_instance then
    return_ (mk_dict [("status", PStr "error");
                   ("message", PStr "Model instance must be specified as 'owner/model/framework/instance-slug'.");
                   ("model_instance", PStr model_instance);
                   ("data", PDict [])])
  else
    missing ← folder_missing folder;
    if (missing : bool) then
      return_ (mk_dict [("status", PStr "error");
                     ("message", PStr ("Folder does not exist: " +:+ folder));
                     ("model_instance", PStr model_instance);
                     ("data", PDict [])])
    else
      let metadata_path := path_join folder "model-instance-metadata.json" in
      found ← path_exists metadata_path;
      if negb found then
        return_ (mk_dict [("status", PStr "error");
                       ("message", PStr ("model-instance-metadata.json not found in "
                                         +:+ folder));
                       ("model_instance", PStr model_instance);
                       ("data", PDict [])])
      else
        try_except
          (response ← run_in_executor
             (ApiCall "model_instance_version_create" [PStr model_instance; PStr folder]
                [("version_notes", PStr version_notes); ("quiet", PBool quiet);
                 ("dir_mode", PStr dir_mode)]);
           response_dict ← lift (to_dict_or_dict_or_vars response);
           err ← lift (py_get response_dict "error" PNone);
           if truthy err then
             msg ← lift (py_getitem response_dict "error");
             return_ (mk_dict [("status", PStr "error"); ("message", msg);
                            ("model_instance", PStr model_instance);
                            ("data", response_dict)])
           else
             response_dict ← lift (py_setitem response_dict "message"
                                     (PStr "Model instance version created successfully."));
             msg ← lift (py_getitem response_dict "message");
             return_ (mk_dict [("status", PStr "success"); ("message", msg);
                            ("model_instance", PStr model_instance);
                            ("data", response_dict)]))
          (λ e, mk_dict [("status", PStr "error");
                         ("message", PStr ("Failed to create model instance version: "
                                           +:+ exn_desc e));
                         ("model_instance", PStr model_instance);
                         ("data", PDict [])]).

Definition model_instance_version_download (model_instance_version : string)
    (path : option string) (force quiet untar : bool) : M pyval :=
  if lacks_slash model_instance_version then
    return_ (mk_dict [("status", PStr "error");
                   ("message", PStr "Model instance version must be specified as 'owner/model/framework/instance-slug/version-number'.");
                   ("model_instance_version", PStr model_instance_version);
                   ("saved_path", PStr "")])
  else
    path ← default_getcwd path;
    try_except
      (makedirs path;;
       run_in_executor
         (ApiCall "model_instance_version_download" [PStr model_instance_version]
            [("path", PStr path); ("force", PBool force); ("quiet", PBool quiet);
             ("untar", PBool untar)]);;
       abs_path ← os_abspath path;
       return_ (mk_dict [("status", PStr "success");
                      ("message", PStr ("Downloaded model instance version '"
                                        +:+ model_instance_version +:+ "' successfully."));
                      ("model_instance_version", PStr model_instance_version);
                      ("saved_path", PStr abs_path)]))
      (λ e, mk_dict [("status", PStr "error");
                     ("message", PStr ("Failed to download model instance version '"
                                       +:+ model_instance_version +:+ "': " +:+ exn_desc e));
                     ("model_instance_version", PStr model_instance_version);
                     ("saved_path", PStr "")]).

Definition model_instance_version_files (model_instance_version : string)
    (page_token : option string) (page_size : Z) (csv_display : bool) : M pyval :=
  if lacks_slash model_instance_version then
    return_ (mk_dict [("status", PStr "error");
                   ("message", PStr "Model instance version must be specified as 'owner/model/framework/instance-slug/version-number'.");
                   ("model_instance_version", PStr model_instance_version);
                   ("files", PList [])])
  else
    try_except
      (api_response ← run_in_executor
         (ApiCall "model_instance_version_files" [PStr model_instance_version]
            [("page_token", of_opt_str page_token); ("page_size", PInt page_size);
             ("csv_display", PBool csv_display)]);
       files_list ← lift (py_iter (py_getattr_default api_response "files" (PList [])));
       return_ (mk_dict [("status", PStr "success");
                      ("message", PStr ("Retrieved " +:+ str_of_nat (length files_list)
                                        +:+ " files for model instance version '"
                                        +:+ model_instance_version +:+ "'."));
                      ("model_instance_version", PStr model_instance_version);
                      ("files", PList files_list)]))
      (λ e, mk_dict [("status", PStr "error");
                     ("message", PStr ("Failed to retrieve files for model instance version '"
                                       +:+ model_instance_version +:+ "': " +:+ exn_desc e));
                     ("model_instance_version", PStr model_instance_version);
                     ("files", PList [])]).

Definition model_instance_version_delete (model_instance_version : string)
    (confirmation : bool) : M pyval :=
  if lacks_slash model_instance_version then
    return_ (mk_dict [("status", PStr "error");
                   ("message", PStr "Model instance version must be specified as 'owner/model/framework/instance-slug/version-number'.");
                   ("model_instance_version", PStr model_instance_version);
                   ("data", PDict [])])
  else if negb confirmation then
    return_ (mk_dict [("status", PStr "error");
                   ("message", PStr "Deletion not confirmed. Set confirmation=True to delete.");
                   ("model_instance_version", PStr model_instance_version);
                   ("data", PDict [])])
  else
    try_except
      (response ← run_in_executor
         (ApiCall "model_instance_version_delete" [PStr model_instance_version]
            [("yes", PBool confirmation)]);
       response_dict ← lift (to_dict_or_dict_or_vars response);
       err ← lift (py_get response_dict "error" PNone);
       if truthy err then
         msg ← lift (py_getitem response_dict "error");
         return_ (mk_dict [("status", PStr "error"); ("message", msg);
                        ("model_instance_version", PStr model_instance_version);
                        ("data", response_dict)])
       else
         return_ (mk_dict [("status", PStr "success");
                        ("message", PStr ("Model instance version '" +:+ model_instance_version
                                          +:+ "' deleted successfully."));
                        ("model_instance_version", PStr model_instance_version);
                        ("data", response_dict)]))
      (λ e, mk_dict [("status", PStr "error");
                     ("message", PStr ("Failed to delete model instance version '"
                                       +:+ model_instance_version +:+ "': " +:+ exn_desc e));
                     ("model_instance_version", PStr model_instance_version);
                     ("data", PDict [])]).

(** ** The tool surface

    The host invokes a tool by name with marshalled arguments; a [request]
    is one such invocation. *)
Inductive request :=
| CompetitionsList (page : Z) (search : option string)
| CompetitionListFiles (competition : string) (page_token : option string) (page_size : Z)
| CompetitionDownloadFile (competition file_name : string) (path : option string)
    (force quiet : bool)
| CompetitionDownloadFiles (competition : string) (path : option string) (force quiet : bool)
| CompetitionSubmit (file_name message competition : string) (quiet : bool)
| CompetitionSubmissions (competition : string) (group sort : option string)
    (page_token page_size : Z)
| CompetitionLeaderboardView (competition : string)
| CompetitionLeaderboardDownload (competition path : string) (quiet : bool)
| DatasetsList (sort_by size file_type license_name tag_ids search user mine page
    max_size min_size : pyval)
| DatasetMetadata (dataset : string) (path : option string)
| DatasetListFiles (dataset : string) (page_token : option string) (page_size : Z)
| DatasetStatus (dataset : string)
| DatasetDownloadFile (dataset file_name : string) (path : option string)
    (force quiet licenses : pyval)
| DatasetDownloadFiles (dataset : string) (path : option string) (force quiet : bool)
    (licenses : pyval)
| DatasetCreate (folder : string) (public quiet convert_to_csv : bool) (dir_mode : string)
| DatasetInitialize (folder : string)
| DatasetCreateVersion (folder version_notes : string)
    (quiet convert_to_csv delete_old_versions : bool) (dir_mode : string)
| KernelsList (page_size page : Z) (search competition dataset user : option string)
    (mine : bool) (sort_by language kernel_type output_type : option string)
| KernelListFiles (kernel : string) (page_token : option string) (page_size : Z)
| KernelInitialize (folder : string)
| KernelPush (folder : string) (timeout : option Z)
| KernelPull (kernel path : string) (metadata quiet : bool)
| KernelOutput (kernel path : string) (force quiet : bool)
| KernelStatus (kernel : string)
| ModelsList (sort_by search owner : option string) (page_size : Z)
    (page_token : option string)
| ModelGet (model : string) (path : option string)
| ModelInitialize (folder : string)
| ModelCreate (folder : string)
| ModelUpdate (folder : string)
| ModelDelete (model : string) (confirmation : bool)
| ModelInstanceGet (model_instance : string) (path : option string)
| ModelInstanceInitialize (folder : string)
| ModelInstanceCreate (folder : string) (quiet : bool) (dir_mode : string)
| ModelInstanceUpdate (folder : string)
| ModelInstanceDelete (model_instance : string) (confirmation : bool)
| ModelInstanceVersionCreate (model_instance folder version_notes : string) (quiet : bool)
    (dir_mode : string)
| ModelInstanceVersionDownload (model_instance_version : string) (path : option string)
    (force quiet untar : bool)
| ModelInstanceVersionFiles (model_instance_version : string) (page_token : option string)
    (page_size : Z) (csv_display : bool)
| ModelInstanceVersionDelete (model_instance_version : string) (confirmation : bool).

Definition run_tool (req : request) : M pyval :=
  match req with
  | CompetitionsList page search => competitions_list page search
  | CompetitionListFiles c t n => competition_list_files c t n
  | CompetitionDownloadFile c f p force quiet => competition_download_file c f p force quiet
  | CompetitionDownloadFiles c p force quiet => competition_download_files c p force quiet
  | CompetitionSubmit f m c quiet => competition_submit f m c quiet
  | CompetitionSubmissions c g s t n => competition_submissions c g s t n
  | CompetitionLeaderboardView c => competition_leaderboard_view c
  | CompetitionLeaderboardDownload c p quiet => competition_leaderboard_download c p quiet
  | DatasetsList a b c d e f g h i j k => datasets_list a b c d e f g h i j k
  | DatasetMetadata d p => dataset_metadata d p
  | DatasetListFiles d t n => dataset_list_files d t n
  | DatasetStatus d => dataset_status d
  | DatasetDownloadFile d f p force quiet l => dataset_download_file d f p force quiet l
  | DatasetDownloadFiles d p force quiet l => dataset_download_files d p force quiet l
  | DatasetCreate f p q c m => dataset_create f p q c m
  | DatasetInitialize f => dataset_initialize f
  | DatasetCreateVersion f n q c d m => dataset_create_version f n q c d m
  | KernelsList a b c d e f g h i j k => kernels_list a b c d e f g h i j k
  | KernelListFiles k t n => kernel_list_files k t n
  | KernelInitialize f => kernel_initialize f
  | KernelPush f t => kernel_push f t
  | KernelPull k p m q => kernel_pull k p m q
  | KernelOutput k p f q => kernel_output k p f q
  | KernelStatus k => kernel_status k
  | ModelsList a b c d e => models_list a b c d e
  | ModelGet m p => model_get m p
  | ModelInitialize f => model_initialize f
  | ModelCreate f => model_create f
  | ModelUpdate f => model_update f
  | ModelDelete m c => model_delete m c
  | ModelInstanceGet m p => model_instance_get m p
  | ModelInstanceInitialize f => model_instance_initialize f
  | ModelInstanceCreate f q m => model_instance_create f q m
  | ModelInstanceUpdate f => model_instance_update f
  | ModelInstanceDelete m c => model_instance_delete m c
  | ModelInstanceVersionCreate m f n q d => model_instance_version_create m f n q d
  | ModelInstanceVersionDownload m p f q u => model_instance_version_download m p f q u
  | ModelInstanceVersionFiles m t n c => model_instance_version_files m t n c
  | ModelInstanceVersionDelete m c => model_instance_version_delete m c
  end.

(** * Vocabulary of the properties *)

Arguments resolve : simpl never.
Arguments abspath : simpl never.
Arguments path_join : simpl never.
Arguments str_of_nat : simpl never.
Arguments String.append : simpl never.
Arguments re_match : simpl never.
Arguments lacks_slash : simpl never.
Arguments mkdirs_from : simpl never.
Arguments map_result : simpl never.
Arguments fs_node : simpl never.
Arguments json_dumps : simpl never.
Arguments escape_chars : simpl never.
Arguments parse_string_body : simpl never.
Arguments json_quote : simpl never.
Arguments invalid_fields : simpl never.
Arguments dir_at : simpl never.
Arguments exists_at : simpl never.
Arguments open_w : simpl never.

(** [v[k]] when [v] is a mapping that has the key. *)
Definition field (k : string) (v : pyval) : option pyval :=
  match v with
  | PDict d => dict_get k d
  | _ => None
  end.




(** The local checks an adapter makes before its [try]. *)
Definition folder_ok (w : world) (st : state) (folder : string) : bool :=
  negb (String.eqb folder "") && dir_at w (st_fs st) folder.

Definition metadata_ok (w : world) (st : state) (folder name : string) : bool :=
  exists_at w (st_fs st) (path_join folder name).

Definition passes_validation (req : request) (w : world) (st : state) : bool :=
  match req with
  | DatasetCreate folder _ _ _ _ | DatasetInitialize folder
  | DatasetCreateVersion folder _ _ _ _ _ | KernelInitialize folder =>
      folder_ok w st folder
  | KernelPush folder _ =>
      folder_ok w st folder && metadata_ok w st folder "kernel-metadata.json"
  | ModelCreate folder | ModelUpdate folder =>
      folder_ok w st folder && metadata_ok w st folder "model-metadata.json"
  | ModelInstanceCreate folder _ _ | ModelInstanceUpdate folder =>
      folder_ok w st folder && metadata_ok w st folder "model-instance-metadata.json"
  | KernelListFiles kernel _ _ =>
      negb (String.eqb kernel "") && re_match kernel_ref_pattern true kernel
  | KernelPull ident _ _ _ | KernelOutput ident _ _ _ | KernelStatus ident
  | ModelGet ident _ | ModelInstanceGet ident _
  | ModelInstanceVersionDownload ident _ _ _ _ | ModelInstanceVersionFiles ident _ _ _ =>
      negb (lacks_slash ident)
  | ModelDelete ident confirmation | ModelInstanceDelete ident confirmation
  | ModelInstanceVersionDelete ident confirmation =>
      negb (lacks_slash ident) && confirmation
  | ModelInstanceVersionCreate ident folder _ _ _ =>
      negb (lacks_slash ident) && folder_ok w st folder
      && metadata_ok w st folder "model-instance-metadata.json"
  | _ => true
  end.

(** Concrete environments for the examples below. *)
Definition api_returning (r : pyval)
    : api_call → gmap location node → result pyval * gmap location node :=
  λ _ fs, (Ok r, fs).

Definition api_raising (e : exn)
    : api_call → gmap location node → result pyval * gmap location node :=
  λ _ fs, (Raise e, fs).

Definition demo_world
    (api : api_call → gmap location node → result pyval * gmap location node) : world :=
  {| w_cwd := "/work"; w_home := "/home/u"; w_umask := 18;
     w_environ := ∅; w_api := api |}.

Definition state_of (fs : gmap location node) : state :=
  {| st_fs := fs; st_calls := []; st_caught := [] |}.

(** A folder [/k] holding a [kernel-metadata.json]. *)
Definition kernel_folder_fs : gmap location node :=
  <[["k"; "kernel-metadata.json"] := NFile (Text "{}") 420]>
    (<[["k"] := NDir]> ∅).




(** What an adapter's handler puts before [str(e)] in the message. *)
Definition error_prefix (req : request) : string :=
  match req with
  | KernelsList _ _ _ _ _ _ _ _ _ _ _ => "Failed to list kernels: "
  | KernelListFiles kernel _ _ => "Failed to list files for kernel " +:+ kernel +:+ ": "
  | KernelInitialize _ => "Failed to initialize kernel metadata: "
  | KernelPush _ _ => "Failed to push kernel: "
  | KernelPull kernel _ _ _ =>
      "Unexpected error while downloading kernel '" +:+ kernel +:+ "': "
  | KernelOutput kernel _ _ _ =>
      "Failed to download output for kernel '" +:+ kernel +:+ "': "
  | KernelStatus kernel => "Failed to retrieve kernel status for '" +:+ kernel +:+ "': "
  | ModelsList _ _ _ _ _ => "Failed to list models: "
  | ModelGet model _ => "Failed to retrieve model '" +:+ model +:+ "': "
  | ModelInitialize _ => "Failed to initialize model metadata: "
  | ModelCreate _ => "Failed to create model: "
  | ModelUpdate _ => "Failed to update model: "
  | ModelDelete model _ => "Failed to delete model '" +:+ model +:+ "': "
  | ModelInstanceGet model_instance _ =>
      "Failed to retrieve model instance '" +:+ model_instance +:+ "': "
  | ModelInstanceInitialize _ => "Failed to initialize model instance metadata: "
  | ModelInstanceCreate _ _ _ => "Failed to create model instance: "
  | ModelInstanceUpdate _ => "Failed to update model instance: "
  | ModelInstanceDelete model_instance _ =>
      "Failed to delete model instance '" +:+ model_instance +:+ "': "
  | ModelInstanceVersionCreate _ _ _ _ _ => "Failed to create model instance version: "
  | ModelInstanceVersionDownload model_instance_version _ _ _ _ =>
      "Failed to download model instance version '" +:+ model_instance_version +:+ "': "
  | ModelInstanceVersionFiles model_instance_version _ _ _ =>
      "Failed to retrieve files for model instance version '" +:+ model_instance_version
      +:+ "': "
  | ModelInstanceVersionDelete model_instance_version _ =>
      "Failed to delete model instance version '" +:+ model_instance_version +:+ "': "
  | _ => ""
  end.

(** A delete-style call whose confirmation flag is not true. *)
Definition unconfirmed_delete (req : request) : bool :=
  match req with
  | ModelDelete _ confirmation | ModelInstanceDelete _ confirmation
  | ModelInstanceVersionDelete _ confirmation => negb confirmation
  | _ => false
  end.

(** A file system where [/tmp/nometadata] is an empty folder. *)
Definition nometadata_fs : gmap location node :=
  <[["tmp"; "nometadata"] := NDir]> (<[["tmp"] := NDir]> ∅).

(** The compound identifier an adapter validates, with the number of
    [/]-separated segments its documentation gives it. *)
Definition compound_identifier (req : request) : option (string * nat) :=
  match req with
  | KernelListFiles ident _ _ | KernelPull ident _ _ _ | KernelOutput ident _ _ _
  | KernelStatus ident | ModelGet ident _ | ModelDelete ident _ => Some (ident, 2%nat)
  | ModelInstanceGet ident _ | ModelInstanceDelete ident _
  | ModelInstanceVersionCreate ident _ _ _ _ => Some (ident, 4%nat)
  | ModelInstanceVersionDownload ident _ _ _ _ | ModelInstanceVersionFiles ident _ _ _
  | ModelInstanceVersionDelete ident _ => Some (ident, 5%nat)
  | _ => None
  end.

(** [ident.split("/")] *)
Definition segments (ident : string) : list string := str_split slash ident.

Definition is_kernel_list_files (req : request) : bool :=
  match req with
  | KernelListFiles _ _ _ => true
  | _ => false
  end.

(** The adapters that look for an [error] field in the coerced response. *)
Definition checks_error_field (req : request) : bool :=
  match req with
  | DatasetCreate _ _ _ _ _ | DatasetCreateVersion _ _ _ _ _ _ | KernelPush _ _
  | ModelCreate _ | ModelUpdate _ | ModelDelete _ _ | ModelInstanceCreate _ _ _
  | ModelInstanceUpdate _ | ModelInstanceDelete _ _
  | ModelInstanceVersionCreate _ _ _ _ _ | ModelInstanceVersionDelete _ _ => true
  | _ => false
  end.

(** How an adapter coerces its delegate's response to a mapping. *)
Definition coerced (req : request) (r : pyval) : result pyval :=
  match req with
  | CompetitionSubmit _ _ _ _ | DatasetCreate _ _ _ _ _
  | DatasetCreateVersion _ _ _ _ _ _ | ModelGet _ _ | ModelInstanceGet _ _ =>
      to_dict_or_vars r
  | KernelStatus _ => to_dict_or_dict_or_vars_default r
  | _ => to_dict_or_dict_or_vars r
  end.

(** A delegate response that reports a refusal in its [error] field. *)
Definition refused_fields : pydict :=
  [("error", PStr "Permission denied"); ("ref", PStr "")].

Definition refused_delete : pyval :=
  PObj "ApiDeleteModelResponse" (Some (Ok (PDict refused_fields))) [] [].

Definition model_delete_call : api_call :=
  ApiCall "model_delete" [PStr "o/m"] [("yes", PBool true)].

(** The folder an adapter requires to exist before it goes on. *)
Definition required_folder (req : request) : option string :=
  match req with
  | DatasetCreate folder _ _ _ _ | DatasetInitialize folder
  | DatasetCreateVersion folder _ _ _ _ _ | KernelInitialize folder | KernelPush folder _
  | ModelCreate folder | ModelUpdate folder | ModelInstanceCreate folder _ _
  | ModelInstanceUpdate folder | ModelInstanceVersionCreate _ folder _ _ _ => Some folder
  | _ => None
  end.

(** The folder an adapter creates, with [os.makedirs], when it is missing. *)
Definition created_folder (req : request) (w : world) : option string :=
  match req with
  | KernelPull _ path _ _ | KernelOutput _ path _ _ => Some path
  | ModelGet _ path | ModelInstanceGet _ path
  | ModelInstanceVersionDownload _ path _ _ _ => Some (default (w_cwd w) path)
  | ModelInitialize folder | ModelInstanceInitialize folder => Some folder
  | _ => None
  end.

(** Whether the source declares the tool with [async def]; [dataset_create]
    and [dataset_initialize] are plain functions. *)
Definition declared_async (req : request) : bool :=
  match req with
  | DatasetCreate _ _ _ _ _ | DatasetInitialize _ => false
  | _ => true
  end.

(** The two coroutines whose body calls the delegate directly. *)
Definition inline_in_coroutine (req : request) : bool :=
  match req with
  | DatasetDownloadFiles _ _ _ _ _ | DatasetCreateVersion _ _ _ _ _ _ => true
  | _ => false
  end.

Definition dataset_create_call : api_call :=
  ApiCall "dataset_create_new" [PStr "/k"]
    [("public", PBool false); ("quiet", PBool false); ("convert_to_csv", PBool true);
     ("dir_mode", PStr "skip")].

(** The two credentials, when both variables are set and non-empty. *)
Definition credentials (w : world) : option (string * string) :=
  match w_environ w !! "KAGGLE_USERNAME", w_environ w !! "KAGGLE_API_KEY" with
  | Some u, Some k => if String.eqb u "" || String.eqb k "" then None else Some (u, k)
  | _, _ => None
  end.

(** [~/.kaggle] and [~/.kaggle/kaggle.json] *)
Definition kaggle_dir (w : world) : string := w_home w +:+ "/.kaggle".
Definition kaggle_path (w : world) : string := path_join (kaggle_dir w) "kaggle.json".

(** Owner read and write, nothing for group and others: [0o600]. *)
Definition owner_rw_only : Z := 384.

Definition kaggle_env : gmap string string :=
  <["KAGGLE_USERNAME" := "alice"]> (<["KAGGLE_API_KEY" := "s3cret"]> ∅).

Definition kaggle_world : world :=
  {| w_cwd := "/work"; w_home := "/home/u"; w_umask := 18;
     w_environ := kaggle_env; w_api := api_returning PNone |}.

(** Where [os.makedirs] leaves the file system of [kaggle_world]. *)
Definition kaggle_dirs_fs : gmap location node :=
  <[["home"; "u"; ".kaggle"] := NDir]> (<[["home"; "u"] := NDir]> (<[["home"] := NDir]> ∅)).

(** The two "get" adapters that save what they fetched: the target
    directory, the name of the file written there and the delegate call. *)
Definition metadata_get (req : request) (w : world) : option (string * string * api_call) :=
  match req with
  | ModelGet model path =>
      Some (default (w_cwd w) path, "model-metadata.json",
            ApiCall "model_get" [PStr model] [])
  | ModelInstanceGet model_instance path =>
      Some (default (w_cwd w) path, "model-instance-metadata.json",
            ApiCall "model_instance_get" [PStr model_instance] [])
  | _ => None
  end.

(** A [/out] that already holds a [model-metadata.json]. *)
Definition stale_metadata_fs : gmap location node :=
  <[["out"; "model-metadata.json"] := NFile (Text "{}") 420]>
    (<[["out"] := NDir]> ∅).

Definition bert_fields : pydict := [("id", PInt 7); ("slug", PStr "bert")].

Definition bert_model : pyval := PObj "ApiModel" (Some (Ok (PDict bert_fields))) [] [].

(** [bert_fields] dumped with [indent=4]: the two members on a line each. *)
Definition bert_text : string :=
  "{" +:+ String newline "    " +:+ json_quote false "id" +:+ ": 7,"
  +:+ String newline "    " +:+ json_quote false "slug" +:+ ": " +:+ json_quote false "bert"
  +:+ String newline "}".

(** ** Vocabulary of the further properties *)

(** How an adapter's body invokes the delegate. *)
Definition dispatch_of (req : request) : dispatch :=
  if declared_async req && negb (inline_in_coroutine req) then Executor else Inline.

(** The one file an adapter writes itself: the metadata file of the two
    "get" adapters. *)
Definition written_file (req : request) (w : world) : option location :=
  match metadata_get req w with
  | Some (dir, name, _) => Some (resolve (w_cwd w) (path_join dir name))
  | None => None
  end.

(** A regular file stands where a folder is asked for. *)
Definition occupied_fs : gmap location node :=
  <[["data.csv"] := NFile (Text "a,b") 420]> ∅.

(** The identifier an adapter repeats in its envelope, with the key it is
    stored under. *)
Definition echoed_identifier (req : request) : option (string * string) :=
  match req with
  | KernelPull ident _ _ _ | KernelOutput ident _ _ _ | KernelStatus ident =>
      Some ("kernel", ident)
  | ModelGet ident _ | ModelDelete ident _ => Some ("model", ident)
  | ModelInstanceGet ident _ | ModelInstanceDelete ident _
  | ModelInstanceVersionCreate ident _ _ _ _ => Some ("model_instance", ident)
  | ModelInstanceVersionDownload ident _ _ _ _ | ModelInstanceVersionFiles ident _ _ _
  | ModelInstanceVersionDelete ident _ => Some ("model_instance_version", ident)
  | _ => None
  end.

(** The keys of the envelope, in order, for the adapters whose return
    statements all build the same keys. *)
Definition envelope_keys (req : request) : option (list string) :=
  match req with
  | KernelsList _ _ _ _ _ _ _ _ _ _ _ | KernelListFiles _ _ _ | KernelInitialize _
  | ModelsList _ _ _ _ _ | ModelInitialize _ | ModelCreate _ | ModelUpdate _
  | ModelInstanceInitialize _ | ModelInstanceCreate _ _ _ | ModelInstanceUpdate _ =>
      Some ["status"; "message"; "data"]
  | KernelStatus _ => Some ["status"; "message"; "kernel"; "data"]
  | ModelGet _ _ => Some ["status"; "message"; "model"; "data"; "file_path"]
  | ModelDelete _ _ => Some ["status"; "message"; "model"; "data"]
  | ModelInstanceGet _ _ => Some ["status"; "message"; "model_instance"; "data"; "file_path"]
  | ModelInstanceDelete _ _ | ModelInstanceVersionCreate _ _ _ _ _ =>
      Some ["status"; "message"; "model_instance"; "data"]
  | ModelInstanceVersionDownload _ _ _ _ _ =>
      Some ["status"; "message"; "model_instance_version"; "saved_path"]
  | ModelInstanceVersionFiles _ _ _ _ =>
      Some ["status"; "message"; "model_instance_version"; "files"]
  | ModelInstanceVersionDelete _ _ =>
      Some ["status"; "message"; "model_instance_version"; "data"]
  | _ => None
  end.

(** The payload fields of an envelope that reports a failed validation or a
    caught exception. *)
Definition empty_payload (req : request) : list (string * pyval) :=
  match req with
  | KernelsList _ _ _ _ _ _ _ _ _ _ _ | KernelListFiles _ _ _ | ModelsList _ _ _ _ _ =>
      [("data", PList [])]
  | KernelInitialize _ | KernelStatus _ | ModelInitialize _ | ModelCreate _ | ModelUpdate _
  | ModelDelete _ _ | ModelInstanceInitialize _ | ModelInstanceCreate _ _ _
  | ModelInstanceUpdate _ | ModelInstanceDelete _ _ | ModelInstanceVersionCreate _ _ _ _ _
  | ModelInstanceVersionDelete _ _ => [("data", PDict [])]
  | ModelGet _ _ | ModelInstanceGet _ _ => [("data", PDict []); ("file_path", PStr "")]
  | ModelInstanceVersionDownload _ _ _ _ _ => [("saved_path", PStr "")]
  | ModelInstanceVersionFiles _ _ _ _ => [("files", PList [])]
  | _ => []
  end.

(** The delete adapters: the delegate's method, the identifier and the
    confirmation flag. *)
Definition delete_request (req : request) : option (string * string * bool) :=
  match req with
  | ModelDelete ident confirmation => Some ("model_delete", ident, confirmation)
  | ModelInstanceDelete ident confirmation =>
      Some ("model_instance_delete", ident, confirmation)
  | ModelInstanceVersionDelete ident confirmation =>
      Some ("model_instance_version_delete", ident, confirmation)
  | _ => None
  end.

(** The listing adapters that convert every item of the delegate's result:
    the key of the list in the envelope, the conversion of one item, and
    what follows the count in the message. *)
Definition listing (req : request) : option (string * (pyval → result pyval) * string) :=
  match req with
  | CompetitionsList _ _ => Some ("competitions", λ c, py_getattr c "ref", " competitions.")
  | CompetitionSubmissions _ _ _ _ _ => Some ("data", to_dict_or_vars, " submissions.")
  | CompetitionLeaderboardView _ => Some ("data", to_dict_or_vars, " leaderboard entries.")
  | KernelsList _ _ _ _ _ _ _ _ _ _ _ => Some ("data", to_dict_or_vars, " kernels.")
  | ModelsList _ _ _ _ _ => Some ("data", to_dict_or_vars, " models.")
  | _ => None
  end.

(** The adapters that list the [files] of a response as they are: whether
    a response without that attribute is tolerated, and what follows the
    count in the message. *)
Definition files_listing (req : request) : option (bool * string) :=
  match req with
  | CompetitionListFiles competition _ _ =>
      Some (false, " files for '" +:+ competition +:+ "'.")
  | DatasetListFiles dataset _ _ => Some (false, " files for dataset: " +:+ dataset)
  | ModelInstanceVersionFiles model_instance_version _ _ _ =>
      Some (true, " files for model instance version '" +:+ model_instance_version +:+ "'.")
  | _ => None
  end.

(** The adapters that hand the delegate's response over as it is, with the
    key it is stored under. *)
Definition passed_through (req : request) : option string :=
  match req with
  | DatasetsList _ _ _ _ _ _ _ _ _ _ _ => Some "datasets"
  | DatasetStatus _ => Some "dataset_status"
  | KernelListFiles _ _ _ => Some "data"
  | _ => None
  end.

(** Two leaderboard entries, the second without [to_dict]. *)
Definition entry_fields (team : string) : pydict := [("teamName", PStr team)].

Definition leaderboard : list pyval :=
  [PObj "ApiLeaderboardEntry" (Some (Ok (PDict (entry_fields "a")))) [] [];
   PObj "Entry" None (entry_fields "b") []].

(** A field that [kernel_push] takes for a validation error of the push. *)
Definition reports_invalid (kv : string * pyval) : bool :=
  str_startswith "invalid" kv.1 && truthy kv.2.

(** A push response that names no invalid tag. *)
Definition clean_push_fields : pydict :=
  [("ref", PStr "u/k"); ("error", PNone); ("invalidTags", PList [])].

(** The message the create and update adapters store in the response on
    success. *)
Definition success_message (req : request) : option string :=
  match req with
  | DatasetCreate folder _ _ _ _ =>
      Some ("Dataset created successfully from folder: " +:+ folder)
  | DatasetCreateVersion folder _ _ _ _ _ =>
      Some ("New version created successfully for dataset in folder: " +:+ folder)
  | ModelCreate _ => Some "Model created successfully."
  | ModelUpdate _ => Some "Model updated successfully."
  | ModelInstanceCreate _ _ _ => Some "Model instance created successfully."
  | ModelInstanceUpdate _ => Some "Model instance updated successfully."
  | ModelInstanceVersionCreate _ _ _ _ _ => Some "Model instance version created successfully."
  | _ => None
  end.

(** The two adapters that compare the [error] field with the empty string. *)
Definition compares_error_with_empty (req : request) : bool :=
  match req with
  | DatasetCreate _ _ _ _ _ | DatasetCreateVersion _ _ _ _ _ _ => true
  | _ => false
  end.

(** A response of [dataset_create_new] whose [error] is [None]. *)
Definition none_error_fields : pydict := [("ref", PStr "u/d"); ("error", PNone)].

Definition none_error_response : pyval :=
  PObj "ApiCreateDatasetResponse" (Some (Ok (PDict none_error_fields))) [] [].

(** A submission that the service refused. *)
Definition refused_submission : pyval :=
  PObj "ApiCreateSubmissionResponse" (Some (Ok (PDict [("error", PStr "Too large")]))) [] [].

(** What [kernel_status] returns as [data] for a response that has no
    [to_dict]: the response if it is a dict, else its [__dict__], else the
    empty dict. *)
Definition status_data (r : pyval) : pyval :=
  match r with
  | PDict _ => r
  | PObj _ _ vars _ => PDict vars
  | _ => PDict []
  end.

(** A path component that [os.path.normpath] keeps as it is. *)
Definition plain (c : string) : bool :=
  negb (String.eqb c "") && negb (String.eqb c ".") && negb (String.eqb c "..")
  && negb (str_contains slash c).

(** [path or os.getcwd()] *)
Definition or_cwd (w : world) (path : option string) : string :=
  match path with
  | Some p => if String.eqb p "" then w_cwd w else p
  | None => w_cwd w
  end.

(** The path an adapter reports on success: the key it is stored under and
    the path the adapter worked with. *)
Definition reported_path (req : request) (w : world) : option (string * string) :=
  match req with
  | CompetitionDownloadFile _ _ path _ _ | CompetitionDownloadFiles _ path _ _ =>
      Some ("saved_path", or_cwd w path)
  | KernelOutput _ path _ _ => Some ("saved_path", path)
  | ModelGet _ path =>
      Some ("file_path", path_join (default (w_cwd w) path) "model-metadata.json")
  | ModelInstanceGet _ path =>
      Some ("file_path", path_join (default (w_cwd w) path) "model-instance-metadata.json")
  | ModelInstanceVersionDownload _ path _ _ _ => Some ("saved_path", default (w_cwd w) path)
  | _ => None
  end.

(** The dataset adapters that hand the caller's [path] to the delegate as it
    is and name [path or os.getcwd()] in their message. *)
Definition forwarded_path (req : request) : option (option string) :=
  match req with
  | DatasetMetadata _ path | DatasetDownloadFile _ _ path _ _ _
  | DatasetDownloadFiles _ path _ _ _ => Some path
  | _ => None
  end.

(** [s.endswith(t)] *)
Fixpoint str_endswith (t s : string) : bool :=
  String.eqb s t
  || match s with
     | String _ s' => str_endswith t s'
     | EmptyString => false
     end.

(** A model whose [to_dict] holds a value that [json] cannot write. *)
Definition dated_fields : pydict :=
  [("id", PInt 7); ("updated", PObj "datetime" None [] [])].

Definition dated_model : pyval := PObj "ApiModel" (Some (Ok (PDict dated_fields))) [] [].

(** A dict whose values are all strings. *)
Definition flat (items : list (string * string)) : pyval :=
  PDict (map (λ kv, (kv.1, PStr kv.2)) items).

(** One member of an object as [json.dump] writes it. *)
Definition member_text (ensure_ascii : bool) (kv : string * string) : string :=
  json_quote ensure_ascii kv.1 +:+ ": " +:+ json_quote ensure_ascii kv.2.

(** Only white space. *)
Fixpoint blank (s : string) : bool :=
  match s with
  | EmptyString => true
  | String a s' => is_json_space a && blank s'
  end.

(** * Proofs *)

(** ** Shared facts *)

(** *** Lists and strings *)

Lemma app_singleton_neq {A} (l : list A) x : l ≠ (l ++ [x])%list.
Proof. intros H. apply (f_equal length) in H. rewrite length_app in H. simpl in H. lia. Qed.

Lemma app_singleton_neq' {A} (l : list A) x : (l ++ [x])%list ≠ l.
Proof. intros H. symmetry in H. by apply app_singleton_neq in H. Qed.

Lemma append_assoc (a b c : string) : (a +:+ b) +:+ c = a +:+ (b +:+ c).
Proof. induction a as [|x a IH]; [done|]. unfold String.append in *; simpl; fold String.append in *. by f_equal. Qed.

Lemma append_cons (a : ascii) (s t : string) : String a s +:+ t = String a (s +:+ t).
Proof. reflexivity. Qed.

Lemma append_nil (t : string) : "" +:+ t = t.
Proof. reflexivity. Qed.


(** *** Dict displays *)

Lemma dict_get_set_eq k v d : dict_get k (dict_set k v d) = Some v.
Proof.
  induction d as [|[k' v'] d IH]; simpl.
  - by rewrite String.eqb_refl.
  - destruct (String.eqb k k') eqn:E; simpl.
    + by rewrite String.eqb_refl.
    + by rewrite E.
Qed.

Lemma dict_get_set_ne k k' v d : k ≠ k' → dict_get k (dict_set k' v d) = dict_get k d.
Proof.
  intros Hne. induction d as [|[k0 v0] d IH]; simpl.
  - destruct (String.eqb_spec k k'); done.
  - destruct (String.eqb_spec k' k0) as [->|Hk0]; simpl.
    + destruct (String.eqb_spec k k0); done.
    + destruct (String.eqb_spec k k0); done.
Qed.

Lemma dict_get_fold_absent k (l d : pydict) :
  dict_get k l = None →
  dict_get k (fold_left (λ d kv, dict_set kv.1 kv.2 d) l d) = dict_get k d.
Proof.
  revert d. induction l as [|[k' v'] l IH]; intros d Hl; simpl in *; [done|].
  destruct (String.eqb_spec k k') as [->|Hne]; [done|].
  rewrite IH by done. by apply dict_get_set_ne.
Qed.


Lemma truthy_not_empty_str x : truthy x = true → is_empty_str x = false.
Proof. destruct x; simpl; try done. by intros ->%negb_true_iff. Qed.

(** *** The file system *)

Lemma mkdirs_from_cons (shown : string) (pre : location) (c : string) (rest : list string)
    (fs : gmap location node) :
  mkdirs_from shown pre (c :: rest) fs
  = match fs !! (pre ++ [c])%list with
    | Some NDir => mkdirs_from shown (pre ++ [c])%list rest fs
    | Some (NFile _ _) =>
        match rest with
        | [] => Raise (os_error "FileExistsError" "17" "File exists" shown)
        | _ => Raise (os_error "NotADirectoryError" "20" "Not a directory" shown)
        end
    | None => mkdirs_from shown (pre ++ [c])%list rest (<[(pre ++ [c])%list := NDir]> fs)
    end.
Proof. reflexivity. Qed.

Lemma mkdirs_from_keeps (shown : string) (pre : location) (rest : list string)
    (fs fs' : gmap location node) (k : location) :
  mkdirs_from shown pre rest fs = Ok fs' → fs !! k = Some NDir → fs' !! k = Some NDir.
Proof.
  revert pre fs. induction rest as [|c rest IH]; intros pre fs Hmk Hk.
  - by injection Hmk as <-.
  - rewrite mkdirs_from_cons in Hmk.
    destruct (fs !! (pre ++ [c])%list) as [[|]|] eqn:E.
    + by eapply IH.
    + by destruct rest.
    + eapply IH; [done|]. rewrite lookup_insert_ne; [done|].
      intros <-. by rewrite E in Hk.
Qed.

Lemma mkdirs_from_creates (shown : string) (pre : location) (rest : list string)
    (fs fs' : gmap location node) :
  mkdirs_from shown pre rest fs = Ok fs' → rest ≠ [] →
  fs' !! (pre ++ rest)%list = Some NDir.
Proof.
  revert pre fs. induction rest as [|c rest IH]; intros pre fs Hmk Hne; [done|].
  rewrite mkdirs_from_cons in Hmk.
  replace (pre ++ c :: rest)%list with ((pre ++ [c]) ++ rest)%list
    by (by rewrite <- app_assoc).
  destruct (fs !! (pre ++ [c])%list) as [[|]|] eqn:E.
  - destruct rest as [|c' rest]; [|by apply (IH _ fs)].
    injection Hmk as <-. by rewrite app_nil_r.
  - by destruct rest.
  - destruct rest as [|c' rest]; [|by apply (IH _ (<[(pre ++ [c])%list := NDir]> fs))].
    injection Hmk as <-. rewrite app_nil_r. apply lookup_insert_eq.
Qed.

Lemma mkdirs_from_prefixes (shown : string) (pre : location) (rest : list string)
    (fs fs' : gmap location node) (n : nat) :
  mkdirs_from shown pre rest fs = Ok fs' →
  (0 < n ≤ length rest)%nat →
  fs' !! (pre ++ take n rest)%list = Some NDir.
Proof.
  revert pre fs n. induction rest as [|c rest IH]; intros pre fs n Hmk Hn;
    [simpl in Hn; lia|].
  rewrite mkdirs_from_cons in Hmk.
  destruct n as [|n]; [lia|]. simpl in Hn. simpl.
  replace (pre ++ c :: take n rest)%list with ((pre ++ [c]) ++ take n rest)%list
    by (by rewrite <- app_assoc).
  destruct (fs !! (pre ++ [c])%list) as [[|]|] eqn:E.
  - destruct n as [|n].
    + rewrite take_0, app_nil_r. by eapply mkdirs_from_keeps.
    + eapply IH; [done|lia].
  - by destruct rest.
  - destruct n as [|n].
    + rewrite take_0, app_nil_r. eapply mkdirs_from_keeps; [done|]. apply lookup_insert_eq.
    + eapply IH; [done|lia].
Qed.

Lemma makedirs_makes_dir (w : world) (fs fs1 : gmap location node) (folder : string) :
  folder ≠ "" →
  mkdirs_from folder [] (resolve (w_cwd w) folder) fs = Ok fs1 →
  dir_at w fs1 folder = true.
Proof.
  intros Hne Hmk. unfold dir_at.
  destruct (String.eqb_spec folder ""); [done|].
  destruct (resolve (w_cwd w) folder) as [|c l] eqn:E; [done|].
  pose proof (mkdirs_from_creates _ [] (c :: l) fs fs1 Hmk) as H.
  simpl in H. unfold fs_node. by rewrite H.
Qed.

Lemma open_w_location (w : world) (fs : gmap location node) p l m :
  open_w w fs p = Ok (l, m) → l = resolve (w_cwd w) p ∧ l ≠ [].
Proof.
  unfold open_w. destruct (String.eqb p ""); [done|].
  destruct (resolve (w_cwd w) p) as [|c l'] eqn:E; [done|].
  intros H. repeat case_match; by simplify_eq.
Qed.

(** *** Symbolic execution of an adapter *)

Ltac unfold_tool :=
  unfold run_tool;
  unfold competitions_list, competition_list_files, competition_download_file,
    competition_download_files, competition_submit, competition_submissions,
    competition_leaderboard_view, competition_leaderboard_download, datasets_list,
    dataset_metadata, dataset_list_files, dataset_status, dataset_download_file,
    dataset_download_files, dataset_create, dataset_initialize, dataset_create_version,
    kernels_list, kernel_list_files, kernel_initialize, kernel_push, kernel_pull,
    kernel_output, kernel_status, models_list, model_get, model_initialize, model_create,
    model_update, model_delete, model_instance_get, model_instance_initialize,
    model_instance_create, model_instance_update, model_instance_delete,
    model_instance_version_create, model_instance_version_download,
    model_instance_version_files, model_instance_version_delete.

Ltac unfold_monad :=
  unfold try_except, run_in_executor, call_inline, invoke, mbind, M_bind, lift, return_,
    mret, M_ret, folder_missing, isdir, path_exists, makedirs, write_json, os_abspath,
    getcwd, or_getcwd, default_getcwd, chmod, raise, environ_get, expanduser_home.

(** Case analysis on the innermost scrutinee that blocks the run. *)
Ltac run_step :=
  match goal with
  | |- context [match ?x with _ => _ end] =>
      lazymatch x with
      | context [match _ with _ => _ end] => fail
      | _ => destruct x eqn:?
      end
  end.

Ltac run_tool_cases := unfold_tool; unfold_monad; simpl; repeat (run_step; simpl in *).

Ltac run_in_goal :=
  unfold_tool; unfold_monad; simpl;
  repeat (first [rewrite dict_get_set_eq | run_step]; simpl in * ).

Ltac finish_run :=
  intros; simplify_eq/=;
  try match goal with
  | H : _ = (_ ++ [_])%list |- _ => by apply app_singleton_neq in H
  | H : (_ ++ [_])%list = _ |- _ => by apply app_singleton_neq' in H
  end.

(** The shapes behind a successful dict operation. *)
Ltac invert_coercions :=
  repeat match goal with
  | H : py_spread ?x = Ok _ |- _ => is_var x; destruct x; simpl in *; simplify_eq
  | H : py_items ?x = Ok _ |- _ => is_var x; destruct x; simpl in *; simplify_eq
  | H : py_get ?x _ _ = Ok _ |- _ => is_var x; destruct x; simpl in *; simplify_eq
  | H : py_getitem ?x _ = Ok _ |- _ => is_var x; destruct x; simpl in *; simplify_eq
  | H : py_setitem ?x _ _ = Ok _ |- _ => is_var x; destruct x; simpl in *; simplify_eq
  end.

(** Rewrites the guards met along a run into the hypothesis [H]. *)
Ltac use_guards H :=
  repeat match goal with
  | E : negb ?x = false |- _ => apply negb_false_iff in E
  | E : negb ?x = true |- _ => apply negb_true_iff in E
  | E : ?x || ?y = false |- _ => apply orb_false_elim in E as [? ?]
  end;
  repeat match goal with
  | E : ?x = _ |- _ =>
      tryif constr_eq E H then fail
      else match type of H with context [x] => rewrite E in H; simpl in H end
  end.


(** *** Validation *)

Lemma failed_validation_returns (req : request) (w : world) (st : state) :
  passes_validation req w st = false →
  ∃ v, run_tool req w st = (Ok v, st) ∧ field "status" v = Some (PStr "error").
Proof.
  intros Hval.
  destruct req; unfold passes_validation, folder_ok, metadata_ok in Hval;
    try discriminate.
  all: run_tool_cases.
  all: try (by eexists; split; [reflexivity|]).
  all: exfalso; use_guards Hval; try done.
Qed.

(** ** C1: the envelope invariant *)





(** ** C2: success of the delegate and success of the adapter *)




(** ** C3: exceptions become error envelopes *)



(** ** C4: failed validation short-circuits *)

(** C4.  Whenever an input fails the adapter's local validation (an empty
    identifier or one that does not have the shape the adapter checks, a
    missing folder, a missing metadata file, a confirmation flag that is not
    true), the adapter returns an envelope with status ["error"] and leaves
    the state as it found it: no delegate call is logged and the file system
    is unchanged.  In particular a delete-style adapter called without
    confirmation does so whatever its identifier is. *)
Theorem C4_validation_short_circuits (req : request) (w : world) (st : state) :
  passes_validation req w st = false ∨ unconfirmed_delete req = true →
  ∃ v, run_tool req w st = (Ok v, st) ∧ field "status" v = Some (PStr "error").
Proof.
  intros H. apply failed_validation_returns.
  destruct H as [H|H]; [done|]. destruct req; simpl in *; try done.
  all: apply negb_true_iff in H; subst; by rewrite andb_false_r.
Qed.

(** The scenario of the specification: the folder exists but holds no
    [kernel-metadata.json]. *)
Lemma C4_validation_short_circuits_witness :
  ∃ v, run_tool (KernelPush "/tmp/nometadata" None)
         (demo_world (api_returning PNone)) (state_of nometadata_fs)
       = (Ok v, state_of nometadata_fs)
       ∧ field "status" v = Some (PStr "error").
Proof.
  apply (C4_validation_short_circuits (KernelPush "/tmp/nometadata" None)
           (demo_world (api_returning PNone)) (state_of nometadata_fs)).
  left. vm_compute. reflexivity.
Defined.

(** ** C5: the shape of compound identifiers *)

Lemma str_split_nonempty c s : str_split c s ≠ [].
Proof. destruct s as [|a s]; simpl; [done|]. destruct (Ascii.eqb a c); [done|]. by destruct (str_split c s). Qed.

Lemma str_split_length_cons c a s :
  Ascii.eqb a c = false → length (str_split c (String a s)) = length (str_split c s).
Proof.
  intros H. simpl. rewrite H. pose proof (str_split_nonempty c s).
  by destruct (str_split c s).
Qed.

Lemma str_split_no_sep c s : str_contains c s = false → length (str_split c s) = 1%nat.
Proof.
  induction s as [|a s IH]; simpl; [done|].
  destruct (Ascii.eqb a c) eqn:E; [done|]. intros H.
  specialize (IH H). by destruct (str_split c s) as [|? []].
Qed.

Lemma str_split_sep c s : str_contains c s = true → (2 ≤ length (str_split c s))%nat.
Proof.
  induction s as [|a s IH]; simpl; [done|].
  destruct (Ascii.eqb a c) eqn:E.
  - intros _. pose proof (str_split_nonempty c s). destruct (str_split c s); simpl; [done|lia].
  - intros H. specialize (IH H). destruct (str_split c s); simpl in *; lia.
Qed.

Lemma few_segments_lacks_slash ident :
  (length (segments ident) < 2)%nat → lacks_slash ident = true.
Proof.
  unfold segments, lacks_slash. intros H.
  destruct (str_contains slash ident) eqn:E.
  - apply str_split_sep in E. lia.
  - by rewrite orb_true_r.
Qed.

Lemma re_match_plus c rest b x s :
  re_match (RPlusNot c :: rest) b (String x s)
  = if Ascii.eqb x c then false
    else re_match (RPlusNot c :: rest) b s || re_match rest false s.
Proof. by destruct s. Qed.

Lemma re_tail_no_slash b t :
  re_match [RPlusNot slash; REnd] b t = true → str_contains slash t = false.
Proof.
  induction t as [|x t IH]; [done|].
  rewrite re_match_plus. simpl. destruct (Ascii.eqb x slash); [done|].
  intros [H|H]%orb_true_iff; [by apply IH|].
  unfold re_match in H. rewrite andb_true_r in H.
  apply orb_true_iff in H as [H|H]; apply String.eqb_eq in H; by subst.
Qed.

Lemma re_kernel_ref_two_segments b s :
  re_match [RPlusNot slash; RChar slash; RPlusNot slash; REnd] b s = true →
  length (str_split slash s) = 2%nat.
Proof.
  induction s as [|x s IH]; [done|].
  rewrite re_match_plus. destruct (Ascii.eqb x slash) eqn:E; [done|].
  rewrite str_split_length_cons by done.
  intros [H|H]%orb_true_iff; [by apply IH|].
  destruct s as [|y t]; [done|].
  change (Ascii.eqb y slash && re_match [RPlusNot slash; REnd] false t = true) in H.
  apply andb_true_iff in H as [Hy Ht].
  apply (re_tail_no_slash false), (str_split_no_sep slash) in Ht.
  simpl. rewrite Hy. simpl. by rewrite Ht.
Qed.

Lemma kernel_ref_pattern_two_segments s :
  re_match kernel_ref_pattern true s = true → length (segments s) = 2%nat.
Proof. intros H. by apply (re_kernel_ref_two_segments true). Qed.

(** C5 fails as stated: [model_instance_get] documents its identifier as
    [owner/model/framework/instance-slug], four segments, yet ["a/b"], which
    has two, passes the validation and is handed to the delegate. *)
Lemma C5_two_segments_accepted_for_four :
  compound_identifier (ModelInstanceGet "a/b" None) = Some ("a/b", 4%nat)
  ∧ length (segments "a/b") = 2%nat
  ∧ st_calls (run_tool (ModelInstanceGet "a/b" None)
                (demo_world (api_returning (PObj "ApiModelInstance" None [] [])))
                (state_of ∅)).2
    = [(Executor, ApiCall "model_instance_get" [PStr "a/b"] [],
        Ok (PObj "ApiModelInstance" None [] []))].
Proof. repeat split; vm_compute; reflexivity. Qed.

(** C5, amended.  Every adapter that validates a compound identifier (the
    kernel, model, model-instance and model-instance-version adapters)
    rejects, with an error envelope and without touching the delegate or the
    file system, every identifier that has fewer than two [/]-separated
    segments, that is, every identifier without a [/]; [kernel_list_files]
    moreover rejects every identifier that does not have exactly two
    segments.  The number of segments beyond the first [/] is not checked by
    the other adapters. *)
Theorem C5_identifier_shape (req : request) (w : world) (st : state) ident n :
  compound_identifier req = Some (ident, n) →
  (length (segments ident) < 2)%nat
  ∨ (is_kernel_list_files req = true ∧ length (segments ident) ≠ 2%nat) →
  ∃ v, run_tool req w st = (Ok v, st) ∧ field "status" v = Some (PStr "error").
Proof.
  intros Hid Hshape.
  apply failed_validation_returns.
  destruct req; simplify_eq/=.
  { destruct (re_match kernel_ref_pattern true ident) eqn:E; [|by rewrite andb_false_r].
    apply kernel_ref_pattern_two_segments in E. destruct Hshape as [?|[_ ?]]; [lia|done]. }
  all: destruct Hshape as [Hlen|[? _]]; [|done].
  all: by rewrite (few_segments_lacks_slash _ Hlen).
Qed.

(** The scenario of the specification: an identifier without a [/]. *)
Lemma C5_identifier_shape_witness :
  ∃ v, run_tool (ModelInstanceDelete "ownername" true)
         (demo_world (api_returning PNone)) (state_of ∅)
       = (Ok v, state_of ∅)
       ∧ field "status" v = Some (PStr "error").
Proof.
  apply (C5_identifier_shape (ModelInstanceDelete "ownername" true)
           (demo_world (api_returning PNone)) (state_of ∅) "ownername" 4%nat).
  - reflexivity.
  - left. vm_compute. lia.
Defined.

(** ** C6: soft failures *)

(** C6 fails as stated: [kernel_status] coerces the response to a mapping
    but never looks at its [error] field; a response [{"error": "boom"}]
    yields a success envelope. *)
Lemma C6_kernel_status_ignores_error :
  coerced (KernelStatus "u/k") (PDict [("error", PStr "boom")])
  = Ok (PDict [("error", PStr "boom")])
  ∧ (run_tool (KernelStatus "u/k")
       (demo_world (api_returning (PDict [("error", PStr "boom")]))) (state_of ∅)).1
    = Ok (mk_dict [("status", PStr "success");
                   ("message", PStr "Retrieved status for kernel 'u/k'.");
                   ("kernel", PStr "u/k");
                   ("data", PDict [("error", PStr "boom")])]).
Proof. split; vm_compute; reflexivity. Qed.

(** C6, amended.  For the adapters that check the coerced response for an
    [error] field (the create, update, delete and push adapters:
    [dataset_create], [dataset_create_version], [kernel_push],
    [model_create], [model_update], [model_delete], [model_instance_create],
    [model_instance_update], [model_instance_delete],
    [model_instance_version_create], [model_instance_version_delete]), a
    non-empty [error] field in the coerced mapping yields an envelope with
    status ["error"] whose message is that field's value and whose [data] is
    the whole coerced mapping.  [kernel_push] attaches the coerced fields to
    the envelope itself instead of under [data]; its status and message are
    stated for responses that carry no [status] or [message] field of their
    own.  The adapters that coerce without checking ([competition_submit],
    [kernel_status], [model_get], [model_instance_get]) are not covered. *)
Theorem C6_soft_failure (req : request) (w : world) (st : state) v st' how c r fields x :
  run_tool req w st = (Ok v, st') →
  st_calls st' = (st_calls st ++ [(how, c, Ok r)])%list →
  checks_error_field req = true →
  coerced req r = Ok (PDict fields) →
  dict_get "error" fields = Some x →
  truthy x = true →
  match req with
  | KernelPush _ _ =>
      v = mk_dict ([("status", PStr "error"); ("message", x)] ++ fields)%list
      ∧ (dict_get "status" fields = None → dict_get "message" fields = None →
         field "status" v = Some (PStr "error") ∧ field "message" v = Some x)
  | _ =>
      field "status" v = Some (PStr "error") ∧ field "message" v = Some x
      ∧ field "data" v = Some (PDict fields)
  end.
Proof.
  intros Hrun Hcalls Hchk Hco Herr Htr. revert Hrun.
  destruct req; try discriminate Hchk; unfold coerced in Hco.
  all: run_in_goal.
  all: finish_run.
  all: repeat match goal with
       | H1 : ?t = Ok _, H2 : ?t = Ok _ |- _ => rewrite H1 in H2; simplify_eq/=
       | H1 : ?t = Ok _, H2 : ?t = Raise _ |- _ => rewrite H1 in H2; simplify_eq/=
       end.
  all: invert_coercions.
  all: simpl in *; rewrite ?Herr in *; simpl in *; simplify_eq/=.
  all: try (pose proof (truthy_not_empty_str _ Htr); congruence).
  all: try congruence.
  all: try done.
  split; [done|]. intros Hs Hm. unfold dict_of; simpl.
  by rewrite !dict_get_fold_absent.
Qed.

Lemma C6_soft_failure_witness :
  let v := mk_dict [("status", PStr "error"); ("message", PStr "Permission denied");
                    ("model", PStr "o/m"); ("data", PDict refused_fields)] in
  field "status" v = Some (PStr "error")
  ∧ field "message" v = Some (PStr "Permission denied")
  ∧ field "data" v = Some (PDict refused_fields).
Proof.
  apply (C6_soft_failure (ModelDelete "o/m" true)
           (demo_world (api_returning refused_delete)) (state_of ∅) _
           (State ∅ [(Executor, model_delete_call, Ok refused_delete)] [])
           Executor model_delete_call refused_delete refused_fields
           (PStr "Permission denied"));
    reflexivity.
Defined.

(** ** C7: missing folders *)

(** C7 fails as stated: [model_initialize] on a folder that does not exist
    creates it, invokes the delegate and reports success. *)
Lemma C7_model_initialize_creates_folder :
  let w := demo_world (api_returning PNone) in
  let out := run_tool (ModelInitialize "/new") w (state_of ∅) in
  dir_at w ∅ "/new" = false
  ∧ out.1 = Ok (mk_dict [("status", PStr "success");
                        ("message", PStr "Initialized model metadata in folder: /new");
                        ("data", PDict [])])
  ∧ st_calls out.2 = [(Executor, ApiCall "model_initialize" [PStr "/new"] [], Ok PNone)]
  ∧ dir_at w (st_fs out.2) "/new" = true.
Proof. repeat split; vm_compute; reflexivity. Qed.

(** C7, amended.  When the caller-supplied folder does not exist, the
    adapters that take a [folder] to read from or initialise in
    ([dataset_create], [dataset_initialize], [dataset_create_version],
    [kernel_initialize], [kernel_push], [model_create], [model_update],
    [model_instance_create], [model_instance_update],
    [model_instance_version_create]) return an error envelope and leave the
    state untouched: no delegate call, no folder created.  The adapters
    [kernel_pull], [kernel_output], [model_get], [model_instance_get],
    [model_instance_version_download], [model_initialize] and
    [model_instance_initialize] instead create the missing folder with
    [os.makedirs] (when that succeeds) and then invoke the delegate, once,
    on the file system that holds the new folder. *)
Theorem C7_folders (req : request) (w : world) (st : state) folder v st' :
  run_tool req w st = (v, st') →
  dir_at w (st_fs st) folder = false →
  (required_folder req = Some folder →
     st' = st ∧ ∃ d, v = Ok d ∧ field "status" d = Some (PStr "error"))
  ∧ (created_folder req w = Some folder →
     passes_validation req w st = true →
     folder ≠ "" →
     ∀ fs1, mkdirs_from folder [] (resolve (w_cwd w) folder) (st_fs st) = Ok fs1 →
       dir_at w fs1 folder = true
       ∧ ∃ c r fs2, w_api w c fs1 = (r, fs2)
                    ∧ st_calls st' = (st_calls st ++ [(Executor, c, r)])%list).
Proof.
  intros Hrun Hdir. split.
  - intros Hreq.
    destruct (failed_validation_returns req w st) as (d & Hd & Hs).
    { destruct req; simplify_eq/=; unfold folder_ok; rewrite Hdir;
        by rewrite ?andb_false_r. }
    rewrite Hd in Hrun. injection Hrun as <- <-. eauto.
  - intros Hcr Hval Hne fs1 Hmk. split; [by eapply makedirs_makes_dir|].
    revert Hrun. destruct req; simplify_eq/=.
    all: repeat match goal with p : option string |- _ => destruct p end; simpl in *.
    all: try (apply negb_true_iff in Hval).
    all: apply String.eqb_neq in Hne.
    all: unfold_tool; unfold_monad; simpl.
    all: rewrite ?Hval; simpl; rewrite ?Hdir; simpl; rewrite ?Hne; rewrite ?Hmk; simpl.
    all: repeat (run_step; simpl in * ).
    all: intros; simplify_eq/=; eauto 10.
Qed.

Lemma C7_folders_witness :
  let w := demo_world (api_returning PNone) in
  let out := run_tool (DatasetInitialize "/missing") w (state_of ∅) in
  out.2 = state_of ∅ ∧ ∃ d, out.1 = Ok d ∧ field "status" d = Some (PStr "error").
Proof.
  intros w out.
  refine (proj1 (C7_folders (DatasetInitialize "/missing") w (state_of ∅) "/missing"
                   out.1 out.2 _ _) _).
  - apply surjective_pairing.
  - vm_compute. reflexivity.
  - reflexivity.
Defined.

(** ** C8: the credential bootstrap *)

Lemma parse_escape_char (a : ascii) (t : string) :
  parse_string_body (escape_char true a +:+ t) = cons_char a (parse_string_body t).
Proof. destruct a as [[] [] [] [] [] [] [] []]; reflexivity. Qed.

Lemma parse_json_quote (s rest : string) :
  parse_string_body (escape_chars true s +:+ String dquote rest) = Some (s, rest).
Proof.
  induction s as [|a s IH]; [reflexivity|].
  change (escape_chars true (String a s))
    with (escape_char true a +:+ escape_chars true s).
  rewrite append_assoc, parse_escape_char, IH. reflexivity.
Qed.

Example dumps_example :
  json_dumps (Some 4%nat) false 0 (PDict [("id", PInt 7); ("tags", PList [PStr "a"; PNone])])
  = Ok ("{" +:+ String newline "    " +:+ json_quote false "id" +:+ ": 7,"
        +:+ String newline "    " +:+ json_quote false "tags" +:+ ": ["
        +:+ String newline "        " +:+ json_quote false "a" +:+ ","
        +:+ String newline "        null"
        +:+ String newline "    ]"
        +:+ String newline "}").
Proof. reflexivity. Qed.

Lemma json_quote_append (b : bool) (s rest : string) :
  json_quote b s +:+ rest = String dquote (escape_chars b s +:+ String dquote rest).
Proof. unfold json_quote. by rewrite append_cons, append_assoc, append_cons, append_nil. Qed.

Lemma dumps_credentials (u k : string) :
  json_dumps None true 0 (PDict [("username", PStr u); ("key", PStr k)])
  = Ok (credentials_text u k).
Proof.
  change (json_dumps None true 0 (PDict [("username", PStr u); ("key", PStr k)]))
    with (Ok ("{" +:+ "" +:+ ((json_quote true "username" +:+ ": " +:+ json_quote true u)
                              +:+ ", " +:+ (json_quote true "key" +:+ ": " +:+ json_quote true k))
              +:+ "" +:+ "}")).
  unfold credentials_text. f_equal.
  by rewrite !append_nil, !append_assoc.
Qed.

Lemma loads_credentials (u k : string) :
  json_loads_flat (credentials_text u k) = Some [("username", u); ("key", k)].
Proof.
  unfold credentials_text, json_loads_flat.
  rewrite !json_quote_append, !append_cons, !append_nil.
  simpl. rewrite parse_json_quote. simpl. rewrite parse_json_quote. reflexivity.
Qed.

Lemma loads_dumped_credentials (u k text : string) :
  json_dumps None true 0 (PDict [("username", PStr u); ("key", PStr k)]) = Ok text →
  json_loads_flat text = Some [("username", u); ("key", k)].
Proof. rewrite dumps_credentials. intros [= <-]. apply loads_credentials. Qed.

(** C8.  If [KAGGLE_USERNAME] and [KAGGLE_API_KEY] are both set and
    non-empty, with values [u] and [k], and the file system lets
    [~/.kaggle] be created and [~/.kaggle/kaggle.json] be opened for
    writing, [init_kaggle] returns normally and leaves at that path a file
    whose text parses as the JSON object [{"username": u, "key": k}] and
    whose mode is [0o600], owner read and write only; the delegate is not
    involved.  If either variable is missing or empty, [init_kaggle] raises
    a [ValueError] and the state, hence the file system, is unchanged. *)
Theorem C8_credential_bootstrap (w : world) (st : state) (creds : option (string * string)) :
  credentials w = creds →
  match creds with
  | Some (u, k) =>
      ∀ fs1 l m,
        mkdirs_from (kaggle_dir w) [] (resolve (w_cwd w) (kaggle_dir w)) (st_fs st) = Ok fs1 →
        open_w w fs1 (kaggle_path w) = Ok (l, m) →
        ∃ st' text,
          init_kaggle w st = (Ok (), st')
          ∧ l = resolve (w_cwd w) (kaggle_path w)
          ∧ st_fs st' !! l = Some (NFile (Text text) owner_rw_only)
          ∧ json_loads_flat text = Some [("username", u); ("key", k)]
          ∧ st_calls st' = st_calls st
  | None =>
      init_kaggle w st
      = (Raise (Exn "ValueError"
                  "Missing KAGGLE_USERNAME or KAGGLE_KEY environment variables"), st)
  end.
Proof.
  intros <-. unfold credentials, init_kaggle. unfold_monad. simpl.
  destruct (w_environ w !! "KAGGLE_USERNAME") as [u|] eqn:Eu; simpl;
    [|reflexivity].
  destruct (w_environ w !! "KAGGLE_API_KEY") as [k|] eqn:Ek; simpl;
    [|by destruct (String.eqb u "")].
  destruct (String.eqb u "") eqn:Hu; simpl; [done|].
  destruct (String.eqb k "") eqn:Hk; simpl; [done|].
  intros fs1 l m Hmk Hopen.
  fold (kaggle_dir w). fold (kaggle_path w).
  destruct (String.eqb_spec (kaggle_dir w) "") as [He|_].
  { unfold kaggle_dir, String.append in He. destruct (w_home w); discriminate. }
  rewrite Hmk. simpl. rewrite Hopen.
  destruct (open_w_location _ _ _ _ _ Hopen) as [Hl Hne].
  simpl. rewrite <- Hl.
  assert (Hnode : ∀ fs : gmap location node, fs_node fs l = fs !! l) by (by destruct l).
  rewrite Hnode, lookup_insert_eq. simpl.
  eexists _, _. split; [reflexivity|]. simpl.
  split; [done|]. split; [apply lookup_insert_eq|].
  split; [by apply (loads_dumped_credentials u k)|done].
Qed.

Lemma C8_credential_bootstrap_witness :
  ∃ st' text,
    init_kaggle kaggle_world (state_of ∅) = (Ok (), st')
    ∧ ["home"; "u"; ".kaggle"; "kaggle.json"]
      = resolve (w_cwd kaggle_world) (kaggle_path kaggle_world)
    ∧ st_fs st' !! ["home"; "u"; ".kaggle"; "kaggle.json"]
      = Some (NFile (Text text) owner_rw_only)
    ∧ json_loads_flat text = Some [("username", "alice"); ("key", "s3cret")]
    ∧ st_calls st' = st_calls (state_of ∅).
Proof.
  assert (H1 : credentials kaggle_world = Some ("alice", "s3cret"))
    by (vm_compute; reflexivity).
  assert (H2 : mkdirs_from (kaggle_dir kaggle_world) []
                 (resolve (w_cwd kaggle_world) (kaggle_dir kaggle_world))
                 (st_fs (state_of ∅)) = Ok kaggle_dirs_fs)
    by reflexivity.
  assert (H3 : open_w kaggle_world kaggle_dirs_fs (kaggle_path kaggle_world)
                 = Ok (["home"; "u"; ".kaggle"; "kaggle.json"], 420))
    by (vm_compute; reflexivity).
  exact (C8_credential_bootstrap kaggle_world (state_of ∅) _ H1 _ _ _ H2 H3).
Defined.

(** ** C9: how the delegate is invoked *)




(** ** C10: the get adapters write a file *)



(** ** A scenario of the specification *)

(** [dataset_download_files(dataset="owner/name", path=None)] with a working
    delegate: the call is made in the adapter's body, the envelope reports
    success, and its message names the dataset and the working directory. *)
Example dataset_download_files_scenario :
  let out := run_tool (DatasetDownloadFiles "owner/name" None false true PNone)
               (demo_world (api_returning PNone)) (state_of ∅) in
  out.1 = Ok (mk_dict [("status", PStr "success");
                       ("message", PStr "Downloaded dataset: owner/name to path: /work")])
  ∧ st_calls out.2
    = [(Inline,
        ApiCall "dataset_download_files" [PStr "owner/name"]
          [("path", PNone); ("force", PBool false); ("quiet", PBool true);
           ("licenses", PNone)],
        Ok PNone)].
Proof. split; vm_compute; reflexivity. Qed.

(** * Further properties of the code *)

(** ** More shared facts *)

(** *** Directories *)

Lemma mkdirs_from_extends (shown : string) (pre : location) (rest : list string)
    (fs fs' : gmap location node) :
  mkdirs_from shown pre rest fs = Ok fs' →
  fs ⊆ fs' ∧ ∀ l n, fs' !! l = Some n → fs !! l = None → n = NDir.
Proof.
  revert pre fs. induction rest as [|c rest IH]; intros pre fs Hmk.
  - injection Hmk as <-. split; [done|]. intros l n H1 H2. congruence.
  - rewrite mkdirs_from_cons in Hmk.
    destruct (fs !! (pre ++ [c])%list) as [[|]|] eqn:E.
    + by eapply IH.
    + by destruct rest.
    + apply IH in Hmk as [Hsub Hnew]. split.
      * etrans; [|exact Hsub]. by apply insert_subseteq.
      * intros l n H1 H2. destruct (decide (l = (pre ++ [c])%list)) as [->|Hne].
        -- eapply lookup_weaken in Hsub; [|apply lookup_insert_eq]. congruence.
        -- apply (Hnew l n H1). by rewrite lookup_insert_ne.
Qed.

Lemma mkdirs_from_existing (shown : string) (pre : location) (rest : list string)
    (fs : gmap location node) :
  (∀ n, (0 < n ≤ length rest)%nat → fs !! (pre ++ take n rest)%list = Some NDir) →
  mkdirs_from shown pre rest fs = Ok fs.
Proof.
  revert pre. induction rest as [|c rest IH]; intros pre H; [done|].
  rewrite mkdirs_from_cons.
  pose proof (H 1%nat) as H1. simpl in H1. rewrite take_0 in H1.
  rewrite H1 by lia. apply IH. intros n Hn.
  specialize (H (S n)). simpl in H. rewrite <- app_assoc. apply H. lia.
Qed.

Lemma mkdirs_from_new (shown : string) (pre : location) (rest : list string)
    (fs fs' : gmap location node) (l : location) :
  mkdirs_from shown pre rest fs = Ok fs' →
  fs !! l = None → is_Some (fs' !! l) →
  ∃ n, (0 < n ≤ length rest)%nat ∧ l = (pre ++ take n rest)%list.
Proof.
  revert pre fs. induction rest as [|c rest IH]; intros pre fs Hmk Hl Hl'.
  - injection Hmk as <-. rewrite Hl in Hl'. by destruct Hl'.
  - rewrite mkdirs_from_cons in Hmk.
    assert (Hgo : ∀ fs0, mkdirs_from shown (pre ++ [c])%list rest fs0 = Ok fs' →
                         fs0 !! l = None →
                         ∃ n, (0 < n ≤ length (c :: rest))%nat
                              ∧ l = (pre ++ take n (c :: rest))%list).
    { intros fs0 H0 Hl0. destruct (IH _ _ H0 Hl0 Hl') as (n & Hn & ->).
      exists (S n). split; [simpl; lia|]. simpl. by rewrite <- app_assoc. }
    destruct (fs !! (pre ++ [c])%list) as [[|]|] eqn:E.
    + by apply (Hgo fs).
    + by destruct rest.
    + destruct (decide (l = (pre ++ [c])%list)) as [->|Hne].
      * exists 1%nat. split; [simpl; lia|]. simpl. by rewrite take_0.
      * apply (Hgo _ Hmk). by rewrite lookup_insert_ne.
Qed.

(** *** Paths *)

Lemma append_empty_r (s : string) : s +:+ "" = s.
Proof. induction s as [|a s IH]; [done|]. by rewrite append_cons, IH. Qed.

Lemma str_split_slash_free (c : ascii) (s : string) :
  Forall (λ x, str_contains c x = false) (str_split c s).
Proof.
  induction s as [|a s IH]; simpl; [by repeat constructor|].
  destruct (Ascii.eqb a c) eqn:E; [by constructor|].
  destruct (str_split c s) as [|x xs]; [by repeat constructor; simpl; rewrite E|].
  apply Forall_cons in IH as [Hx Hxs]. constructor; [|done]. simpl. by rewrite E.
Qed.

Lemma str_split_app_free (c : ascii) (x t : string) :
  str_contains c x = false →
  str_split c (x +:+ t)
  = match str_split c t with
    | y :: ys => (x +:+ y) :: ys
    | [] => [x]
    end.
Proof.
  induction x as [|a x IH]; intros Hx.
  - rewrite append_nil. pose proof (str_split_nonempty c t). by destruct (str_split c t).
  - simpl in Hx. destruct (Ascii.eqb a c) eqn:E; [done|].
    rewrite append_cons. simpl. rewrite E, (IH Hx).
    pose proof (str_split_nonempty c t). by destruct (str_split c t).
Qed.

Lemma str_split_join_parts (l : location) :
  Forall (λ x, str_contains slash x = false) l →
  str_split slash (join_parts l) = "" :: l.
Proof.
  induction 1 as [|x l Hx Hl IH]; [done|].
  change (join_parts (x :: l)) with (String slash (x +:+ join_parts l)).
  change (str_split slash (String slash (x +:+ join_parts l)))
    with ("" :: str_split slash (x +:+ join_parts l)).
  rewrite (str_split_app_free _ _ _ Hx), IH. by rewrite append_empty_r.
Qed.

Lemma plain_slash_free (l : list string) :
  Forall (λ x, plain x = true) l → Forall (λ x, str_contains slash x = false) l.
Proof.
  intros Hl. eapply Forall_impl; [exact Hl|]. intros x H. unfold plain in H.
  apply andb_true_iff in H as [_ H]. by apply negb_true_iff.
Qed.

Lemma norm_parts_plain (acc parts : list string) :
  Forall (λ x, plain x = true) acc →
  Forall (λ x, str_contains slash x = false) parts →
  Forall (λ x, plain x = true) (norm_parts acc parts).
Proof.
  intros Hacc Hparts. revert acc Hacc.
  induction Hparts as [|p ps Hp Hps IH]; intros acc Hacc; simpl.
  - by apply Forall_rev.
  - destruct (String.eqb p "") eqn:E1; simpl; [by apply IH|].
    destruct (String.eqb p ".") eqn:E2; simpl; [by apply IH|].
    destruct (String.eqb p "..") eqn:E3; simpl.
    + apply IH. destruct acc; [done|]. by apply Forall_cons in Hacc as [_ ?].
    + apply IH. constructor; [|done]. unfold plain. by rewrite E1, E2, E3, Hp.
Qed.

Lemma norm_parts_of_plain (acc l : list string) :
  Forall (λ x, plain x = true) l → norm_parts acc l = (rev acc ++ l)%list.
Proof.
  intros Hl. revert acc. induction Hl as [|x l Hx Hl IH]; intros acc; simpl.
  - by rewrite app_nil_r.
  - unfold plain in Hx.
    apply andb_true_iff in Hx as [Hx _]. apply andb_true_iff in Hx as [Hx H3].
    apply andb_true_iff in Hx as [H1 H2].
    apply negb_true_iff in H1, H2, H3. rewrite H1, H2, H3. simpl.
    rewrite IH. simpl. by rewrite <- app_assoc.
Qed.

Lemma resolve_plain (cwd p : string) : Forall (λ x, plain x = true) (resolve cwd p).
Proof.
  unfold resolve. apply norm_parts_plain; [done|].
  destruct (starts_with_slash p); [apply str_split_slash_free|].
  apply Forall_app; split; apply str_split_slash_free.
Qed.

Lemma abspath_absolute (cwd p : string) : starts_with_slash (abspath cwd p) = true.
Proof. unfold abspath. by destruct (resolve cwd p). Qed.

Lemma resolve_abspath (cwd cwd' p : string) :
  resolve cwd' (abspath cwd p) = resolve cwd p.
Proof.
  pose proof (resolve_plain cwd p) as Hpl.
  unfold resolve at 1. rewrite abspath_absolute. unfold abspath.
  destruct (resolve cwd p) as [|x l] eqn:E; [done|].
  rewrite str_split_join_parts by (by apply plain_slash_free).
  change (norm_parts [] ("" :: x :: l)) with (norm_parts [] (x :: l)).
  by rewrite norm_parts_of_plain.
Qed.

Lemma plain_not_absolute (n : string) : plain n = true → starts_with_slash n = false.
Proof.
  unfold plain. intros H. apply andb_true_iff in H as [_ H]. apply negb_true_iff in H.
  destruct n as [|a n]; [done|]. simpl in *. by destruct (Ascii.eqb a slash).
Qed.

Lemma str_split_free (c : ascii) (n : string) :
  str_contains c n = false → str_split c n = [n].
Proof.
  induction n as [|a n IH]; [done|]. simpl.
  destruct (Ascii.eqb a c); [done|]. intros H. by rewrite (IH H).
Qed.

Lemma str_split_app_sep (c : ascii) (d t : string) :
  str_split c (d +:+ String c t) = (str_split c d ++ str_split c t)%list.
Proof.
  induction d as [|a d IH].
  - rewrite append_nil. simpl. by rewrite Ascii.eqb_refl.
  - rewrite append_cons. simpl. destruct (Ascii.eqb a c); [by rewrite IH|].
    rewrite IH. pose proof (str_split_nonempty c d). by destruct (str_split c d).
Qed.

Lemma ends_with_slash_split (d : string) :
  ends_with_slash d = true → ∃ d', d = d' +:+ "/".
Proof.
  induction d as [|a d IH]; [done|]. simpl. destruct d as [|b d].
  - intros H. apply Ascii.eqb_eq in H as ->. by exists "".
  - intros H. destruct (IH H) as [d' Hd']. exists (String a d'). by rewrite append_cons, <- Hd'.
Qed.

Lemma starts_with_slash_app (d t : string) :
  d ≠ "" → starts_with_slash (d +:+ t) = starts_with_slash d.
Proof. by destruct d. Qed.

Lemma norm_parts_app (acc xs ys : list string) :
  norm_parts acc (xs ++ ys) = norm_parts (rev (norm_parts acc xs)) ys.
Proof.
  revert acc. induction xs as [|x xs IH]; intros acc; simpl.
  - by rewrite rev_involutive.
  - repeat case_match; apply IH.
Qed.

Lemma norm_parts_snoc_plain (acc xs : list string) (n : string) :
  plain n = true → norm_parts acc (xs ++ [n]) = (norm_parts acc xs ++ [n])%list.
Proof.
  intros Hn. rewrite norm_parts_app, norm_parts_of_plain by (by repeat constructor).
  by rewrite rev_involutive.
Qed.

Lemma norm_parts_snoc_empty (acc xs : list string) :
  norm_parts acc (xs ++ [""]) = norm_parts acc xs.
Proof. rewrite norm_parts_app. simpl. by rewrite rev_involutive. Qed.

Lemma resolve_path_join (cwd d n : string) :
  plain n = true → resolve cwd (path_join d n) = (resolve cwd d ++ [n])%list.
Proof.
  intros Hn. pose proof (plain_not_absolute _ Hn) as Hrel.
  assert (Hfree : str_contains slash n = false).
  { unfold plain in Hn. apply andb_true_iff in Hn as [_ Hn]. by apply negb_true_iff. }
  unfold path_join. rewrite Hrel.
  destruct (String.eqb_spec d "") as [->|Hd]; simpl.
  { rewrite append_nil. unfold resolve. rewrite Hrel. simpl.
    rewrite (str_split_free _ _ Hfree).
    by rewrite norm_parts_snoc_plain, norm_parts_snoc_empty. }
  destruct (ends_with_slash d) eqn:He.
  - destruct (ends_with_slash_split _ He) as [d' ->].
    rewrite append_assoc. change ("/" +:+ n) with (String slash n).
    change (d' +:+ "/") with (d' +:+ String slash "").
    unfold resolve.
    replace (starts_with_slash (d' +:+ String slash n))
      with (starts_with_slash (d' +:+ String slash "")) by (by destruct d').
    rewrite !str_split_app_sep, (str_split_free _ _ Hfree).
    change (str_split slash "") with [""].
    destruct (starts_with_slash (d' +:+ String slash "")); rewrite ?app_assoc;
      by rewrite norm_parts_snoc_plain, norm_parts_snoc_empty.
  - change (d +:+ "/" +:+ n) with (d +:+ String slash n).
    unfold resolve. rewrite starts_with_slash_app by done.
    rewrite str_split_app_sep, (str_split_free _ _ Hfree).
    destruct (starts_with_slash d); rewrite ?app_assoc; by rewrite norm_parts_snoc_plain.
Qed.

Lemma path_join_nonempty (d n : string) : n ≠ "" → path_join d n ≠ "".
Proof.
  intros Hn. unfold path_join. destruct (starts_with_slash n); [done|].
  destruct (String.eqb d "" || ends_with_slash d).
  - destruct d; [by rewrite append_nil|done].
  - by destruct d.
Qed.

Lemma open_w_in_directory (w : world) (fs : gmap location node) (dir name : string) :
  plain name = true →
  dir_at w fs dir = true →
  fs !! (resolve (w_cwd w) dir ++ [name])%list ≠ Some NDir →
  ∃ m, open_w w fs (path_join dir name) = Ok ((resolve (w_cwd w) dir ++ [name])%list, m).
Proof.
  intros Hn Hdir Hfile. unfold open_w.
  destruct (String.eqb_spec (path_join dir name) "") as [He|_].
  { exfalso. revert He. apply path_join_nonempty. by destruct name. }
  rewrite resolve_path_join by done.
  set (l := (resolve (w_cwd w) dir ++ [name])%list) in *.
  assert (Hnode : fs_node fs l = fs !! l).
  { unfold l. by destruct (resolve (w_cwd w) dir). }
  rewrite Hnode. destruct (fs !! l) as [[|c m]|] eqn:E; [done|by eexists|].
  unfold l. rewrite removelast_last.
  unfold dir_at in Hdir. destruct (String.eqb dir ""); [done|].
  destruct (fs_node fs (resolve (w_cwd w) dir)) as [[|]|]; try done. by eexists.
Qed.

Lemma str_endswith_app (p t : string) : str_endswith t (p +:+ t) = true.
Proof.
  induction p as [|a p IH].
  - rewrite append_nil. destruct t; cbn [str_endswith]; by rewrite String.eqb_refl.
  - rewrite append_cons. cbn [str_endswith]. rewrite IH. apply orb_true_r.
Qed.

Lemma str_endswith_skip (p t s : string) :
  str_endswith t s = true → str_endswith t (p +:+ s) = true.
Proof.
  intros H. induction p as [|a p IH]; [by rewrite append_nil|].
  rewrite append_cons. cbn [str_endswith]. rewrite IH. apply orb_true_r.
Qed.

(** *** Sequences and dicts *)

Lemma py_len_iter (r : pyval) (items : list pyval) :
  py_iter r = Ok items → py_len r = Ok (length items).
Proof.
  destruct r; simpl; intros H; simplify_eq; f_equal.
  - induction s as [|a s IH]; simpl; [done|]. by rewrite IH.
  - by rewrite length_map.
Qed.

Lemma map_result_Forall2 {A B} (f : A → result B) (l : list A) (l' : list B) :
  map_result f l = Ok l' → Forall2 (λ x y, f x = Ok y) l l'.
Proof.
  revert l'. induction l as [|x l IH]; intros l'; unfold map_result; fold (@map_result A B).
  - intros [= <-]. constructor.
  - destruct (f x) eqn:E; [|done]. destruct (map_result f l); [|done].
    intros [= <-]. constructor; [done|]. by apply IH.
Qed.

Lemma map_result_Exists {A B} (f : A → result B) (l : list A) :
  Exists (λ x, ∃ e, f x = Raise e) l → ∃ e, map_result f l = Raise e.
Proof.
  induction 1 as [x l [e He]|x l _ [e IH]]; unfold map_result; fold (@map_result A B).
  - rewrite He. eauto.
  - destruct (f x); [|eauto]. rewrite IH. eauto.
Qed.

Lemma dict_get_fold_from k x (l d : pydict) :
  NoDup l.*1 → dict_get k l = Some x →
  dict_get k (fold_left (λ d kv, dict_set kv.1 kv.2 d) l d) = Some x.
Proof.
  revert d. induction l as [|[k' v'] l IH]; intros d Hnd Hk; simpl in *; [done|].
  apply NoDup_cons in Hnd as [Hnotin Hnd].
  destruct (String.eqb_spec k k') as [->|Hne].
  - injection Hk as ->. rewrite dict_get_fold_absent; [apply dict_get_set_eq|].
    destruct (dict_get k' l) eqn:E; [|done]. exfalso. apply Hnotin.
    clear -E. induction l as [|[k0 v0] l IH]; simpl in *; [done|].
    destruct (String.eqb_spec k' k0) as [->|?]; [by left|right; by apply IH].
  - by apply IH.
Qed.

Lemma invalid_fields_nil (fields : pydict) :
  invalid_fields fields = [] ↔ forallb (λ kv, negb (reports_invalid kv)) fields = true.
Proof.
  change (invalid_fields fields) with (List.filter reports_invalid fields).
  induction fields as [|kv fields IH]; cbn [List.filter forallb]; [done|].
  destruct (reports_invalid kv); simpl; [done|apply IH].
Qed.

(** *** JSON text *)

Lemma parse_escape_char_any (b : bool) (a : ascii) (t : string) :
  parse_string_body (escape_char b a +:+ t) = cons_char a (parse_string_body t).
Proof. destruct b, a as [[] [] [] [] [] [] [] []]; reflexivity. Qed.

Lemma parse_json_quote_any (b : bool) (s rest : string) :
  parse_string_body (escape_chars b s +:+ String dquote rest) = Some (s, rest).
Proof.
  induction s as [|a s IH]; [reflexivity|].
  change (escape_chars b (String a s)) with (escape_char b a +:+ escape_chars b s).
  rewrite append_assoc, parse_escape_char_any, IH. reflexivity.
Qed.

Lemma skip_spaces_blank (ws t : string) :
  blank ws = true → skip_spaces (ws +:+ t) = skip_spaces t.
Proof.
  induction ws as [|a ws IH]; [done|]. cbn [blank]. intros [Ha Hws]%andb_true_iff.
  rewrite append_cons. cbn [skip_spaces]. rewrite Ha. by apply IH.
Qed.

Lemma expect_blank (c : ascii) (ws t : string) :
  blank ws = true → is_json_space c = false →
  expect c (ws +:+ String c t) = Some t.
Proof.
  intros Hws Hc. unfold expect. rewrite skip_spaces_blank by done.
  simpl. by rewrite Hc, Ascii.eqb_refl.
Qed.

Lemma blank_spaces (n : nat) : blank (spaces n) = true.
Proof. by induction n. Qed.

Lemma blank_newline (indent : option nat) (level : nat) :
  blank (json_newline indent level) = true.
Proof. destruct indent; [|done]. simpl. apply blank_spaces. Qed.

Lemma length_append (a b : string) :
  String.length (a +:+ b) = (String.length a + String.length b)%nat.
Proof. induction a as [|x a IH]; [done|]. rewrite append_cons. simpl. by rewrite IH. Qed.

Lemma parse_member (b : bool) (ws : string) (kv : string * string) (rest : string)
    (fuel : nat) :
  blank ws = true →
  parse_members (S fuel) (ws +:+ member_text b kv +:+ rest)
  = match skip_spaces rest with
    | String a rest' =>
        if Ascii.eqb a "}"%char then Some ([kv], rest')
        else if Ascii.eqb a ","%char then
          '(more, rest'') ← parse_members fuel rest';
          Some (kv :: more, rest'')
        else None
    | EmptyString => None
    end.
Proof.
  intros Hws. destruct kv as [k v]. unfold member_text. simpl fst. simpl snd.
  rewrite !append_assoc, !json_quote_append.
  cbn [parse_members]. rewrite expect_blank by done. simpl.
  rewrite parse_json_quote_any. simpl.
  rewrite parse_json_quote_any. reflexivity.
Qed.

Lemma skip_spaces_stop (a : ascii) (t : string) :
  is_json_space a = false → skip_spaces (String a t) = String a t.
Proof. intros H. simpl. by rewrite H. Qed.

Lemma parse_members_joined (b : bool) (ws1 ws2 ws3 : string)
    (items : list (string * string)) (fuel : nat) :
  blank ws1 = true → blank ws2 = true → blank ws3 = true →
  items ≠ [] → (length items ≤ fuel)%nat →
  parse_members fuel
    (ws1 +:+ join_with ("," +:+ ws2) (map (member_text b) items) +:+ ws3 +:+ "}")
  = Some (items, "").
Proof.
  intros H1 H2 H3. revert ws1 H1 fuel.
  induction items as [|kv items IH]; intros ws1 H1 fuel Hne Hlen; [done|].
  destruct fuel as [|fuel]; [simpl in Hlen; lia|].
  destruct items as [|kv' items].
  - change (join_with _ (map _ [kv])) with (member_text b kv).
    rewrite parse_member by done. rewrite skip_spaces_blank by done. reflexivity.
  - change (join_with ("," +:+ ws2) (map (member_text b) (kv :: kv' :: items)))
      with (member_text b kv +:+ ("," +:+ ws2)
            +:+ join_with ("," +:+ ws2) (map (member_text b) (kv' :: items))).
    rewrite !append_assoc. rewrite parse_member by done.
    change ("," +:+ ?x) with (String "," x).
    rewrite skip_spaces_stop by done. simpl Ascii.eqb. cbv iota.
    rewrite IH; [done|done|done|simpl in *; lia].
Qed.

Lemma dumps_members (indent : option nat) (b : bool) (items : list (string * string)) :
  (fix go (d : list (string * pyval)) : result (list string) :=
     match d with
     | [] => Ok []
     | (k, x) :: d' =>
         match json_dumps indent b 1 x with
         | Raise e => Raise e
         | Ok t =>
             match go d' with
             | Raise e => Raise e
             | Ok ts => Ok ((json_quote b k +:+ ": " +:+ t) :: ts)
             end
         end
     end) (map (λ kv, (kv.1, PStr kv.2)) items)
  = Ok (map (member_text b) items).
Proof.
  induction items as [|[k v] items IH]; [done|].
  cbn [map fst snd]. rewrite IH. reflexivity.
Qed.

Lemma dumps_flat (indent : option nat) (b : bool) (kv : string * string)
    (items : list (string * string)) :
  json_dumps indent b 0 (flat (kv :: items))
  = Ok ("{" +:+ json_newline indent 1
        +:+ join_with (json_item_sep indent 1) (map (member_text b) (kv :: items))
        +:+ json_newline indent 0 +:+ "}").
Proof.
  pose proof (dumps_members indent b (kv :: items)) as H.
  destruct kv as [k v]. unfold flat. cbn [map fst snd] in *.
  unfold json_dumps; fold json_dumps. cbv beta iota.
  unfold json_dumps in H; fold json_dumps in H.
  by rewrite H.
Qed.

Lemma blank_item_sep (indent : option nat) (level : nat) :
  ∃ ws, json_item_sep indent level = "," +:+ ws ∧ blank ws = true.
Proof.
  destruct indent as [n|].
  - exists (json_newline (Some n) level). split; [done|]. apply blank_newline.
  - by exists " ".
Qed.

Lemma member_text_length (b : bool) (kv : string * string) :
  (1 ≤ String.length (member_text b kv))%nat.
Proof. unfold member_text, json_quote. rewrite append_cons. simpl. lia. Qed.

Lemma join_with_length (sep : string) (b : bool) (items : list (string * string)) :
  (length items ≤ String.length (join_with sep (map (member_text b) items)))%nat.
Proof.
  induction items as [|kv items IH]; [done|].
  pose proof (member_text_length b kv).
  destruct items as [|kv' items]; [simpl; lia|].
  change (join_with sep (map (member_text b) (kv :: kv' :: items)))
    with (member_text b kv +:+ sep +:+ join_with sep (map (member_text b) (kv' :: items))).
  rewrite !length_append. simpl length in *. lia.
Qed.

Lemma loads_flat_text (indent : option nat) (b : bool) (kv : string * string)
    (items : list (string * string)) :
  json_loads_flat
    ("{" +:+ json_newline indent 1
     +:+ join_with (json_item_sep indent 1) (map (member_text b) (kv :: items))
     +:+ json_newline indent 0 +:+ "}")
  = Some (kv :: items).
Proof.
  destruct (blank_item_sep indent 1) as (ws & -> & Hws).
  pose proof (join_with_length ("," +:+ ws) b (kv :: items)) as Hlen.
  pose proof (λ fuel, parse_members_joined b (json_newline indent 1) ws
                        (json_newline indent 0) (kv :: items) fuel
                        (blank_newline _ _) Hws (blank_newline _ _)) as Hparse.
  assert (Hfirst : expect "}"
                     (json_newline indent 1
                      +:+ join_with ("," +:+ ws) (map (member_text b) (kv :: items))
                      +:+ json_newline indent 0 +:+ "}") = None).
  { unfold expect. rewrite skip_spaces_blank by apply blank_newline.
    destruct items; cbn [map join_with]; unfold member_text at 1, json_quote at 1;
      by rewrite !append_cons. }
  remember (join_with ("," +:+ ws) (map (member_text b) (kv :: items))) as J.
  unfold json_loads_flat.
  change (expect "{" ("{" +:+ ?x)) with (Some x).
  cbn [mbind option_bind]. rewrite Hfirst, Hparse; [done|done|].
  rewrite !length_append. simpl length in *. lia.
Qed.

Lemma loads_dumped_flat (indent : option nat) (b : bool) (items : list (string * string))
    (text : string) :
  json_dumps indent b 0 (flat items) = Ok text → json_loads_flat text = Some items.
Proof.
  destruct items as [|kv items]; [by intros [= <-]|].
  rewrite dumps_flat. intros H. injection H as <-. apply loads_flat_text.
Qed.

(** *** The pattern of [kernel_list_files] *)

Lemma re_match_end (b : bool) (s : string) :
  re_match [REnd] b s = String.eqb s "" || String.eqb s (String newline "").
Proof. unfold re_match. by rewrite andb_true_r. Qed.

Lemma re_match_char (c : ascii) (rest : list re_atom) (b : bool) (x : ascii) (s : string) :
  re_match (RChar c :: rest) b (String x s) = Ascii.eqb x c && re_match rest false s.
Proof. reflexivity. Qed.

Lemma re_tail_iff (b : bool) (t : string) :
  re_match [RPlusNot slash; REnd] b t = true ↔ t ≠ "" ∧ str_contains slash t = false.
Proof.
  induction t as [|x t IH]; [by split; [|intros []]|].
  rewrite re_match_plus, re_match_end. simpl.
  destruct (Ascii.eqb x slash) eqn:E; [by split; [|intros []]|].
  rewrite orb_true_iff, IH. split.
  - intros [[_ H]|H]; [done|]. split; [done|].
    apply orb_true_iff in H as [H|H]; apply String.eqb_eq in H; by subst.
  - intros [_ H]. destruct t as [|y t]; [by right|by left].
Qed.

Lemma re_head_iff (b : bool) (s : string) :
  re_match [RPlusNot slash; RChar slash; RPlusNot slash; REnd] b s = true ↔
  ∃ u v, s = u +:+ String slash v ∧ u ≠ "" ∧ str_contains slash u = false
         ∧ v ≠ "" ∧ str_contains slash v = false.
Proof.
  induction s as [|x s IH].
  { split; [done|]. intros (u & v & H & Hu & _). by destruct u. }
  rewrite re_match_plus.
  destruct (Ascii.eqb x slash) eqn:E.
  { split; [done|]. intros (u & v & H & Hu & Hf & _). destruct u as [|y u]; [done|].
    rewrite append_cons in H. injection H as -> _. simpl in Hf. by rewrite E in Hf. }
  rewrite orb_true_iff, IH. split.
  - intros [(u & v & -> & Hu & Hf & Hv)|H].
    + exists (String x u), v. rewrite append_cons. simpl. by rewrite E.
    + destruct s as [|y t]; [done|]. rewrite re_match_char in H.
      apply andb_true_iff in H as [Hy Ht]. apply Ascii.eqb_eq in Hy as ->.
      apply re_tail_iff in Ht as [? ?].
      exists (String x ""), t. simpl. by rewrite E.
  - intros (u & v & H & Hu & Hf & Hv & Hfv). destruct u as [|y u]; [done|].
    rewrite append_cons in H. injection H as -> ->. simpl in Hf. rewrite E in Hf.
    destruct u as [|z u].
    + right. rewrite append_nil, re_match_char, Ascii.eqb_refl. simpl.
      by apply re_tail_iff.
    + left. by exists (String z u), v.
Qed.

(** *** The credential file *)

Lemma kaggle_dir_nonempty (w : world) : kaggle_dir w ≠ "".
Proof. unfold kaggle_dir, String.append. by destruct (w_home w). Qed.

Lemma kaggle_path_location (w : world) :
  resolve (w_cwd w) (kaggle_path w)
  = (resolve (w_cwd w) (kaggle_dir w) ++ ["kaggle.json"])%list.
Proof. by apply resolve_path_join. Qed.

Lemma dumped_credentials_text (u k : string) :
  "{" +:+ "" +:+ ((json_quote true "username" +:+ ": " +:+ json_quote true u)
                  +:+ ", " +:+ json_quote true "key" +:+ ": " +:+ json_quote true k)
  +:+ "" +:+ "}"
  = credentials_text u k.
Proof. unfold credentials_text. by rewrite !append_nil, !append_assoc. Qed.

Ltac run_init_kaggle u k :=
  unfold init_kaggle; unfold_monad; simpl;
  destruct (w_environ _ !! "KAGGLE_USERNAME") as [u|] eqn:?; simpl;
    [destruct (w_environ _ !! "KAGGLE_API_KEY") as [k|] eqn:?; simpl;
       [destruct (String.eqb u "") eqn:?; simpl;
          [|destruct (String.eqb k "") eqn:?; simpl]
       |destruct (String.eqb u ""); simpl]|].

(** ** The credential bootstrap, further *)

(** X1.  [init_kaggle] returns normally only when the credentials are in
    place: whenever it returns without raising, both variables were set and
    non-empty and [~/.kaggle/kaggle.json] is a regular file of mode [0o600]
    whose text parses as the JSON object of the two credentials.  Nothing
    is assumed about the file system. *)
Theorem init_kaggle_returns_only_with_file (w : world) (st : state) :
  (init_kaggle w st).1 = Ok () →
  ∃ u k text,
    credentials w = Some (u, k)
    ∧ st_fs (init_kaggle w st).2 !! resolve (w_cwd w) (kaggle_path w)
      = Some (NFile (Text text) owner_rw_only)
    ∧ json_loads_flat text = Some [("username", u); ("key", k)].
Proof.
  unfold credentials. run_init_kaggle u k; try done.
  fold (kaggle_dir w). fold (kaggle_path w).
  destruct (String.eqb (kaggle_dir w) ""); [done|].
  destruct (mkdirs_from _ _ _ _) as [fs1|] eqn:Hmk; [|done]. simpl.
  destruct (open_w _ _ _) as [[l m]|] eqn:Hopen; [|done].
  simpl. rewrite dumped_credentials_text.
  destruct (open_w_location _ _ _ _ _ Hopen) as [Hl Hne]. rewrite <- Hl.
  assert (Hnode : ∀ fs : gmap location node, fs_node fs l = fs !! l) by (by destruct l).
  rewrite Hnode, lookup_insert_eq. simpl. intros _.
  eexists u, k, _. split; [done|]. split; [apply lookup_insert_eq|].
  apply loads_credentials.
Qed.

(** The bootstrap of [kaggle_world] on an empty file system. *)
Lemma init_kaggle_returns_only_with_file_witness :
  ∃ u k text,
    credentials kaggle_world = Some (u, k)
    ∧ st_fs (init_kaggle kaggle_world (state_of ∅)).2
        !! resolve (w_cwd kaggle_world) (kaggle_path kaggle_world)
      = Some (NFile (Text text) owner_rw_only)
    ∧ json_loads_flat text = Some [("username", u); ("key", k)].
Proof.
  apply (init_kaggle_returns_only_with_file kaggle_world (state_of ∅)). reflexivity.
Defined.

(** X2.  [init_kaggle] is idempotent: run again on the state a successful
    run left, it succeeds and changes nothing (the directory is found, the
    file is rewritten with the same text and keeps mode [0o600]). *)
Theorem init_kaggle_idempotent (w : world) (st : state) :
  (init_kaggle w st).1 = Ok () →
  init_kaggle w (init_kaggle w st).2 = (Ok (), (init_kaggle w st).2).
Proof.
  run_init_kaggle u k; try done.
  fold (kaggle_dir w). fold (kaggle_path w).
  destruct (String.eqb (kaggle_dir w) "") eqn:Hd; [done|].
  destruct (mkdirs_from _ _ _ _) as [fs1|] eqn:Hmk; [|done]. simpl.
  destruct (open_w _ _ _) as [[l m]|] eqn:Hopen; [|done].
  simpl. rewrite dumped_credentials_text.
  destruct (open_w_location _ _ _ _ _ Hopen) as [Hl Hne]. rewrite <- Hl.
  assert (Hnode : ∀ fs : gmap location node, fs_node fs l = fs !! l) by (by destruct l).
  rewrite Hnode, lookup_insert_eq. simpl. intros _.
  rewrite (mkdirs_from_existing (kaggle_dir w) []).
  - simpl. unfold open_w. rewrite <- Hl.
    destruct (String.eqb (kaggle_path w) "") eqn:Hp.
    { unfold open_w in Hopen. by rewrite Hp in Hopen. }
    rewrite Hnode, lookup_insert_eq. simpl.
    rewrite Hnode, lookup_insert_eq. simpl.
    unfold set_fs. simpl. by rewrite !insert_insert_eq.
  - intros n Hn. simpl. rewrite !lookup_insert_ne.
    + by apply (mkdirs_from_prefixes _ [] _ _ _ _ Hmk).
    + rewrite Hl, kaggle_path_location. intros H. apply (f_equal length) in H.
      rewrite length_app, length_take in H. simpl in H. lia.
    + rewrite Hl, kaggle_path_location. intros H. apply (f_equal length) in H.
      rewrite length_app, length_take in H. simpl in H. lia.
Qed.

(** Two bootstraps of [kaggle_world] in a row. *)
Lemma init_kaggle_idempotent_witness :
  init_kaggle kaggle_world (init_kaggle kaggle_world (state_of ∅)).2
  = (Ok (), (init_kaggle kaggle_world (state_of ∅)).2).
Proof.
  apply (init_kaggle_idempotent kaggle_world (state_of ∅)). reflexivity.
Defined.

(** X3.  [init_kaggle] has no handler: its exceptions propagate.  When it
    raises (a [ValueError] for missing credentials, or the [OSError] of
    [os.makedirs] or [open]) whatever was at [~/.kaggle/kaggle.json] is as
    it was, nothing that existed has been removed or changed (at most
    directories were added), and the delegate was not called. *)
Theorem init_kaggle_failure_writes_nothing (w : world) (st : state) e :
  (init_kaggle w st).1 = Raise e →
  st_fs (init_kaggle w st).2 !! resolve (w_cwd w) (kaggle_path w)
  = st_fs st !! resolve (w_cwd w) (kaggle_path w)
  ∧ st_fs st ⊆ st_fs (init_kaggle w st).2
  ∧ st_calls (init_kaggle w st).2 = st_calls st.
Proof.
  run_init_kaggle u k; try done.
  fold (kaggle_dir w). fold (kaggle_path w).
  destruct (String.eqb (kaggle_dir w) "") eqn:Hd; [done|].
  destruct (mkdirs_from _ _ _ _) as [fs1|] eqn:Hmk; [|done]. simpl.
  destruct (open_w _ _ _) as [[l m]|] eqn:Hopen.
  { simpl. rewrite dumped_credentials_text.
    destruct (open_w_location _ _ _ _ _ Hopen) as [Hl Hne]. rewrite <- Hl.
    assert (Hnode : ∀ fs : gmap location node, fs_node fs l = fs !! l) by (by destruct l).
    by rewrite Hnode, lookup_insert_eq. }
  simpl. intros _. split; [|split; [by apply (mkdirs_from_extends _ _ _ _ _ Hmk)|done]].
  destruct (mkdirs_from_extends _ _ _ _ _ Hmk) as [Hsub _].
  destruct (st_fs st !! resolve (w_cwd w) (kaggle_path w)) as [n|] eqn:E.
  - by apply (lookup_weaken _ _ _ _ E).
  - destruct (fs1 !! resolve (w_cwd w) (kaggle_path w)) as [n|] eqn:E1; [|done].
    destruct (mkdirs_from_new _ _ _ _ _ _ Hmk E) as (k' & Hk' & Heq); [by eexists|].
    rewrite kaggle_path_location in Heq. apply (f_equal length) in Heq.
    simpl in Heq. rewrite length_app, length_take in Heq. simpl in Heq. lia.
Qed.

(** The home directory is a regular file: [os.makedirs] raises. *)
Lemma init_kaggle_failure_writes_nothing_witness :
  let w := {| w_cwd := "/"; w_home := "/data.csv"; w_umask := 18;
              w_environ := kaggle_env; w_api := api_returning PNone |} in
  st_fs (init_kaggle w (state_of occupied_fs)).2 !! resolve (w_cwd w) (kaggle_path w)
  = st_fs (state_of occupied_fs) !! resolve (w_cwd w) (kaggle_path w)
  ∧ st_fs (state_of occupied_fs) ⊆ st_fs (init_kaggle w (state_of occupied_fs)).2
  ∧ st_calls (init_kaggle w (state_of occupied_fs)).2 = st_calls (state_of occupied_fs).
Proof.
  intros w.
  apply (init_kaggle_failure_writes_nothing w (state_of occupied_fs)
           (os_error "NotADirectoryError" "20" "Not a directory" "/data.csv/.kaggle")).
  reflexivity.
Defined.

(** ** What [json.dump] writes is read back *)

(** X4.  Round trip of the metadata and credential files.  Whenever
    [with open(p, "w") as f: json.dump(d, f, indent=..., ensure_ascii=...)]
    returns for a dict [d] whose values are strings, the file at [p] holds
    a text that [json.load] reads back as the same keys and values, in
    order, for every [indent] and every [ensure_ascii], whatever quotes,
    backslashes, control or non-ASCII characters the strings hold. *)
Theorem write_json_reads_back (p : string) (items : list (string * string))
    (indent : option nat) (ensure_ascii : bool) (w : world) (st : state) :
  (write_json p (flat items) indent ensure_ascii w st).1 = Ok () →
  ∃ text m,
    st_fs (write_json p (flat items) indent ensure_ascii w st).2 !! resolve (w_cwd w) p
    = Some (NFile (Text text) m)
    ∧ json_loads_flat text = Some items.
Proof.
  unfold write_json.
  destruct (open_w w (st_fs st) p) as [[l m]|] eqn:Hopen; [|done].
  destruct (json_dumps indent ensure_ascii 0 (flat items)) as [text|] eqn:Hd; [|done].
  intros _. destruct (open_w_location _ _ _ _ _ Hopen) as [-> _].
  exists text, m. split; [apply lookup_insert_eq|]. by eapply loads_dumped_flat.
Qed.

(** A title with quotes and a backslash, written with [indent=4]. *)
Lemma write_json_reads_back_witness :
  let st := state_of stale_metadata_fs in
  let items := [("slug", "bert"); ("title", String dquote "BERT" +:+ String dquote " \ base")] in
  ∃ text m,
    st_fs (write_json "/out/model-metadata.json" (flat items) (Some 4%nat) false
             (demo_world (api_returning PNone)) st).2
      !! resolve "/work" "/out/model-metadata.json"
    = Some (NFile (Text text) m)
    ∧ json_loads_flat text = Some items.
Proof.
  intros st items.
  apply (write_json_reads_back "/out/model-metadata.json" items (Some 4%nat) false
           (demo_world (api_returning PNone)) st).
  reflexivity.
Defined.

(** ** Delegate calls and the file system *)

(** X5.  Exactly one call.  For every adapter that creates no folder
    (all but [kernel_pull], [kernel_output], [model_get],
    [model_instance_get], [model_instance_version_download],
    [model_initialize] and [model_instance_initialize]): when the input
    passes the local validation, the delegate is invoked exactly once, on
    the file system as the adapter found it, whether it returns or raises;
    the call goes through the executor, except in [dataset_create],
    [dataset_initialize], [dataset_download_files] and
    [dataset_create_version], which call inline; and the file system the
    adapter leaves is the one the delegate left. *)
Theorem validated_call_once (req : request) (w : world) (st : state) :
  passes_validation req w st = true →
  created_folder req w = None →
  ∃ c, st_calls (run_tool req w st).2
       = (st_calls st ++ [(dispatch_of req, c, (w_api w c (st_fs st)).1)])%list
     ∧ st_fs (run_tool req w st).2 = (w_api w c (st_fs st)).2.
Proof.
  intros Hval Hcr.
  destruct req; try discriminate Hcr; unfold passes_validation, folder_ok, metadata_ok in Hval.
  all: run_tool_cases.
  all: try (exfalso; use_guards Hval; done).
  all: try match goal with H : w_api _ ?c _ = _ |- _ => exists c; rewrite H; by split end.
  exfalso. destruct (kernel =? ""), (re_match kernel_ref_pattern true kernel); done.
Qed.

(** [dataset_create_version] is a coroutine that calls the delegate inline. *)
Lemma validated_call_once_witness :
  let req := DatasetCreateVersion "/k" "second" false true false "skip" in
  let w := demo_world (api_returning PNone) in
  ∃ c, st_calls (run_tool req w (state_of kernel_folder_fs)).2
       = (st_calls (state_of kernel_folder_fs)
          ++ [(Inline, c, (w_api w c (st_fs (state_of kernel_folder_fs))).1)])%list
     ∧ st_fs (run_tool req w (state_of kernel_folder_fs)).2
       = (w_api w c (st_fs (state_of kernel_folder_fs))).2.
Proof.
  apply (validated_call_once (DatasetCreateVersion "/k" "second" false true false "skip")
           (demo_world (api_returning PNone)) (state_of kernel_folder_fs));
    vm_compute; reflexivity.
Defined.



(** X7.  Before the call the adapters only ever add directories.  The
    file system the delegate is invoked on contains everything that was
    there, unchanged, and whatever it holds besides is a directory (made by
    [os.makedirs]); for the adapters that create no folder it is the
    initial file system itself. *)
Theorem delegate_sees_only_new_directories (req : request) (w : world) (st : state) how c r :
  st_calls (run_tool req w st).2 = (st_calls st ++ [(how, c, r)])%list →
  ∃ fs1, r = (w_api w c fs1).1
    ∧ st_fs st ⊆ fs1
    ∧ (∀ l n, fs1 !! l = Some n → st_fs st !! l = None → n = NDir)
    ∧ (created_folder req w = None → fs1 = st_fs st).
Proof.
  destruct req.
  all: run_tool_cases.
  all: intros Hc; try (by apply app_singleton_neq in Hc).
  all: apply app_inv_head in Hc; simplify_eq/=.
  all: try match goal with
       | H : mkdirs_from _ _ _ _ = Ok ?g |- _ =>
           exists g; apply mkdirs_from_extends in H as [? ?];
           match goal with H' : w_api _ _ _ = _ |- _ => rewrite H' end; by repeat split
       end.
  all: try match goal with
       | H : w_api _ _ ?g = _ |- _ =>
           exists g; rewrite H; repeat split; [done | intros ? ? ? ?; congruence]
       end.
Qed.

(** [model_initialize] creates [/new] and [/new/models] before it calls. *)
Lemma delegate_sees_only_new_directories_witness :
  let w := demo_world (api_returning PNone) in
  let c := ApiCall "model_initialize" [PStr "/new/models"] [] in
  ∃ fs1, Ok PNone = (w_api w c fs1).1
    ∧ st_fs (state_of ∅) ⊆ fs1
    ∧ (∀ l n, fs1 !! l = Some n → st_fs (state_of ∅) !! l = None → n = NDir)
    ∧ (created_folder (ModelInitialize "/new/models") w = None → fs1 = st_fs (state_of ∅)).
Proof.
  intros w c.
  apply (delegate_sees_only_new_directories (ModelInitialize "/new/models") w (state_of ∅)
           Executor c (Ok PNone)).
  vm_compute. reflexivity.
Defined.

(** X8.  After the call the adapters write one file at most.  Once the
    delegate has been invoked, the file system the adapter leaves agrees
    with the one the delegate left everywhere, except, for [model_get] and
    [model_instance_get], at the metadata file. *)
Theorem adapter_writes_only_metadata (req : request) (w : world) (st : state) how c r l :
  st_calls (run_tool req w st).2 = (st_calls st ++ [(how, c, r)])%list →
  written_file req w ≠ Some l →
  ∃ fs1, r = (w_api w c fs1).1
    ∧ st_fs (run_tool req w st).2 !! l = (w_api w c fs1).2 !! l.
Proof.
  destruct req; unfold written_file.
  all: run_tool_cases.
  all: intros Hc Hl; try (by apply app_singleton_neq in Hc).
  all: apply app_inv_head in Hc; simplify_eq/=.
  all: try match goal with
       | H : w_api _ _ ?g = _ |- _ => exists g; rewrite H; by split
       end.
  all: match goal with H : open_w _ _ _ = Ok _ |- _ => apply open_w_location in H as [-> _] end.
  all: match goal with H : w_api _ _ ?g = _ |- _ => exists g; rewrite H; split; [done|] end.
  all: simpl; rewrite lookup_insert_ne; [done|congruence].
Qed.

(** [model_get] into [/out] leaves the directory [/out] itself as it is. *)
Lemma adapter_writes_only_metadata_witness :
  let w := demo_world (api_returning bert_model) in
  let c := ApiCall "model_get" [PStr "google/bert"] [] in
  ∃ fs1, Ok bert_model = (w_api w c fs1).1
    ∧ st_fs (run_tool (ModelGet "google/bert" (Some "/out")) w
               (state_of stale_metadata_fs)).2 !! ["out"]
      = (w_api w c fs1).2 !! ["out"].
Proof.
  intros w c.
  apply (adapter_writes_only_metadata (ModelGet "google/bert" (Some "/out")) w
           (state_of stale_metadata_fs) Executor c (Ok bert_model) ["out"]).
  - vm_compute. reflexivity.
  - vm_compute. discriminate.
Defined.





(** X11.  A delete adapter either makes no delegate call at all, or its
    confirmation flag is true and it makes exactly one call, through the
    executor: the delete of the identifier it was given, unchanged, with
    [yes=True]. *)
Theorem delete_only_as_confirmed (req : request) (w : world) (st : state)
    op ident confirmation :
  delete_request req = Some (op, ident, confirmation) →
  st_calls (run_tool req w st).2 = st_calls st
  ∨ confirmation = true
    ∧ ∃ r, st_calls (run_tool req w st).2
           = (st_calls st ++ [(Executor, ApiCall op [PStr ident] [("yes", PBool true)], r)])%list.
Proof.
  intros H. destruct req; simplify_eq/=.
  all: run_tool_cases.
  all: try (by left).
  all: right; match goal with H : negb ?c = false |- _ =>
         apply negb_false_iff in H; subst end; eauto.
Qed.

(** A confirmed [model_instance_delete]. *)
Lemma delete_only_as_confirmed_witness :
  let out := run_tool (ModelInstanceDelete "o/m/jax/i" true)
               (demo_world (api_returning (PDict []))) (state_of ∅) in
  st_calls out.2 = st_calls (state_of ∅)
  ∨ true = true
    ∧ ∃ r, st_calls out.2
           = (st_calls (state_of ∅)
              ++ [(Executor,
                   ApiCall "model_instance_delete" [PStr "o/m/jax/i"] [("yes", PBool true)],
                   r)])%list.
Proof.
  exact (delete_only_as_confirmed (ModelInstanceDelete "o/m/jax/i" true)
           (demo_world (api_returning (PDict []))) (state_of ∅) _ _ _ eq_refl).
Defined.

(** ** The shape of the envelopes *)

(** X12.  The kernel, model, model-instance and model-instance-version
    adapters that take an identifier return it, unchanged, in every
    envelope (success, failed validation, soft failure, caught exception)
    under [kernel], [model], [model_instance] or
    [model_instance_version]. *)
Theorem identifier_echoed (req : request) (w : world) (st : state) key ident :
  echoed_identifier req = Some (key, ident) →
  ∃ v, (run_tool req w st).1 = Ok v ∧ field key v = Some (PStr ident).
Proof.
  intros H. destruct req; simplify_eq/=.
  all: run_tool_cases.
  all: by eexists.
Qed.

(** An unconfirmed [model_delete]. *)
Lemma identifier_echoed_witness :
  ∃ v, (run_tool (ModelDelete "o/m" false) (demo_world (api_returning PNone)) (state_of ∅)).1
       = Ok v
     ∧ field "model" v = Some (PStr "o/m").
Proof.
  exact (identifier_echoed (ModelDelete "o/m" false) (demo_world (api_returning PNone))
           (state_of ∅) "model" "o/m" eq_refl).
Defined.

(** X13.  For nineteen of the kernel and model adapters every return
    statement builds the same keys in the same order: the envelope of a
    failure has the keys of a success. *)
Theorem envelope_keys_fixed (req : request) (w : world) (st : state) keys :
  envelope_keys req = Some keys →
  ∃ d, (run_tool req w st).1 = Ok (PDict d) ∧ d.*1 = keys.
Proof.
  intros H. destruct req; simplify_eq/=.
  all: run_tool_cases.
  all: by eexists.
Qed.

(** [model_get] when the delegate raises. *)
Lemma envelope_keys_fixed_witness :
  ∃ d, (run_tool (ModelGet "google/bert" None)
          (demo_world (api_raising (Exn "ApiException" "404"))) (state_of ∅)).1
       = Ok (PDict d)
     ∧ d.*1 = ["status"; "message"; "model"; "data"; "file_path"].
Proof.
  exact (envelope_keys_fixed (ModelGet "google/bert" None)
           (demo_world (api_raising (Exn "ApiException" "404"))) (state_of ∅) _ eq_refl).
Defined.

(** X14.  The payload of a hard failure is empty.  When the validation
    fails or an exception is caught, the kernel and model adapters return
    [data] as an empty dict or list, [files] as an empty list, and
    [file_path] and [saved_path] as the empty string: a payload is never
    left over from a partial run. *)
Theorem hard_failure_payload (req : request) (w : world) (st : state) v :
  (run_tool req w st).1 = Ok v →
  passes_validation req w st = false ∨ st_caught (run_tool req w st).2 ≠ st_caught st →
  Forall (λ kv, field kv.1 v = Some kv.2) (empty_payload req).
Proof.
  intros Hv [Hval|Hc].
  - destruct (failed_validation_returns req w st Hval) as (v' & Hrun & _).
    rewrite Hrun in Hv. simplify_eq/=. revert Hrun.
    destruct req; unfold passes_validation, folder_ok, metadata_ok in Hval;
      try discriminate; try (intros; by apply Forall_nil).
    all: run_in_goal.
    all: intros; simplify_eq/=.
    all: try (by repeat constructor).
    all: try (exfalso; by eapply app_singleton_neq).
    all: try (exfalso; by eapply app_singleton_neq').
    all: exfalso; use_guards Hval; try done.
  - revert Hv Hc. destruct req; try (intros; by apply Forall_nil).
    all: run_tool_cases.
    all: intros; simplify_eq/=.
    all: try done.
    all: by repeat constructor.
Qed.

(** [model_get] when the delegate raises. *)
Lemma hard_failure_payload_witness :
  Forall (λ kv, field kv.1
                  (mk_dict [("status", PStr "error");
                            ("message", PStr "Failed to retrieve model 'google/bert': 404");
                            ("model", PStr "google/bert"); ("data", PDict []);
                            ("file_path", PStr "")]) = Some kv.2)
    (empty_payload (ModelGet "google/bert" None)).
Proof.
  apply (hard_failure_payload (ModelGet "google/bert" None)
           (demo_world (api_raising (Exn "ApiException" "404"))) (state_of ∅)).
  - vm_compute. reflexivity.
  - right. vm_compute. discriminate.
Defined.

(** ** The listing adapters *)

(** X15.  [competitions_list], [competition_submissions],
    [competition_leaderboard_view], [kernels_list] and [models_list]
    convert the items of the delegate's result one by one, in order (to
    [c.ref] for competitions, to [to_dict()] or [__dict__] otherwise).
    When every item converts, the envelope holds the converted items in
    the order of the result and its message counts them; when one item
    does not convert, the whole call is an error: no partial list. *)
Theorem listing_converts_every_item (req : request) (w : world) (st : state)
    v st' how c r key conv noun items :
  listing req = Some (key, conv, noun) →
  run_tool req w st = (Ok v, st') →
  st_calls st' = (st_calls st ++ [(how, c, Ok r)])%list →
  py_iter r = Ok items →
  (∀ data, map_result conv items = Ok data →
     field "status" v = Some (PStr "success")
     ∧ field key v = Some (PList data)
     ∧ Forall2 (λ x y, conv x = Ok y) items data
     ∧ field "message" v
       = Some (PStr ("Retrieved " +:+ str_of_nat (length items) +:+ noun)))
  ∧ (Exists (λ x, ∃ e, conv x = Raise e) items → field "status" v = Some (PStr "error")).
Proof.
  intros Hl Hrun Hcalls Hiter.
  pose proof (py_len_iter _ _ Hiter) as Hlen.
  revert Hrun. destruct req; simplify_eq/=.
  all: run_in_goal.
  all: finish_run.
  all: repeat match goal with
       | H1 : ?t = Ok _, H2 : ?t = Ok _ |- _ => rewrite H1 in H2; simplify_eq/=
       | H1 : ?t = Ok _, H2 : ?t = Raise _ |- _ => rewrite H1 in H2; simplify_eq/=
       end.
  all: split; [intros data Hdata | intros [e' He]%map_result_Exists]; simplify_eq/=.
  all: try match goal with
       | H1 : ?t = Ok _, H2 : ?t = Raise _ |- _ => rewrite H1 in H2; simplify_eq/=
       end.
  all: try done.
  all: try match goal with H : map_result _ _ = Ok _ |- _ =>
         pose proof (map_result_Forall2 _ _ _ H) as HF;
         pose proof (Forall2_length _ _ _ HF) as HL end.
  all: repeat match goal with
       | H1 : ?t = Ok _, H2 : ?t = Ok _ |- _ => rewrite H1 in H2; simplify_eq/=
       end.
  all: by rewrite ?HL.
Qed.

(** A leaderboard of two entries, one with [to_dict] and one without. *)
Lemma listing_converts_every_item_witness :
  let v := mk_dict [("status", PStr "success");
                    ("message", PStr "Retrieved 2 leaderboard entries.");
                    ("competition", PStr "titanic");
                    ("data", PList [PDict (entry_fields "a"); PDict (entry_fields "b")])] in
  (∀ data, map_result to_dict_or_vars leaderboard = Ok data →
     field "status" v = Some (PStr "success")
     ∧ field "data" v = Some (PList data)
     ∧ Forall2 (λ x y, to_dict_or_vars x = Ok y) leaderboard data
     ∧ field "message" v
       = Some (PStr ("Retrieved " +:+ str_of_nat (length leaderboard)
                     +:+ " leaderboard entries.")))
  ∧ (Exists (λ x, ∃ e, to_dict_or_vars x = Raise e) leaderboard →
     field "status" v = Some (PStr "error")).
Proof.
  apply (listing_converts_every_item (CompetitionLeaderboardView "titanic")
           (demo_world (api_returning (PList leaderboard))) (state_of ∅) _
           (State ∅ [(Executor, ApiCall "competition_leaderboard_view" [PStr "titanic"] [],
                      Ok (PList leaderboard))] [])
           Executor (ApiCall "competition_leaderboard_view" [PStr "titanic"] [])
           (PList leaderboard));
    reflexivity.
Defined.

(** X16.  The adapters that list [response.files] return the files as
    they are and count them in the message.  A response without a [files]
    attribute is an error for [competition_list_files] and
    [dataset_list_files], whose message is the [AttributeError]'s text,
    and an empty success for [model_instance_version_files], which reads
    the attribute with a default. *)
Theorem files_listed (req : request) (w : world) (st : state) v st' how c r tolerant text :
  files_listing req = Some (tolerant, text) →
  run_tool req w st = (Ok v, st') →
  st_calls st' = (st_calls st ++ [(how, c, Ok r)])%list →
  match py_getattr r "files" with
  | Ok files =>
      ∀ items, py_iter files = Ok items →
        field "status" v = Some (PStr "success")
        ∧ field "files" v = Some (PList items)
        ∧ field "message" v
          = Some (PStr ("Retrieved " +:+ str_of_nat (length items) +:+ text))
  | Raise e =>
      if tolerant then
        field "status" v = Some (PStr "success")
        ∧ field "files" v = Some (PList [])
        ∧ field "message" v = Some (PStr ("Retrieved " +:+ str_of_nat 0 +:+ text))
      else
        field "status" v = Some (PStr "error")
        ∧ field "files" v = None
        ∧ field "message" v = Some (PStr (exn_desc e))
  end.
Proof.
  intros Hl Hrun Hcalls. revert Hrun. destruct req; simplify_eq/=.
  all: run_in_goal.
  all: finish_run.
  all: repeat match goal with
       | H1 : ?t = _, H2 : ?t = _ |- _ => rewrite H1 in H2; simplify_eq/=
       end.
  all: try match goal with |- ∀ _, _ => intros items Hitems end.
  all: repeat match goal with
       | H1 : ?t = _, H2 : ?t = _ |- _ => rewrite H1 in H2; simplify_eq/=
       end.
  all: try match goal with H : py_iter _ = Ok ?i |- _ =>
         pose proof (py_len_iter _ _ H) end.
  all: repeat match goal with
       | H1 : ?t = _, H2 : ?t = _ |- _ => rewrite H1 in H2; simplify_eq/=
       end.
  all: try done.
  all: unfold py_getattr_default in *.
  all: repeat match goal with
       | H1 : ?t = _, H2 : context [match ?t with _ => _ end] |- _ =>
           rewrite H1 in H2; simpl in H2
       end.
  all: repeat match goal with
       | H1 : ?t = _, H2 : ?t = _ |- _ => rewrite H1 in H2; simplify_eq/=
       end.
  all: simplify_eq/=; done.
Qed.

(** [dataset_list_files] when the delegate returns [None]. *)
Lemma files_listed_witness :
  let v := mk_dict [("status", PStr "error");
                    ("message", PStr "'NoneType' object has no attribute 'files'")] in
  field "status" v = Some (PStr "error")
  ∧ field "files" v = None
  ∧ field "message" v = Some (PStr (exn_desc (attr_error PNone "files"))).
Proof.
  apply (files_listed (DatasetListFiles "u/d" None 20) (demo_world (api_returning PNone))
           (state_of ∅) _
           (State ∅ [(Executor,
                      ApiCall "dataset_list_files" [PStr "u/d"]
                        [("page_token", PNone); ("page_size", PInt 20)], Ok PNone)]
                  [attr_error PNone "files"])
           Executor
           (ApiCall "dataset_list_files" [PStr "u/d"]
              [("page_token", PNone); ("page_size", PInt 20)]) PNone false
           " files for dataset: u/d");
    reflexivity.
Defined.

(** X17.  [datasets_list], [dataset_status] and [kernel_list_files] hand
    the delegate's response over as it is: on success the envelope holds
    the very value the delegate returned.  In particular
    [kernel_list_files] converts the files only to count them. *)
Theorem response_passed_through (req : request) (w : world) (st : state) v st' how c r key :
  passed_through req = Some key →
  run_tool req w st = (Ok v, st') →
  st_calls st' = (st_calls st ++ [(how, c, Ok r)])%list →
  field "status" v = Some (PStr "success") →
  field key v = Some r.
Proof.
  intros Hl Hrun Hcalls. revert Hrun. destruct req; simplify_eq/=.
  all: run_in_goal.
  all: finish_run.
  all: done.
Qed.

(** [kernel_list_files] on a response with no files. *)
Lemma response_passed_through_witness :
  let files := PObj "ApiListKernelFilesResponse" None [("files", PList [])] [] in
  field "data"
    (mk_dict [("status", PStr "success");
              ("message", PStr "Retrieved 0 files from kernel: u/k");
              ("data", files)])
  = Some files.
Proof.
  intros files.
  apply (response_passed_through (KernelListFiles "u/k" None 20)
           (demo_world (api_returning files)) (state_of ∅) _
           (State ∅ [(Executor,
                      ApiCall "kernels_list_files" [PStr "u/k"]
                        [("page_token", PNone); ("page_size", PInt 20)], Ok files)] [])
           Executor
           (ApiCall "kernels_list_files" [PStr "u/k"]
              [("page_token", PNone); ("page_size", PInt 20)]) files);
    reflexivity.
Defined.

(** ** What the adapters make of a response *)

(** X18.  [kernel_push] spreads the response into the envelope after
    the envelope's own keys, so every field of the response is in the
    envelope with the response's value: a response that has a [status] or
    a [message] field overrides the adapter's. *)
Theorem kernel_push_spreads_response (folder : string) (timeout : option Z) (w : world)
    (st : state) v st' how c r fields k x :
  run_tool (KernelPush folder timeout) w st = (Ok v, st') →
  st_calls st' = (st_calls st ++ [(how, c, Ok r)])%list →
  to_dict_or_dict_or_vars r = Ok (PDict fields) →
  NoDup fields.*1 →
  dict_get k fields = Some x →
  field k v = Some x.
Proof.
  intros Hrun Hcalls Hco Hnd Hk. revert Hrun.
  run_in_goal.
  all: finish_run.
  all: repeat match goal with
       | H1 : ?t = _, H2 : ?t = _ |- _ => rewrite H1 in H2; simplify_eq/=
       end.
  all: invert_coercions.
  all: try (destruct (dict_get "error" fields); by simplify_eq/=).
  all: unfold mk_dict, dict_of; simpl; by apply dict_get_fold_from.
Qed.

(** A response that has a [status] of its own. *)
Lemma kernel_push_spreads_response_witness :
  field "status"
    (PDict [("status", PStr "complete"); ("ref", PStr "u/k")])
  = Some (PStr "complete").
Proof.
  apply (kernel_push_spreads_response "/k" None
           (demo_world (api_returning (PDict [("ref", PStr "u/k"); ("status", PStr "complete")])))
           (state_of kernel_folder_fs) _
           (State kernel_folder_fs
              [(Executor, ApiCall "kernels_push" [PStr "/k"] [("timeout", PNone)],
                Ok (PDict [("ref", PStr "u/k"); ("status", PStr "complete")]))] [])
           Executor (ApiCall "kernels_push" [PStr "/k"] [("timeout", PNone)])
           (PDict [("ref", PStr "u/k"); ("status", PStr "complete")])
           [("ref", PStr "u/k"); ("status", PStr "complete")]);
    try reflexivity.
  compute_done.
Defined.

(** X19.  When the response of [kernel_push] reports no [error], the
    envelope is a success exactly if no field whose name starts with
    [invalid] holds a truthy value; otherwise the status is ["error"] and
    the message ["Validation errors occurred"].  An [invalid...] field that
    is empty does not count. *)
Theorem kernel_push_invalid_fields (folder : string) (timeout : option Z) (w : world)
    (st : state) v st' how c r fields :
  run_tool (KernelPush folder timeout) w st = (Ok v, st') →
  st_calls st' = (st_calls st ++ [(how, c, Ok r)])%list →
  to_dict_or_dict_or_vars r = Ok (PDict fields) →
  truthy (default PNone (dict_get "error" fields)) = false →
  v = mk_dict ((if forallb (λ kv, negb (reports_invalid kv)) fields
                then [("status", PStr "success")]
                else [("status", PStr "error");
                      ("message", PStr "Validation errors occurred")]) ++ fields)%list.
Proof.
  intros Hrun Hcalls Hco Herr. revert Hrun.
  run_in_goal.
  all: finish_run.
  all: repeat match goal with
       | H1 : ?t = _, H2 : ?t = _ |- _ => rewrite H1 in H2; simplify_eq/=
       end.
  all: invert_coercions.
  all: try congruence.
  all: try done.
  all: exfalso.
  - match goal with H : invalid_fields _ = [] |- _ => apply invalid_fields_nil in H end.
    congruence.
  - match goal with H : forallb _ _ = true |- _ => apply invalid_fields_nil in H end.
    congruence.
Qed.

(** A response whose [invalidTags] is empty. *)
Lemma kernel_push_invalid_fields_witness :
  mk_dict ([("status", PStr "success")] ++ clean_push_fields)%list
  = mk_dict ((if forallb (λ kv, negb (reports_invalid kv)) clean_push_fields
              then [("status", PStr "success")]
              else [("status", PStr "error");
                    ("message", PStr "Validation errors occurred")])
             ++ clean_push_fields)%list.
Proof.
  apply (kernel_push_invalid_fields "/k" None
           (demo_world (api_returning (PDict clean_push_fields)))
           (state_of kernel_folder_fs) _
           (State kernel_folder_fs
              [(Executor, ApiCall "kernels_push" [PStr "/k"] [("timeout", PNone)],
                Ok (PDict clean_push_fields))] [])
           Executor (ApiCall "kernels_push" [PStr "/k"] [("timeout", PNone)])
           (PDict clean_push_fields));
    reflexivity.
Defined.

(** X20.  On success the create and update adapters store their own
    message in the response dict before they return it: the [data] of the
    envelope is the coerced response with its [message] set (a message the
    response had is replaced, and keeps its place), and the envelope's
    [message] is the same text. *)
Theorem success_message_stored (req : request) (w : world) (st : state)
    v st' how c r fields msg :
  success_message req = Some msg →
  run_tool req w st = (Ok v, st') →
  st_calls st' = (st_calls st ++ [(how, c, Ok r)])%list →
  coerced req r = Ok (PDict fields) →
  field "status" v = Some (PStr "success") →
  field "message" v = Some (PStr msg)
  ∧ field "data" v = Some (PDict (dict_set "message" (PStr msg) fields)).
Proof.
  intros Hm Hrun Hcalls Hco. revert Hrun. destruct req; simplify_eq/=.
  all: run_in_goal.
  all: finish_run.
  all: repeat match goal with
       | H1 : ?t = _, H2 : ?t = _ |- _ => rewrite H1 in H2; simplify_eq/=
       end.
  all: invert_coercions.
  all: simpl in *; rewrite ?dict_get_set_eq in *; simplify_eq/=.
  all: done.
Qed.

(** [model_update] on a response that has a message. *)
Lemma success_message_stored_witness :
  let fields := [("ref", PStr "u/m"); ("message", PStr "queued")] in
  let v := mk_dict [("status", PStr "success"); ("message", PStr "Model updated successfully.");
                    ("data", PDict [("ref", PStr "u/m");
                                    ("message", PStr "Model updated successfully.")])] in
  field "message" v = Some (PStr "Model updated successfully.")
  ∧ field "data" v
    = Some (PDict (dict_set "message" (PStr "Model updated successfully.") fields)).
Proof.
  intros fields v.
  apply (success_message_stored (ModelUpdate "/out")
           (demo_world (api_returning (PDict fields))) (state_of stale_metadata_fs) v
           (State stale_metadata_fs
              [(Executor, ApiCall "model_update" [PStr "/out"] [], Ok (PDict fields))] [])
           Executor (ApiCall "model_update" [PStr "/out"] []) (PDict fields) fields);
    reflexivity.
Defined.

(** X21.  [dataset_create] and [dataset_create_version] compare the
    [error] field with the empty string: the call is a success exactly
    when the field is absent or equal to [""].  Any other value, also a
    falsy one such as [None], makes it an error whose message is that
    value. *)
Theorem error_compared_with_empty (req : request) (w : world) (st : state)
    v st' how c r fields :
  compares_error_with_empty req = true →
  run_tool req w st = (Ok v, st') →
  st_calls st' = (st_calls st ++ [(how, c, Ok r)])%list →
  coerced req r = Ok (PDict fields) →
  match dict_get "error" fields with
  | Some x =>
      if is_empty_str x then field "status" v = Some (PStr "success")
      else field "status" v = Some (PStr "error") ∧ field "message" v = Some x
           ∧ field "data" v = Some (PDict fields)
  | None => field "status" v = Some (PStr "success")
  end.
Proof.
  intros Hm Hrun Hcalls Hco. revert Hrun. destruct req; simplify_eq/=.
  all: run_in_goal.
  all: finish_run.
  all: repeat match goal with
       | H1 : ?t = _, H2 : ?t = _ |- _ => rewrite H1 in H2; simplify_eq/=
       end.
  all: invert_coercions.
  all: simpl in *; rewrite ?dict_get_set_eq in *; simplify_eq/=.
  all: try done.
  all: repeat match goal with
       | H1 : dict_get ?k ?d = _, H2 : context [dict_get ?k ?d] |- _ =>
           tryif constr_eq H1 H2 then fail else (rewrite H1 in H2; simpl in H2)
       | H1 : dict_get ?k ?d = _ |- context [dict_get ?k ?d] => rewrite H1; simpl
       end.
  all: first [congruence | done].
Qed.

(** A response whose [error] is [None]. *)
Lemma error_compared_with_empty_witness :
  let v := mk_dict [("status", PStr "error"); ("message", PNone);
                    ("data", PDict none_error_fields)] in
  field "status" v = Some (PStr "error") ∧ field "message" v = Some PNone
  ∧ field "data" v = Some (PDict none_error_fields).
Proof.
  apply (error_compared_with_empty (DatasetCreate "/k" false false true "skip")
           (demo_world (api_returning none_error_response)) (state_of kernel_folder_fs) _
           (State kernel_folder_fs
              [(Inline, dataset_create_call, Ok none_error_response)] [])
           Inline dataset_create_call none_error_response none_error_fields);
    reflexivity.
Defined.

(** X22.  [competition_submit] reports success for every response that
    coerces to a dict, whatever the dict holds: its [message] and
    [submission_ref] are the response's [message] and [ref], and [None]
    for one that is missing; an [error] field is not looked at. *)
Theorem submit_reports_response (file_name message competition : string) (quiet : bool)
    (w : world) (st : state) v st' how c r fields :
  run_tool (CompetitionSubmit file_name message competition quiet) w st = (Ok v, st') →
  st_calls st' = (st_calls st ++ [(how, c, Ok r)])%list →
  to_dict_or_vars r = Ok (PDict fields) →
  v = mk_dict [("status", PStr "success");
               ("message", default PNone (dict_get "message" fields));
               ("competition", PStr competition);
               ("submission_ref", default PNone (dict_get "ref" fields))].
Proof.
  intros Hrun Hcalls Hco. revert Hrun.
  run_in_goal.
  all: finish_run.
  all: repeat match goal with
       | H1 : ?t = _, H2 : ?t = _ |- _ => rewrite H1 in H2; simplify_eq/=
       end.
  all: invert_coercions.
  all: done.
Qed.

(** A response that only has an [error]. *)
Lemma submit_reports_response_witness :
  mk_dict [("status", PStr "success"); ("message", PNone); ("competition", PStr "titanic");
           ("submission_ref", PNone)]
  = mk_dict [("status", PStr "success");
             ("message", default PNone (dict_get "message" [("error", PStr "Too large")]));
             ("competition", PStr "titanic");
             ("submission_ref", default PNone (dict_get "ref" [("error", PStr "Too large")]))].
Proof.
  apply (submit_reports_response "s.csv" "first" "titanic" false
           (demo_world (api_returning refused_submission)) (state_of ∅) _
           (State ∅ [(Executor,
                      ApiCall "competition_submit"
                        [PStr "s.csv"; PStr "first"; PStr "titanic"] [("quiet", PBool false)],
                      Ok refused_submission)] [])
           Executor
           (ApiCall "competition_submit" [PStr "s.csv"; PStr "first"; PStr "titanic"]
              [("quiet", PBool false)])
           refused_submission);
    reflexivity.
Defined.

(** X23.  [kernel_status] reads [__dict__] with a default: for a
    response without [to_dict] it always reports success, with the
    response itself as [data] if it is a dict, its [__dict__] if it has
    one, and the empty dict otherwise (for [None], say). *)
Theorem kernel_status_any_response (kernel : string) (w : world) (st : state)
    v st' how c r :
  run_tool (KernelStatus kernel) w st = (Ok v, st') →
  st_calls st' = (st_calls st ++ [(how, c, Ok r)])%list →
  has_to_dict r = false →
  field "status" v = Some (PStr "success") ∧ field "data" v = Some (status_data r).
Proof.
  intros Hrun Hcalls Hno. revert Hrun.
  unfold_tool. unfold to_dict_or_dict_or_vars_default. unfold_monad. simpl.
  repeat (run_step; simpl in * ).
  all: finish_run.
  all: try congruence.
  all: destruct r; by simplify_eq/=.
Qed.

(** The delegate returns [None]. *)
Lemma kernel_status_any_response_witness :
  let v := mk_dict [("status", PStr "success");
                    ("message", PStr "Retrieved status for kernel 'u/k'.");
                    ("kernel", PStr "u/k"); ("data", PDict [])] in
  field "status" v = Some (PStr "success") ∧ field "data" v = Some (status_data PNone).
Proof.
  apply (kernel_status_any_response "u/k" (demo_world (api_returning PNone)) (state_of ∅) _
           (State ∅ [(Executor, ApiCall "kernels_status" [PStr "u/k"] [], Ok PNone)] [])
           Executor (ApiCall "kernels_status" [PStr "u/k"] []) PNone);
    reflexivity.
Defined.

(** ** The paths in the envelopes *)

(** X24.  The path a success envelope reports ([saved_path],
    [file_path]) is absolute and denotes, from whatever working directory
    it is read, the location the adapter worked with: the download
    directory ([path or os.getcwd()] for the competition downloads, the
    path or the working directory for the others), or the metadata file
    in the target directory. *)
Theorem reported_path_absolute (req : request) (w : world) (st : state) v key used :
  reported_path req w = Some (key, used) →
  (run_tool req w st).1 = Ok v →
  field "status" v = Some (PStr "success") →
  ∃ p, field key v = Some (PStr p)
    ∧ starts_with_slash p = true
    ∧ ∀ cwd, resolve cwd p = resolve (w_cwd w) used.
Proof.
  intros Hr. destruct req; simplify_eq/=.
  all: repeat match goal with p : option string |- _ => destruct p end; simpl.
  all: run_tool_cases.
  all: intros; simplify_eq/=.
  all: eexists; split; [reflexivity|]; split; [apply abspath_absolute|].
  all: intros; apply resolve_abspath.
Qed.

(** A download into [./data/] from [/work]. *)
Lemma reported_path_absolute_witness :
  ∃ p, field "saved_path"
         (mk_dict [("status", PStr "success");
                   ("message", PStr "Downloaded all files for competition 'titanic'.");
                   ("competition", PStr "titanic"); ("saved_path", PStr "/work/data")])
       = Some (PStr p)
    ∧ starts_with_slash p = true
    ∧ ∀ cwd, resolve cwd p = resolve "/work" "./data/".
Proof.
  apply (reported_path_absolute (CompetitionDownloadFiles "titanic" (Some "./data/") false true)
           (demo_world (api_returning PNone)) (state_of ∅)); reflexivity.
Defined.



(** X26.  [dataset_metadata], [dataset_download_file] and
    [dataset_download_files] hand the caller's [path] to the delegate as
    it is, also when it is [None] or empty, and on success their message
    ends with [path or os.getcwd()]: with no path, the message names the
    working directory while the delegate was given [None]. *)
Theorem unset_path_reported_as_cwd (req : request) (w : world) (st : state)
    v st' how c r path :
  forwarded_path req = Some path →
  run_tool req w st = (Ok v, st') →
  st_calls st' = (st_calls st ++ [(how, c, Ok r)])%list →
  dict_get "path" (api_kwargs c) = Some (of_opt_str path)
  ∧ field "status" v = Some (PStr "success")
  ∧ ∃ m, field "message" v = Some (PStr m)
         ∧ str_endswith (" to path: " +:+ or_cwd w path) m = true.
Proof.
  intros Hf Hrun Hcalls. revert Hrun. destruct req; simplify_eq/=.
  all: repeat match goal with p : option string |- _ => destruct p end; simpl.
  all: run_in_goal.
  all: finish_run.
  all: split; [done|]; split; [done|]; eexists; split; [reflexivity|].
  all: repeat match goal with H : String.eqb _ _ = _ |- _ => rewrite H; simpl end.
  all: repeat first [apply str_endswith_app | apply str_endswith_skip].
Qed.

(** The scenario of the specification: no path, working directory [/work]. *)
Lemma unset_path_reported_as_cwd_witness :
  let c := ApiCall "dataset_download_files" [PStr "owner/name"]
             [("path", PNone); ("force", PBool false); ("quiet", PBool true);
              ("licenses", PNone)] in
  let v := mk_dict [("status", PStr "success");
                    ("message", PStr "Downloaded dataset: owner/name to path: /work")] in
  dict_get "path" (api_kwargs c) = Some (of_opt_str None)
  ∧ field "status" v = Some (PStr "success")
  ∧ ∃ m, field "message" v = Some (PStr m)
         ∧ str_endswith (" to path: " +:+ or_cwd (demo_world (api_returning PNone)) None) m
           = true.
Proof.
  intros c v.
  apply (unset_path_reported_as_cwd (DatasetDownloadFiles "owner/name" None false true PNone)
           (demo_world (api_returning PNone)) (state_of ∅) v
           (State ∅ [(Inline, c, Ok PNone)] []) Inline c PNone None);
    reflexivity.
Defined.

(** ** The metadata files *)

(** X27.  [model_get] and [model_instance_get] succeed whenever the
    delegate returns a response that coerces to JSON data and leaves the
    target directory in place with no directory under the metadata file's
    name: the file is then written directly inside the target directory,
    whatever dots or trailing slashes the path has. *)
Theorem get_metadata_succeeds (req : request) (w : world) (st : state)
    (dir name : string) (call : api_call) (fs1 fs2 : gmap location node)
    (r d : pyval) (text : string) :
  metadata_get req w = Some (dir, name, call) →
  passes_validation req w st = true →
  mkdirs_from dir [] (resolve (w_cwd w) dir) (st_fs st) = Ok fs1 →
  w_api w call fs1 = (Ok r, fs2) →
  to_dict_or_vars r = Ok d →
  json_dumps (Some 4%nat) false 0 d = Ok text →
  dir_at w fs2 dir = true →
  fs2 !! (resolve (w_cwd w) dir ++ [name])%list ≠ Some NDir →
  ∃ v st' m,
    run_tool req w st = (Ok v, st')
    ∧ field "status" v = Some (PStr "success")
    ∧ st_fs st' = <[(resolve (w_cwd w) dir ++ [name])%list := NFile (Text text) m]> fs2.
Proof.
  intros Hreq Hval Hmk Hapi Hco Hjson Hdir Hfile.
  assert (Hne : String.eqb dir "" = false).
  { unfold dir_at in Hdir. by destruct (String.eqb dir ""). }
  assert (Hopen : ∃ m, open_w w fs2 (path_join dir name)
                       = Ok ((resolve (w_cwd w) dir ++ [name])%list, m)).
  { apply open_w_in_directory; [|done..]. by destruct req; simplify_eq/=. }
  destruct Hopen as [m Hopen].
  destruct req; simplify_eq/=.
  all: repeat match goal with p : option string |- _ => destruct p end; simpl in *.
  all: apply negb_true_iff in Hval.
  all: unfold_tool; unfold_monad; simpl.
  all: rewrite Hval; simpl; rewrite Hne, Hmk; simpl; rewrite Hapi; simpl.
  all: rewrite Hco; simpl; rewrite Hopen, Hjson; simpl.
  all: by eexists _, _, _.
Qed.

(** [model_get] into the relative path [out/]. *)
Lemma get_metadata_succeeds_witness :
  ∃ v st' m,
    run_tool (ModelGet "google/bert" (Some "out/")) (demo_world (api_returning bert_model))
      (state_of ∅) = (Ok v, st')
    ∧ field "status" v = Some (PStr "success")
    ∧ st_fs st'
      = <[(resolve "/work" "out/" ++ ["model-metadata.json"])%list := NFile (Text bert_text) m]>
          (<[["work"; "out"] := NDir]> (<[["work"] := NDir]> ∅)).
Proof.
  apply (get_metadata_succeeds (ModelGet "google/bert" (Some "out/"))
           (demo_world (api_returning bert_model)) (state_of ∅) "out/" "model-metadata.json"
           (ApiCall "model_get" [PStr "google/bert"] [])
           (<[["work"; "out"] := NDir]> (<[["work"] := NDir]> ∅))
           (<[["work"; "out"] := NDir]> (<[["work"] := NDir]> ∅))
           bert_model (PDict bert_fields) bert_text); try reflexivity.
  vm_compute. discriminate.
Defined.

(** X28.  What the get adapters save is what the create and update
    adapters look for.  After a successful [model_get] into a directory
    that is still there, [model_create] and [model_update] on that
    directory pass their folder and metadata checks; likewise
    [model_instance_create] and [model_instance_update] after
    [model_instance_get]. *)
Theorem saved_metadata_passes_validation (req : request) (w : world) (st : state)
    dir name call v st' :
  metadata_get req w = Some (dir, name, call) →
  run_tool req w st = (Ok v, st') →
  field "status" v = Some (PStr "success") →
  dir_at w (st_fs st') dir = true →
  match req with
  | ModelGet _ _ =>
      passes_validation (ModelCreate dir) w st' = true
      ∧ passes_validation (ModelUpdate dir) w st' = true
  | ModelInstanceGet _ _ =>
      ∀ quiet dir_mode,
        passes_validation (ModelInstanceCreate dir quiet dir_mode) w st' = true
        ∧ passes_validation (ModelInstanceUpdate dir) w st' = true
  | _ => True
  end.
Proof.
  intros Hreq Hrun Hs Hdir. revert Hrun Hs.
  destruct req; simplify_eq/=.
  all: repeat match goal with p : option string |- _ => destruct p end; simpl in *.
  all: run_in_goal.
  all: intros; simplify_eq/=.
  all: try intros ? ?.
  all: unfold folder_ok, metadata_ok; simpl in *; rewrite Hdir; simpl.
  all: repeat match goal with H : ?x = false |- context [?x] => rewrite H; simpl end.
  all: try match goal with |- context [String.eqb (w_cwd ?w) ""] =>
         destruct (String.eqb (w_cwd w) "") eqn:Hc;
           [unfold dir_at in Hdir; by rewrite Hc in Hdir|simpl] end.
  all: match goal with H : open_w _ _ _ = Ok _ |- _ =>
         apply open_w_location in H as [-> Hl] end.
  all: unfold exists_at.
  all: match goal with |- context [String.eqb ?p ""] =>
         destruct (String.eqb_spec p "") as [He|_];
           [exfalso; revert He; by apply path_join_nonempty|] end.
  all: match goal with |- context [fs_node ?fs ?l] =>
         replace (fs_node fs l) with (fs !! l) by (by destruct l) end.
  all: by rewrite lookup_insert_eq.
Qed.

(** [model_get] into [/out], then [model_create]. *)
Lemma saved_metadata_passes_validation_witness :
  passes_validation (ModelCreate "/out") (demo_world (api_returning bert_model))
    (State (<[["out"; "model-metadata.json"] := NFile (Text bert_text) 420]> (<[["out"] := NDir]> ∅))
       [(Executor, ApiCall "model_get" [PStr "google/bert"] [], Ok bert_model)] [])
  = true
  ∧ passes_validation (ModelUpdate "/out") (demo_world (api_returning bert_model))
      (State (<[["out"; "model-metadata.json"] := NFile (Text bert_text) 420]> (<[["out"] := NDir]> ∅))
         [(Executor, ApiCall "model_get" [PStr "google/bert"] [], Ok bert_model)] [])
    = true.
Proof.
  apply (saved_metadata_passes_validation (ModelGet "google/bert" (Some "/out"))
           (demo_world (api_returning bert_model)) (state_of ∅) "/out" "model-metadata.json"
           (ApiCall "model_get" [PStr "google/bert"] [])
           (mk_dict [("status", PStr "success");
                     ("message",
                      PStr "Model 'google/bert' metadata retrieved and saved successfully.");
                     ("model", PStr "google/bert"); ("data", PDict bert_fields);
                     ("file_path", PStr "/out/model-metadata.json")]));
    reflexivity.
Defined.

(** X29.  A metadata file does not survive a failed [json.dump].  When
    the response coerces to a value that [json] cannot write, the file has
    been opened for writing already: [model_get] and [model_instance_get]
    return an error envelope with an empty [file_path], and the metadata
    file, also one that existed before, is left with unfinished
    content. *)
Theorem failed_dump_truncates (req : request) (w : world) (st : state)
    (dir name : string) (call : api_call) (fs1 fs2 : gmap location node)
    (r d : pyval) (e : exn) (l : location) (m : Z) :
  metadata_get req w = Some (dir, name, call) →
  passes_validation req w st = true →
  dir ≠ "" →
  mkdirs_from dir [] (resolve (w_cwd w) dir) (st_fs st) = Ok fs1 →
  w_api w call fs1 = (Ok r, fs2) →
  to_dict_or_vars r = Ok d →
  json_dumps (Some 4%nat) false 0 d = Raise e →
  open_w w fs2 (path_join dir name) = Ok (l, m) →
  ∃ v st',
    run_tool req w st = (Ok v, st')
    ∧ field "status" v = Some (PStr "error")
    ∧ field "message" v = Some (PStr (error_prefix req +:+ exn_desc e))
    ∧ field "file_path" v = Some (PStr "")
    ∧ st_fs st' = <[l := NFile Truncated m]> fs2.
Proof.
  intros Hreq Hval Hne Hmk Hapi Hco Hjson Hopen.
  apply String.eqb_neq in Hne.
  destruct req; simplify_eq/=.
  all: repeat match goal with p : option string |- _ => destruct p end; simpl in *.
  all: apply negb_true_iff in Hval.
  all: unfold_tool; unfold_monad; simpl.
  all: rewrite Hval; simpl; rewrite Hne, Hmk; simpl; rewrite Hapi; simpl.
  all: rewrite Hco; simpl; rewrite Hopen, Hjson; simpl.
  all: eexists _, _; split; [reflexivity|]; simpl; by rewrite ?append_assoc.
Qed.

(** A response with a [datetime], over an existing [model-metadata.json]. *)
Lemma failed_dump_truncates_witness :
  ∃ v st',
    run_tool (ModelGet "google/bert" (Some "/out")) (demo_world (api_returning dated_model))
      (state_of stale_metadata_fs) = (Ok v, st')
    ∧ field "status" v = Some (PStr "error")
    ∧ field "message" v
      = Some (PStr (error_prefix (ModelGet "google/bert" (Some "/out"))
                    +:+ exn_desc (type_error "Object of type datetime is not JSON serializable")))
    ∧ field "file_path" v = Some (PStr "")
    ∧ st_fs st' = <[["out"; "model-metadata.json"] := NFile Truncated 420]> stale_metadata_fs.
Proof.
  apply (failed_dump_truncates (ModelGet "google/bert" (Some "/out"))
           (demo_world (api_returning dated_model)) (state_of stale_metadata_fs)
           "/out" "model-metadata.json" (ApiCall "model_get" [PStr "google/bert"] [])
           stale_metadata_fs stale_metadata_fs dated_model (PDict dated_fields));
    try reflexivity.
  discriminate.
Defined.

(** ** The identifier of [kernel_list_files] *)

(** X30.  [kernel_list_files] accepts exactly the identifiers of the
    form [u/v] where [u] and [v] are non-empty and hold no [/] (the final
    [$] of the pattern lets a trailing newline be part of [v]); the
    emptiness test before the pattern is redundant. *)
Theorem kernel_ref_accepted_iff (kernel : string) (page_token : option string)
    (page_size : Z) (w : world) (st : state) :
  passes_validation (KernelListFiles kernel page_token page_size) w st = true ↔
  ∃ u v, kernel = u +:+ "/" +:+ v ∧ u ≠ "" ∧ str_contains slash u = false
         ∧ v ≠ "" ∧ str_contains slash v = false.
Proof.
  unfold passes_validation.
  change (re_match kernel_ref_pattern true kernel)
    with (re_match [RPlusNot slash; RChar slash; RPlusNot slash; REnd] true kernel).
  rewrite andb_true_iff, re_head_iff. split; [by intros [_ ?]|].
  intros H. split; [|done]. destruct H as (u & v & -> & Hu & _).
  by destruct u.
Qed.
